(** * Friends Messenger: the chat server's registry, dispatcher and store

    A shallow embedding of [src/server.py] and of the parts of [src/db.py]
    it calls.  Python strings are sequences of code points, JSON values are
    an inductive type, the two process-wide dictionaries [SESSIONS] and
    [CONNS] are a [gmap] and a [gset], the two tables are finite maps from
    primary key to row, and a coroutine of the server is a function from
    the world to a new world and either a value or a raised exception. *)

From Stdlib Require Import ZArith NArith Ascii String DecimalString.
From stdpp Require Import gmap list sorting.

Set Warnings "-register-all,-clear-no-such-hyp".
Local Open Scope Z_scope.

(** ** Python strings *)

(** A [str] is its sequence of code points: [len] is [length], comparison
    is lexicographic on code points. *)
Definition pystr := list N.

Fixpoint py (s : string) : pystr :=
  match s with
  | EmptyString => []
  | String a r => N_of_ascii a :: py r
  end.

Arguments py : simpl never.

(** [str.isspace] of one character: the code points Python treats as
    whitespace. *)
Definition isspace (c : N) : bool :=
  ((9 <=? c) && (c <=? 13) || (28 <=? c) && (c <=? 32) || (c =? 133)
   || (c =? 160) || (c =? 5760) || (8192 <=? c) && (c <=? 8202)
   || (c =? 8232) || (c =? 8233) || (c =? 8239) || (c =? 8287)
   || (c =? 12288))%N.

Fixpoint lstrip (s : pystr) : pystr :=
  match s with
  | [] => []
  | c :: r => if isspace c then lstrip r else s
  end.

Definition rstrip (s : pystr) : pystr := reverse (lstrip (reverse s)).

(** [s.strip()] *)
Definition strip (s : pystr) : pystr := rstrip (lstrip s).

(** [len(s)] *)
Definition len (s : pystr) : Z := Z.of_nat (length s).

(** Truth value of a string: [not s] is [s == ""]. *)
Definition str_truthy (s : pystr) : bool :=
  match s with [] => false | _ => true end.

(** [a < b], [a == b], [a > b] on strings. *)
Fixpoint str_compare (a b : pystr) : comparison :=
  match a, b with
  | [], [] => Eq
  | [], _ :: _ => Lt
  | _ :: _, [] => Gt
  | x :: a', y :: b' =>
      match N.compare x y with
      | Eq => str_compare a' b'
      | c => c
      end
  end.

Definition str_leb (a b : pystr) : bool :=
  match str_compare a b with Gt => false | _ => true end.

(** [s.partition(sep)] for a one-character separator, when [sep] occurs:
    the text before its first occurrence and the text after it. *)
Fixpoint split_once (sep : N) (s : pystr) : option (pystr * pystr) :=
  match s with
  | [] => None
  | c :: r =>
      if (c =? sep)%N then Some ([], r)
      else match split_once sep r with
           | Some (a, b) => Some (c :: a, b)
           | None => None
           end
  end.

(** [s.split(sep, maxsplit)] for a one-character separator. *)
Fixpoint split_max (sep : N) (maxsplit : nat) (s : pystr) : list pystr :=
  match maxsplit with
  | O => [s]
  | S k =>
      match split_once sep s with
      | Some (a, r) => a :: split_max sep k r
      | None => [s]
      end
  end.

(** ** Bytes, exceptions, results *)

Definition bytes := list N.

Inductive exn :=
| ValueError (message : pystr)
| AttributeError
| TypeError
| UnicodeError
| BinasciiError
| OverflowError
| IntegrityError
| DatabaseError
| PermissionError (message : pystr)
| ConnectionClosed.

Inductive result (A : Type) :=
| Ok (a : A)
| Raise (e : exn).
Arguments Ok {A} a.
Arguments Raise {A} e.

#[global] Instance result_ret : MRet result := fun A a => Ok a.
#[global] Instance result_bind : MBind result := fun A B k r =>
  match r with
  | Ok a => k a
  | Raise e => Raise e
  end.

(** [try: body except Exception: handler] *)
Definition try_except {A} (body : result A) (handler : exn -> result A)
  : result A :=
  match body with
  | Ok a => Ok a
  | Raise e => handler e
  end.

Definition of_option {A} (o : option A) (e : exn) : result A :=
  match o with
  | Some a => Ok a
  | None => Raise e
  end.

(** ** JSON values, as [json.loads] returns them *)

(** A float is kept as what the server can observe of it: whether it is
    NaN or infinite, and otherwise its truncation towards zero (what
    [int(f)] returns) and whether it is [0.0] (its truth value). *)
Inductive pyfloat :=
| FNan
| FInf
| FFinite (trunc : Z) (nonzero : bool).

Inductive json :=
| JNull
| JBool (b : bool)
| JInt (z : Z)
| JFloat (f : pyfloat)
| JStr (s : pystr)
| JList (l : list json)
| JDict (d : list (pystr * json)).

(** Truth value of a Python object, as [x or default] tests it. *)
Definition truthy (v : json) : bool :=
  match v with
  | JNull => false
  | JBool b => b
  | JInt z => negb (z =? 0)
  | JFloat FNan | JFloat FInf => true
  | JFloat (FFinite _ nz) => nz
  | JStr s => str_truthy s
  | JList l => match l with [] => false | _ => true end
  | JDict d => match d with [] => false | _ => true end
  end.

(** [x or d] *)
Definition py_or (x d : json) : json := if truthy x then x else d.

(** [d.get(k)] on a dict given by its items: [None] when the key is
    absent. *)
Fixpoint dict_get (d : list (pystr * json)) (k : pystr) : json :=
  match d with
  | [] => JNull
  | (k', v) :: r => if decide (k' = k) then v else dict_get r k
  end.

(** [v == "lit"] for a string literal. *)
Definition eq_str (v : json) (lit : pystr) : bool :=
  match v with
  | JStr s => bool_decide (s = lit)
  | _ => false
  end.

(** [v.strip()]: only a string has the method. *)
Definition json_strip (v : json) : result pystr :=
  match v with
  | JStr s => Ok (strip s)
  | _ => Raise AttributeError
  end.

(** [len(v)]: strings, lists and dicts have a length. *)
Definition json_len (v : json) : result Z :=
  match v with
  | JStr s => Ok (len s)
  | JList l => Ok (Z.of_nat (length l))
  | JDict d => Ok (Z.of_nat (length d))
  | _ => Raise TypeError
  end.

(** ** [sorted]

    [sorted(l, key=...)] is a stable sort; [sorted_by le] is the stable
    insertion sort for the comparison [le] on the keys. *)
Fixpoint insert_by {A} (le : A -> A -> bool) (x : A) (l : list A) : list A :=
  match l with
  | [] => [x]
  | y :: r => if le x y then x :: l else y :: insert_by le x r
  end.

Definition sorted_by {A} (le : A -> A -> bool) (l : list A) : list A :=
  foldr (insert_by le) [] l.

(** ** What the server takes from outside its own code

    The Python runtime and standard library (Unicode lower-casing,
    [int] of a string, [str] of an [int], UTF-8, base64, PBKDF2, the
    random salt, the iteration order of a [set]), the clock and the
    [isoformat] of a time, the database driver, and the network
    ([send_raises n ws]: the [n]-th send of the process, to [ws], raises).

    Of the driver: [driver_binds v] says whether it binds the value [v] as
    a parameter of a statement (SQLite does not bind an integer outside
    64 bits, a string with a lone surrogate, a list or a dict), and
    [driver_error params] is the exception that executing a statement
    raises when it does not bind one of [params]; [column_text v] is what
    the VARCHAR column [sticker] gives back once [v] was written to it (a
    string and [None] as they were; SQLite gives "5" for the number 5);
    and
    [column_isoformat t] is the text [fetch_history] makes of the
    [created_at] the DateTime column gives back for the time [t], which
    need not be [isoformat t] (on SQLite it lacks the offset).  Every
    definition below is parametric in them. *)
Class Runtime := {
  lower : pystr -> pystr;
  int_of_str : pystr -> option Z;
  str_of_int : Z -> pystr;
  utf8_encode : pystr -> option bytes;
  urlsafe_b64encode : bytes -> pystr;
  urlsafe_b64decode : bytes -> option bytes;
  pbkdf2_hmac_sha256 : bytes -> bytes -> Z -> result bytes;
  token_bytes : nat -> bytes;
  utcnow : Z;
  isoformat : Z -> pystr;
  column_isoformat : Z -> pystr;
  set_iter : list pystr -> list pystr;
  set_iter_NoDup : forall l, NoDup (set_iter l);
  set_iter_elem : forall l x, x ∈ set_iter l <-> x ∈ l;
  driver_binds : json -> bool;
  driver_error : list json -> exn;
  column_text : json -> json;
  column_text_str : forall s, column_text (JStr s) = JStr s;
  column_text_null : column_text JNull = JNull;
  send_raises : nat -> nat -> bool
}.

(** ** db.py *)

Section Db.
Context `{Runtime}.

Definition PBKDF2_ITERS_DEFAULT : Z := 200000.

(** [s.encode("ascii")] *)
Definition encode_ascii (s : pystr) : result bytes :=
  if forallb (fun c => (c <? 128)%N) s then Ok s else Raise UnicodeError.

(** [password.encode("utf-8")]: the password is whatever JSON value the
    frame carried. *)
Definition encode_utf8 (v : json) : result bytes :=
  match v with
  | JStr s => of_option (utf8_encode s) UnicodeError
  | _ => Raise AttributeError
  end.

(** [s.rstrip("=")] *)
Definition rstrip_eq (s : pystr) : pystr :=
  reverse ((fix go (r : pystr) : pystr :=
              match r with
              | c :: r' => if (c =? 61)%N then go r' else r
              | [] => []
              end) (reverse s)).

Definition dollar : N := 36.

Definition hash_password (password : json) (iters : Z) : result pystr :=
  match password with
  | JStr (_ :: _) =>
      let salt := token_bytes 16 in
      pw ← encode_utf8 password;
      dk ← pbkdf2_hmac_sha256 pw salt iters;
      let salt_b64 := rstrip_eq (urlsafe_b64encode salt) in
      let hash_b64 := rstrip_eq (urlsafe_b64encode dk) in
      Ok (py "pbkdf2_sha256" ++ [dollar] ++ str_of_int iters ++ [dollar]
            ++ salt_b64 ++ [dollar] ++ hash_b64)
  | _ => Raise (ValueError (py "Password must be non-empty string"))
  end.

(** [s + "=" * (-len(s) % 4)] *)
Definition pad (s : pystr) : pystr :=
  s ++ replicate (Z.to_nat ((- len s) mod 4)) 61%N.

(** The body of [verify_password], inside its [try]. *)
Definition verify_password_body (password : json) (stored : pystr)
  : result bool :=
  match split_max dollar 3 stored with
  | [algo; iters_str; salt_b64; hash_b64] =>
      if negb (bool_decide (algo = py "pbkdf2_sha256")) then Ok false
      else
        iters ← of_option (int_of_str iters_str) (ValueError []);
        salt_in ← encode_ascii (pad salt_b64);
        salt ← of_option (urlsafe_b64decode salt_in) BinasciiError;
        hash_in ← encode_ascii (pad hash_b64);
        expected ← of_option (urlsafe_b64decode hash_in) BinasciiError;
        pw ← encode_utf8 password;
        dk ← pbkdf2_hmac_sha256 pw salt iters;
        Ok (bool_decide (dk = expected))
  | _ => Raise (ValueError [])
  end.

Definition verify_password (password : json) (stored : pystr)
  : result bool :=
  try_except (verify_password_body password stored) (fun _ => Ok false).

(** *** The tables *)

Record user_row := {
  u_username : pystr;
  u_password_hash : pystr;
  u_is_admin : bool;
  u_is_active : bool;
  u_created_at : Z
}.

Record msg_row := {
  m_room : pystr;
  m_user_id : Z;
  m_kind : pystr;
  m_sticker : json;
  m_reply_to : option Z;
  m_content : pystr;
  m_created_at : Z
}.

(** A table is a finite map from its integer primary key [id] to the
    other columns. *)
Record store := {
  users : gmap Z user_row;
  messages : gmap Z msg_row
}.

Definition empty_store : store := {| users := ∅; messages := ∅ |}.

(** The key an auto-increment primary key gives the next row. *)
Definition next_id {A} (t : gmap Z A) : Z :=
  1 + foldr Z.max 0 (fst <$> map_to_list t).

(** [conn.execute(stmt)], as far as it can fail for the values of its
    parameters: the driver raises when it does not bind one of them.
    [params] lists the parameters that come from the caller; the others
    are literals of the code (the room, the kind, the empty content of a
    sticker message), booleans, times and the ASCII text of a password
    hash. *)
Definition execute (params : list json) : result unit :=
  if forallb driver_binds params then Ok tt
  else Raise (driver_error params).

(** The row of the [users] table with the username [username]: what
    [WHERE users.c.username == username] selects, and what the unique
    index of the column finds. *)
Definition select_by_username (db : store) (username : pystr)
  : option (Z * user_row) :=
  head (filter (fun r => u_username r.2 = username) (map_to_list (users db))).

Definition get_user_by_username (db : store) (username : pystr)
  : result (option (Z * user_row)) :=
  execute [JStr username];;
  Ok (select_by_username db username).

Definition create_user (db : store) (username : pystr) (password : json)
    (is_admin is_active : bool) : store * result Z :=
  let u := strip username in
  if negb ((3 <=? len u) && (len u <=? 32)) || existsb isspace u
  then (db, Raise (ValueError (py "Username must be 3..32 chars, no spaces")))
  else
    match json_len (py_or password (JStr [])) with
    | Raise e => (db, Raise e)
    | Ok n =>
        if n <? 4
        then (db, Raise (ValueError (py "Password must be at least 4 chars")))
        else
          match hash_password password PBKDF2_ITERS_DEFAULT with
          | Raise e => (db, Raise e)
          | Ok h =>
              match execute [JStr u] with
              | Raise IntegrityError =>
                  (db, Raise (ValueError (py "Username already exists")))
              | Raise e => (db, Raise e)
              | Ok _ =>
                  match select_by_username db u with
                  | Some _ =>
                      (db, Raise (ValueError (py "Username already exists")))
                  | None =>
                      let pk := next_id (users db) in
                      let row := {| u_username := u; u_password_hash := h;
                                    u_is_admin := is_admin;
                                    u_is_active := is_active;
                                    u_created_at := utcnow |} in
                      ({| users := <[pk := row]> (users db);
                          messages := messages db |}, Ok pk)
                  end
              end
          end
    end.

Definition authenticate (db : store) (username : pystr) (password : json)
  : result (option (Z * user_row)) :=
  let username := strip username in
  u ← get_user_by_username db username;
  Ok match u with
     | None => None
     | Some u =>
         if negb (u_is_active u.2) then None
         else
           match verify_password (py_or password (JStr []))
                   (u_password_hash u.2)
           with
           | Ok true => Some u
           | _ => None
           end
     end.

(** What [insert_message] returns. *)
Record base_message := {
  b_id : Z;
  b_user_id : Z;
  b_kind : pystr;
  b_sticker : json;
  b_reply_to : option Z;
  b_content : pystr;
  b_created_at : pystr
}.

(** The first statements of [insert_message]:
    [kind = (kind or "text").strip().lower()], then [kind = "text"] unless
    [kind in ("text", "sticker")]. *)
Definition normalize_kind (kind : pystr) : pystr :=
  let kind := lower (strip (if str_truthy kind then kind else py "text")) in
  if bool_decide (kind = py "text") || bool_decide (kind = py "sticker")
  then kind else py "text".

(** The parameters of the INSERT of [insert_message] that come from the
    caller: the user id, the sticker, [reply_to] unless it is [None], and
    the content of a text message (a sticker message stores the literal
    empty string). *)
Definition insert_params (user_id : Z) (kind : pystr) (sticker : json)
    (reply_to : option Z) (content : pystr) : list json :=
  [JInt user_id; sticker]
  ++ match reply_to with Some r => [JInt r] | None => [] end
  ++ (if bool_decide (kind = py "text") then [JStr content] else []).

Definition insert_message (db : store) (user_id : Z) (content : json)
    (kind : pystr) (sticker : json) (reply_to : option Z)
  : store * result base_message :=
  let room := py "general" in
  let kind := normalize_kind kind in
  match json_strip (py_or content (JStr [])) with
  | Raise e => (db, Raise e)
  | Ok content =>
      if bool_decide (kind = py "text") && negb (str_truthy content)
      then (db, Raise (ValueError (py "Empty message")))
      else if 2000 <? len content
      then (db, Raise (ValueError (py "Message is too long (max 2000 chars)")))
      else
        let checked : result json :=
          if bool_decide (kind = py "sticker") then
            s ← json_strip (py_or sticker (JStr []));
            if negb (str_truthy s)
            then Raise (ValueError (py "Sticker is empty"))
            else Ok (JStr s)
          else Ok sticker in
        match checked with
        | Raise e => (db, Raise e)
        | Ok sticker =>
            let now := utcnow in
            let stored :=
              if bool_decide (kind = py "text") then content else [] in
            match execute (insert_params user_id kind sticker reply_to
                             content) with
            | Raise e => (db, Raise e)
            | Ok _ =>
                let msg_id := next_id (messages db) in
                let row := {| m_room := room; m_user_id := user_id;
                              m_kind := kind;
                              m_sticker := column_text sticker;
                              m_reply_to := reply_to; m_content := stored;
                              m_created_at := now |} in
                ({| users := users db;
                    messages := <[msg_id := row]> (messages db) |},
                 Ok {| b_id := msg_id; b_user_id := user_id; b_kind := kind;
                       b_sticker := sticker; b_reply_to := reply_to;
                       b_content := stored;
                       b_created_at := isoformat now |})
            end
        end
  end.

(** One entry of the history, and the [message] the server broadcasts. *)
Record message := {
  msg_id : Z;
  msg_user_id : Z;
  msg_username : pystr;
  msg_kind : pystr;
  msg_sticker : json;
  msg_reply_to : option Z;
  msg_content : pystr;
  msg_created_at : pystr
}.

(** The rows of [messages JOIN users ON users.id = messages.user_id
    WHERE messages.room = 'general'], each with its [id] and the joined
    [username]. *)
Definition history_rows (db : store) : list (Z * msg_row * pystr) :=
  filter (fun r => m_room r.1.2 = py "general")
    (omap (fun r : Z * msg_row =>
             match users db !! m_user_id r.2 with
             | Some u => Some (r, u_username u)
             | None => None
             end)
          (map_to_list (messages db))).

(** [ORDER BY messages.id DESC] *)
Definition id_desc (a b : Z * msg_row * pystr) : bool := b.1.1 <=? a.1.1.

Definition fetch_history (db : store) (limit : Z) : list message :=
  let limit := Z.max 1 (Z.min 200 limit) in
  let rows := take (Z.to_nat limit) (sorted_by id_desc (history_rows db)) in
  let rows := reverse rows in
  (fun r : Z * msg_row * pystr =>
     {| msg_id := r.1.1;
        msg_user_id := m_user_id r.1.2;
        msg_username := r.2;
        msg_kind :=
          if str_truthy (m_kind r.1.2) then m_kind r.1.2 else py "text";
        msg_sticker := m_sticker r.1.2;
        msg_reply_to := m_reply_to r.1.2;
        msg_content := m_content r.1.2;
        msg_created_at := column_isoformat (m_created_at r.1.2) |}) <$> rows.

End Db.

(** ** server.py *)

(** A websocket connection is known by its identity only. *)
Definition conn := nat.

(** A session dict is either [{"authed": False}] or the four-key dict the
    login branch stores. *)
Record identity := {
  user_id : Z;
  username : pystr;
  is_admin : bool
}.

Inductive session :=
| Anonymous
| LoggedIn (who : identity).

(** [s.get("authed")] and [s.get("username")] *)
Definition authed (s : session) : bool :=
  match s with Anonymous => false | LoggedIn _ => true end.

Definition sess_username (s : session) : option pystr :=
  match s with Anonymous => None | LoggedIn i => Some (username i) end.

(** The text of an [error] event: a literal, or an f-string kept with the
    value it formats. *)
Inductive text :=
| Lit (s : pystr)
| SendFailed (e : exn)
| UnknownType (mtype : json)
| StrOf (e : exn).

(** The objects the server sends, by their ["type"]. *)
Inductive event :=
| EvError (msg : text)
| EvLoginError (msg : text)
| EvLoginOk (username : pystr) (is_admin : bool)
| EvHistory (messages : list message)
| EvMessage (m : message)
| EvPresence (online : list pystr)
| EvAdminCreateUserOk (username : pystr)
| EvAdminCreateUserError (msg : text).

(** One call of [ws.send]: the connection, the payload, and whether the
    call returned ([delivered]) or raised. *)
Record attempt := {
  target : conn;
  payload : event;
  delivered : bool
}.

(** Calls into db.py made by the handler. *)
Inductive db_call :=
| CallAuthenticate (username : pystr)
| CallCreateUser (username : pystr)
| CallInsertMessage (user_id : Z)
| CallFetchHistory (limit : Z).

(** The process state: the two global dictionaries, the database behind
    [engine], and the traces of sends and of database calls so far. *)
Record world := {
  SESSIONS : gmap conn session;
  CONNS : gset conn;
  db : store;
  sent : list attempt;
  db_calls : list db_call
}.

Definition initial_world (d : store) : world :=
  {| SESSIONS := ∅; CONNS := ∅; db := d; sent := []; db_calls := [] |}.

(** A coroutine: it changes the world and returns or raises. *)
Definition io (A : Type) : Type := world -> world * result A.

#[global] Instance io_ret : MRet io := fun A a w => (w, Ok a).
#[global] Instance io_bind : MBind io := fun A B k m w =>
  match m w with
  | (w', Ok a) => k a w'
  | (w', Raise e) => (w', Raise e)
  end.

(** [try: body except Exception as e: handler(e)] *)
Definition io_try {A} (body : io A) (handler : exn -> io A) : io A :=
  fun w =>
    match body w with
    | (w', Ok a) => (w', Ok a)
    | (w', Raise e) => handler e w'
    end.

Definition lift {A} (r : result A) : io A := fun w => (w, r).

Definition with_sessions (f : gmap conn session -> gmap conn session)
    (w : world) : world :=
  {| SESSIONS := f (SESSIONS w); CONNS := CONNS w; db := db w;
     sent := sent w; db_calls := db_calls w |}.

Definition with_conns (f : gset conn -> gset conn) (w : world) : world :=
  {| SESSIONS := SESSIONS w; CONNS := f (CONNS w); db := db w;
     sent := sent w; db_calls := db_calls w |}.

Definition with_db (d : store) (c : db_call) (w : world) : world :=
  {| SESSIONS := SESSIONS w; CONNS := CONNS w; db := d;
     sent := sent w; db_calls := db_calls w ++ [c] |}.

Definition record_send (a : attempt) (w : world) : world :=
  {| SESSIONS := SESSIONS w; CONNS := CONNS w; db := db w;
     sent := sent w ++ [a]; db_calls := db_calls w |}.

(** The first two lines of [handler]: [CONNS.add(ws)] and
    [SESSIONS[ws] = {"authed": False}]. *)
Definition register (ws : conn) (w : world) : world :=
  with_sessions (insert ws Anonymous) (with_conns (union {[ws]}) w).

(** [SESSIONS[ws] = {"authed": True, ...}] of the login branch. *)
Definition set_session (ws : conn) (s : session) (w : world) : world :=
  with_sessions (insert ws s) w.

(** [CONNS.discard(ws)] and [SESSIONS.pop(ws, None)] of [cleanup_ws]. *)
Definition unregister (ws : conn) (w : world) : world :=
  with_sessions (delete ws) (with_conns (fun c => c ∖ {[ws]}) w).

Section Server.
Context `{Runtime}.

(** [await ws.send(jdump(obj))] *)
Definition ws_send (ws : conn) (obj : event) (w : world) : world * bool :=
  let raised := send_raises (length (sent w)) ws in
  (record_send {| target := ws; payload := obj; delivered := negb raised |} w,
   raised).

Definition send_json (ws : conn) (obj : event) : io unit :=
  fun w =>
    match ws_send ws obj w with
    | (w', true) => (w', Raise ConnectionClosed)
    | (w', false) => (w', Ok tt)
    end.

Definition lower_leb (a b : pystr) : bool := str_leb (lower a) (lower b).

Definition online_usernames (w : world) : list pystr :=
  let names :=
    omap (fun e : conn * session =>
            match e.2 with
            | LoggedIn i =>
                if str_truthy (username i) then Some (username i) else None
            | Anonymous => None
            end)
         (map_to_list (SESSIONS w)) in
  sorted_by lower_leb (set_iter names).

(** The first loop of [broadcast]: one send per connection, collecting
    those whose send raised. *)
Fixpoint send_each (obj : event) (cs : list conn) (w : world)
  : world * list conn :=
  match cs with
  | [] => (w, [])
  | c :: cs' =>
      match ws_send c obj w with
      | (w', raised) =>
          match send_each obj cs' w' with
          | (w'', dead) => (w'', if raised then c :: dead else dead)
          end
      end
  end.

(** [broadcast], and through it [cleanup_ws] and [broadcast_presence],
    which call one another; [fuel] bounds the depth of the calls and
    [None] is its exhaustion. *)
Fixpoint broadcast (fuel : nat) (obj : event) (w : world) : option world :=
  match fuel with
  | O => None
  | S fuel' =>
      match send_each obj (elements (CONNS w)) w with
      | (w1, dead) =>
          foldl (fun acc d =>
                   match acc with
                   | None => None
                   | Some w2 =>
                       let w3 := unregister d w2 in
                       broadcast fuel' (EvPresence (online_usernames w3)) w3
                   end)
                (Some w1) dead
      end
  end.

Definition broadcast_presence (fuel : nat) (w : world) : option world :=
  broadcast fuel (EvPresence (online_usernames w)) w.

Definition cleanup_ws (fuel : nat) (ws : conn) (w : world) : option world :=
  broadcast_presence fuel (unregister ws w).

(** A call of [broadcast] from the handler: as deep as it needs, which is
    never deeper than one level per registered connection. *)
Definition broadcast_io (obj : event) : io unit :=
  fun w =>
    match broadcast (S (size (CONNS w))) obj w with
    | Some w' => (w', Ok tt)
    | None => (w, Ok tt)
    end.

Definition broadcast_presence_io : io unit :=
  fun w => broadcast_io (EvPresence (online_usernames w)) w.

Definition cleanup_ws_io (ws : conn) : io unit :=
  fun w => broadcast_presence_io (unregister ws w).

Definition require_authed (ws : conn) : io identity :=
  fun w =>
    match SESSIONS w !! ws with
    | Some (LoggedIn sess) => (w, Ok sess)
    | Some Anonymous | None =>
        (w, Raise (PermissionError (py "Not authenticated")))
    end.

(** The calls into db.py, on the database of the world. *)
Definition authenticate_io (username : pystr) (password : json)
  : io (option (Z * user_row)) :=
  fun w => (with_db (db w) (CallAuthenticate username) w,
            authenticate (db w) username password).

Definition create_user_io (username : pystr) (password : json)
    (is_admin is_active : bool) : io Z :=
  fun w =>
    match create_user (db w) username password is_admin is_active with
    | (d, r) => (with_db d (CallCreateUser username) w, r)
    end.

Definition insert_message_io (user_id : Z) (content : json) (kind : pystr)
    (sticker : json) (reply_to : option Z) : io base_message :=
  fun w =>
    match insert_message (db w) user_id content kind sticker reply_to with
    | (d, r) => (with_db d (CallInsertMessage user_id) w, r)
    end.

Definition fetch_history_io (limit : Z) : io (list message) :=
  fun w => (with_db (db w) (CallFetchHistory limit) w,
            Ok (fetch_history (db w) limit)).

(** [int(v)] *)
Definition py_int (v : json) : result Z :=
  match v with
  | JBool b => Ok (if b then 1 else 0)
  | JInt z => Ok z
  | JFloat (FFinite t _) => Ok t
  | JFloat FNan => Raise (ValueError [])
  | JFloat FInf => Raise OverflowError
  | JStr s => of_option (int_of_str s) (ValueError [])
  | JNull | JList _ | JDict _ => Raise TypeError
  end.

(** [int(reply_to) if reply_to is not None else None] *)
Definition reply_to_arg (reply_to : json) : result (option Z) :=
  match reply_to with
  | JNull => Ok None
  | v => z ← py_int v; Ok (Some z)
  end.

Definition on_login (ws : conn) (msg : list (pystr * json)) : io unit :=
  username ← lift (json_strip (py_or (dict_get msg (py "username")) (JStr [])));
  let password := py_or (dict_get msg (py "password")) (JStr []) in
  u ← authenticate_io username password;
  match u with
  | None =>
      send_json ws
        (EvLoginError (Lit (py "Invalid credentials or inactive user")))
  | Some (uid, row) =>
      (fun w =>
         (set_session ws
            (LoggedIn {| user_id := uid; username := u_username row;
                         is_admin := u_is_admin row |}) w, Ok tt));;
      send_json ws (EvLoginOk (u_username row) (u_is_admin row));;
      hist ← fetch_history_io 80;
      send_json ws (EvHistory hist);;
      broadcast_presence_io
  end.

Definition on_send (ws : conn) (sess : identity) (msg : list (pystr * json))
  : io unit :=
  k ← lift (json_strip (py_or (dict_get msg (py "kind")) (JStr (py "text"))));
  let kind := lower k in
  let content := py_or (dict_get msg (py "content")) (JStr []) in
  let sticker := dict_get msg (py "sticker") in
  let reply_to := dict_get msg (py "reply_to") in
  io_try
    (base ← (r ← lift (reply_to_arg reply_to);
             insert_message_io (user_id sess) content kind sticker r);
     let full := {| msg_id := b_id base; msg_user_id := user_id sess;
                    msg_username := username sess; msg_kind := b_kind base;
                    msg_sticker := b_sticker base;
                    msg_reply_to := b_reply_to base;
                    msg_content := b_content base;
                    msg_created_at := b_created_at base |} in
     mret (Some full))
    (fun e => send_json ws (EvError (SendFailed e));; mret None)
  ≫= fun r =>
       match r with
       | Some full => broadcast_io (EvMessage full)
       | None => mret tt
       end.

Definition on_who_online (ws : conn) : io unit :=
  fun w => send_json ws (EvPresence (online_usernames w)) w.

Definition on_admin_create_user (ws : conn) (sess : identity)
    (msg : list (pystr * json)) : io unit :=
  if negb (is_admin sess)
  then send_json ws (EvAdminCreateUserError (Lit (py "Admin only")))
  else
    new_username ←
      lift (json_strip (py_or (dict_get msg (py "username")) (JStr [])));
    let new_password := py_or (dict_get msg (py "password")) (JStr []) in
    let new_is_admin := truthy (dict_get msg (py "is_admin")) in
    io_try
      (create_user_io new_username new_password new_is_admin true;;
       send_json ws (EvAdminCreateUserOk new_username))
      (fun e => send_json ws (EvAdminCreateUserError (StrOf e))).

(** The body of the [async for] loop, for one received text [raw]:
    [parsed] is [json.loads(raw)], [None] when it raises.  [Ok] is the
    end of the iteration; [Raise] is an exception that leaves the loop. *)
Definition on_frame (ws : conn) (parsed : option json) : io unit :=
  match parsed with
  | None => send_json ws (EvError (Lit (py "Invalid JSON")))
  | Some (JDict msg) =>
      let mtype := dict_get msg (py "type") in
      if eq_str mtype (py "login") then on_login ws msg
      else
        io_try (sess ← require_authed ws; mret (Some sess))
               (fun _ =>
                  send_json ws (EvError (Lit (py "Please login first")));;
                  mret None)
        ≫= fun r =>
             match r with
             | None => mret tt
             | Some sess =>
                 if eq_str mtype (py "send") then on_send ws sess msg
                 else if eq_str mtype (py "who_online") then on_who_online ws
                 else if eq_str mtype (py "admin_create_user")
                 then on_admin_create_user ws sess msg
                 else if eq_str mtype (py "join")
                         || eq_str mtype (py "history_room")
                 then send_json ws
                        (EvError
                           (Lit (py "Rooms are disabled. Single chat only.")))
                 else send_json ws (EvError (UnknownType mtype))
             end
  | Some _ => lift (Raise AttributeError)
  end.

(** The loop over the frames a connection delivers. *)
Fixpoint frames_loop (ws : conn) (frames : list (option json)) : io unit :=
  match frames with
  | [] => mret tt
  | f :: rest => on_frame ws f;; frames_loop ws rest
  end.

(** [handler]: register, run the loop, swallow [ConnectionClosed], and
    in any case clean up. *)
Definition handler (ws : conn) (frames : list (option json)) : io unit :=
  fun w =>
    match frames_loop ws frames (register ws w) with
    | (w1, r) =>
        match cleanup_ws_io ws w1 with
        | (w2, _) =>
            (w2, match r with
                 | Raise ConnectionClosed => Ok tt
                 | _ => r
                 end)
        end
    end.

End Server.

(** ** A runtime to compute with

    Lower-casing as Python has it on ASCII text, [int] on strings of
    decimal digits, [str] of an integer; the base64 codec and the key
    derivation are stand-ins (the identity up to padding, and
    concatenation), of which the server uses only that decoding inverts
    encoding and that deriving a key is a function; a database driver
    after SQLite's: it binds no integer outside 64 bits, no string with a
    surrogate code point, no list and no dict, a number written to the
    [sticker] column comes back as its decimal text (a float, of which
    the model keeps no digits, as it was), and the [created_at] read back
    has lost its offset.  [fails] says which sends raise. *)
Definition ascii_lower (s : pystr) : pystr :=
  (fun c => if (65 <=? c) && (c <=? 90) then c + 32 else c)%N <$> s.

Definition ascii_int_of_str (s : pystr) : option Z :=
  match s with
  | [] => None
  | _ =>
      if forallb (fun c => (48 <=? c) && (c <=? 57))%N s
      then Some (foldl (fun acc c => 10 * acc + Z.of_N (c - 48)) 0 s)
      else None
  end.

Definition ascii_str_of_int (z : Z) : pystr :=
  py (NilZero.string_of_int (Z.to_int z)).

Definition strip_padding (b : bytes) : bytes :=
  reverse ((fix go (r : bytes) : bytes :=
              match r with
              | c :: r' => if (c =? 61)%N then go r' else r
              | [] => []
              end) (reverse b)).

Definition sqlite_binds (v : json) : bool :=
  match v with
  | JInt z => (- 2 ^ 63 <=? z) && (z <? 2 ^ 63)
  | JStr s => forallb (fun c => negb ((55296 <=? c) && (c <=? 57343)))%N s
  | JList _ | JDict _ => false
  | JNull | JBool _ | JFloat _ => true
  end.

(** The exception for the first parameter that is not bound. *)
Definition sqlite_error (params : list json) : exn :=
  match filter (fun v => sqlite_binds v = false) params with
  | JInt _ :: _ => OverflowError
  | JStr _ :: _ => UnicodeError
  | _ => DatabaseError
  end.

Definition sqlite_column_text (v : json) : json :=
  match v with
  | JInt z => JStr (ascii_str_of_int z)
  | JBool b => JStr (py (if b then "1" else "0"))
  | _ => v
  end.

Definition runtime_with (fails : nat -> nat -> bool) : Runtime :=
  {| lower := ascii_lower;
     int_of_str := ascii_int_of_str;
     str_of_int := ascii_str_of_int;
     utf8_encode := fun s =>
       if forallb (fun c => (c <? 128)%N) s then Some s else None;
     urlsafe_b64encode := fun b => b;
     urlsafe_b64decode := fun b => Some (strip_padding b);
     pbkdf2_hmac_sha256 := fun pw salt iters =>
       if iters <? 1 then Raise (ValueError []) else Ok (pw ++ salt);
     token_bytes := fun n => replicate n 65%N;
     utcnow := 0;
     isoformat := fun t => ascii_str_of_int t ++ py "+00:00";
     column_isoformat := ascii_str_of_int;
     set_iter := remove_dups;
     set_iter_NoDup := NoDup_remove_dups;
     set_iter_elem := fun l x => elem_of_remove_dups l x;
     driver_binds := sqlite_binds;
     driver_error := sqlite_error;
     column_text := sqlite_column_text;
     column_text_str := fun s => eq_refl;
     column_text_null := eq_refl;
     send_raises := fails |}.

Definition ascii_runtime : Runtime := runtime_with (fun _ _ => false).

(** ** Vocabulary of the properties *)

Section Vocabulary.
Context `{Runtime}.

(** A stored credential of the form
    [pbkdf2_sha256$iterations$salt$hash]: four fields separated by the
    first three dollar signs, the first the algorithm's name, the second
    an integer, the third and fourth base64 text that decodes. *)
Definition hash_format (stored : pystr) : Prop :=
  exists iters_str salt_b64 hash_b64 iters salt_in hash_in salt expected,
    stored = py "pbkdf2_sha256" ++ dollar :: iters_str ++ dollar :: salt_b64
               ++ dollar :: hash_b64
    /\ (dollar ∉ iters_str) /\ (dollar ∉ salt_b64)
    /\ int_of_str iters_str = Some iters
    /\ encode_ascii (pad salt_b64) = Ok salt_in
    /\ urlsafe_b64decode salt_in = Some salt
    /\ encode_ascii (pad hash_b64) = Ok hash_in
    /\ urlsafe_b64decode hash_in = Some expected.

(** [max(lo, min(hi, x))] *)
Definition clamp (x lo hi : Z) : Z := Z.max lo (Z.min hi x).

(** [w'] is [w] after the sends [new] and after the connections [gone]
    were dropped from both dictionaries; the database is untouched. *)
Definition dropped (w : world) (gone : gset conn) (new : list attempt)
    (w' : world) : Prop :=
  sent w' = sent w ++ new
  /\ db w' = db w
  /\ db_calls w' = db_calls w
  /\ CONNS w' = CONNS w ∖ gone
  /\ forall c, SESSIONS w' !! c
               = if decide (c ∈ gone) then None else SESSIONS w !! c.

(** The connections whose send raised, among the attempts [l]. *)
Definition evicted (l : list attempt) : gset conn :=
  list_to_set (target <$> filter (fun a => delivered a = false) l).

Definition is_presence (a : attempt) : Prop :=
  exists online, payload a = EvPresence online.

(** What one call [broadcast(obj)] does to the world: one send of [obj]
    per registered connection ([first]), then the presence broadcasts of
    the clean-ups ([rest]); the connections whose send raised are dropped;
    and when there was one to drop, every connection still registered has
    been sent the presence list of the final registry. *)
Definition after_broadcast (obj : event) (w w' : world) : Prop :=
  exists first rest,
    dropped w (evicted (first ++ rest)) (first ++ rest) w'
    /\ target <$> first = elements (CONNS w)
    /\ Forall (fun a => payload a = obj) first
    /\ Forall is_presence rest
    /\ (evicted first = ∅ -> rest = [])
    /\ (evicted first <> ∅ ->
        forall c, c ∈ CONNS w' ->
          exists a, a ∈ rest /\ target a = c /\ delivered a = true
                    /\ payload a = EvPresence (online_usernames w')).

(** The reply [send_json(ws, obj)] makes: one more attempt in the trace,
    nothing else changed, and [ConnectionClosed] when the send raises. *)
Definition replied (ws : conn) (obj : event) (w : world)
  : world * result unit :=
  let raised := send_raises (length (sent w)) ws in
  (record_send {| target := ws; payload := obj; delivered := negb raised |} w,
   if raised then Raise ConnectionClosed else Ok tt).

(** The validation of [insert_message], on the normalised kind and the
    stripped content and sticker: a text without content, a content of
    more than 2000 characters, a sticker message without sticker. *)
Definition send_invalid (kind content sticker : pystr) : bool :=
  bool_decide (kind = py "text") && negb (str_truthy content)
  || (2000 <? len content)
  || bool_decide (kind = py "sticker") && negb (str_truthy sticker).

(** The sends made since [w]. *)
Definition new_sends (w w' : world) : list attempt :=
  drop (length (sent w)) (sent w').

Definition is_error (a : attempt) : Prop :=
  exists t, payload a = EvError t.

(** Every account has a username of at least three characters: what
    [create_user] checks before it inserts. *)
Definition usernames_valid (d : store) : Prop :=
  forall uid row, users d !! uid = Some row -> 3 <= len (u_username row).

End Vocabulary.

(** ** Histories of the registry

    What changes the registry and the users it can hold: a connection is
    accepted (the first lines of [handler]), a login succeeds (the login
    branch stores the session of the user [authenticate] returned), a
    connection is cleaned up ([cleanup_ws]), an account is created
    ([create_user], the only writer of the [users] table). *)
Inductive registry_op :=
| OpAccept (ws : conn)
| OpLogin (ws : conn) (username : pystr) (password : json)
| OpCleanup (ws : conn)
| OpCreateUser (username : pystr) (password : json) (is_admin : bool).

Section Histories.
Context `{Runtime}.

Definition run_op (w : world) (op : registry_op) : world :=
  match op with
  | OpAccept ws => register ws w
  | OpLogin ws uname password =>
      match authenticate (db w) uname password with
      | Ok (Some u) =>
          set_session ws
            (LoggedIn {| user_id := u.1; username := u_username u.2;
                         is_admin := u_is_admin u.2 |}) w
      | _ => w
      end
  | OpCleanup ws => unregister ws w
  | OpCreateUser uname password admin =>
      {| SESSIONS := SESSIONS w; CONNS := CONNS w;
         db := (create_user (db w) uname password admin true).1;
         sent := sent w; db_calls := db_calls w |}
  end.

(** The world after the operations [ops], from an empty registry and an
    empty database. *)
Definition run_ops (ops : list registry_op) : world :=
  foldl run_op (initial_world empty_store) ops.

End Histories.

(** ** Scenarios

    Concrete worlds and frames, on [ascii_runtime], for the examples. *)

Definition frame_of_type (t : string) (fields : list (string * json)) : json :=
  JDict ((py "type", JStr (py t))
           :: ((fun f : string * json => (py f.1, f.2)) <$> fields)).

(** One connection, just accepted. *)
Definition anonymous_world : world := register 1%nat (initial_world empty_store).

Definition join_frame : json := frame_of_type "join" [].

(** A database with the users alice and bob, made by [create_user]. *)
Definition db_two_users : store :=
  (create_user (H := ascii_runtime)
     (create_user (H := ascii_runtime) empty_store
        (py "alice") (JStr (py "pw1234")) false true).1
     (py "bob") (JStr (py "pw5678")) false true).1.

Definition login_frame (u p : string) : json :=
  frame_of_type "login"
    [("username"%string, JStr (py u)); ("password"%string, JStr (py p))].

(** Connection 1 after alice logged in on it. *)
Definition alice_world : world :=
  (on_frame (H := ascii_runtime) 1%nat (Some (login_frame "alice" "pw1234"))
     (register 1%nat (initial_world db_two_users))).1.

Definition alice : identity :=
  {| user_id := 1; username := py "alice"; is_admin := false |}.

Definition bob : identity :=
  {| user_id := 2; username := py "bob"; is_admin := false |}.

(** [{"type": "send", "kind": "image", "content": "hi"}] *)
Definition image_frame : json :=
  frame_of_type "send"
    [("kind"%string, JStr (py "image"));
     ("content"%string, JStr (py "hi"))].

(** The fields of [{"type": "send", "kind": "image", "content": "hi"}] *)
Definition image_fields : list (pystr * json) :=
  [(py "type", JStr (py "send")); (py "kind", JStr (py "image"));
   (py "content", JStr (py "hi"))].

(** The fields of [{"type": "admin_create_user", "username": "carol",
    "password": "pw9999"}] *)
Definition create_carol_fields : list (pystr * json) :=
  [(py "type", JStr (py "admin_create_user"));
   (py "username", JStr (py "carol")); (py "password", JStr (py "pw9999"))].

(** The fields of [{"type": "login", "username": "bob",
    "password": "pw5678"}] *)
Definition login_bob_fields : list (pystr * json) :=
  [(py "type", JStr (py "login")); (py "username", JStr (py "bob"));
   (py "password", JStr (py "pw5678"))].

(** Two accepted connections, and a network on which every send to
    connection 2 raises. *)
Definition two_connections : world :=
  register 2%nat (register 1%nat (initial_world empty_store)).

Definition second_is_dead : Runtime :=
  runtime_with (fun _ ws => Nat.eqb ws 2).

(** A history: three accounts, four connections; bob on the first,
    Alice on the second and the third, nobody on the fourth. *)
Definition four_connections : list registry_op :=
  [OpCreateUser (py "bob") (JStr (py "pw5678")) false;
   OpCreateUser (py "Alice") (JStr (py "pw1234")) false;
   OpCreateUser (py "carol") (JStr (py "pw9999")) true;
   OpAccept 1%nat; OpAccept 2%nat; OpAccept 3%nat; OpAccept 4%nat;
   OpLogin 1%nat (py "bob") (JStr (py "pw5678"));
   OpLogin 2%nat (py "Alice") (JStr (py "pw1234"));
   OpLogin 3%nat (py " Alice ") (JStr (py "pw1234"));
   OpLogin 4%nat (py "carol") (JStr (py "wrong"))].

(** The scenario of the specification: alice logs in on connection 1,
    bob on connection 2, alice sends "hi", bob's connection closes. *)
Definition hi_frame : json :=
  frame_of_type "send"
    [("kind"%string, JStr (py "text")); ("content"%string, JStr (py "hi"))].

Definition spec_scenario : world :=
  let w1 := alice_world in
  let w2 := (on_frame (H := ascii_runtime) 2%nat
               (Some (login_frame "bob" "pw5678")) (register 2%nat w1)).1 in
  let w3 := (on_frame (H := ascii_runtime) 1%nat (Some hi_frame) w2).1 in
  (cleanup_ws_io (H := ascii_runtime) 2%nat w3).1.

(** The messages table after alice sent "one", "two" and "three". *)
Definition db_three_messages : store :=
  foldl (fun d c => (insert_message (H := ascii_runtime) d 1 (JStr (py c))
                       (py "text") JNull None).1)
    db_two_users ["one"; "two"; "three"]%string.

(** [{"type": "send", "kind": 5}] *)
Definition numeric_kind_frame : json :=
  frame_of_type "send" [("kind"%string, JInt 5)].

(** ** server_start.py *)

(** How [ensure_admin_if_needed] ends: it returns, it leaves the process by
    [SystemExit], or an exception of [strip], of [get_user_by_username] or
    of [create_user] escapes. *)
Inductive startup :=
| Returned
| SystemExit (message : pystr)
| Escaped (e : exn).

Section ServerStart.
Context `{Runtime}.

(** [ensure_admin_if_needed(cfg)], on the database behind the engine:
    [init_admin_username] is [cfg.get("init_admin_username")] and [pwd] is
    what [getpass] returns when it is asked. *)
Definition ensure_admin_if_needed (d : store) (init_admin_username : json)
    (pwd : pystr) : store * startup :=
  match json_strip (py_or init_admin_username (JStr [])) with
  | Raise e => (d, Escaped e)
  | Ok admin_username =>
      if negb (str_truthy admin_username) then (d, Returned)
      else
        match get_user_by_username d admin_username with
        | Raise e => (d, Escaped e)
        | Ok (Some _) => (d, Returned)
        | Ok None =>
            if negb (str_truthy pwd)
            then (d, SystemExit (py "Empty password."))
            else
              match create_user d admin_username (JStr pwd) true true with
              | (d', Ok _) => (d', Returned)
              | (d', Raise e) => (d', Escaped e)
              end
        end
  end.

End ServerStart.

(** ** Vocabulary of the further properties *)

Section MoreVocabulary.
Context `{Runtime}.

(** The [unique=True] of the [username] column. *)
Definition usernames_unique (d : store) : Prop :=
  NoDup ((fun r : Z * user_row => u_username r.2) <$> map_to_list (users d)).

(** Every row of [d] is a row of [d'], with the same key and columns. *)
Definition rows_kept (d d' : store) : Prop :=
  (forall i r, users d !! i = Some r -> users d' !! i = Some r)
  /\ (forall i r, messages d !! i = Some r -> messages d' !! i = Some r).

(** The database after a list of calls of [create_user], given by their
    arguments, in order, each on the result of the one before; a call that
    raises leaves the database as it was. *)
Definition create_users (l : list (pystr * json * bool * bool)) : store :=
  foldl (fun d a => (create_user d a.1.1.1 a.1.1.2 a.1.2 a.2).1)
    empty_store l.

(** What a stored message is allowed to be: a text with stripped,
    non-empty content of at most 2000 characters, or a sticker with empty
    content and a non-empty, stripped sticker string. *)
Definition message_valid (r : msg_row) : Prop :=
  m_room r = py "general"
  /\ (m_kind r = py "text" /\ m_content r <> [] /\ len (m_content r) <= 2000
        /\ strip (m_content r) = m_content r
      \/ m_kind r = py "sticker" /\ m_content r = []
         /\ exists s, m_sticker r = JStr s /\ s <> [] /\ strip s = s).

Definition messages_valid (d : store) : Prop :=
  forall i r, messages d !! i = Some r -> message_valid r.

(** The row [insert_message] stores when it returns the dict [b]: the
    sticker as the column keeps it, and the time of which the dict has the
    [isoformat]. *)
Definition row_of (b : base_message) : msg_row :=
  {| m_room := py "general"; m_user_id := b_user_id b; m_kind := b_kind b;
     m_sticker := column_text (b_sticker b); m_reply_to := b_reply_to b;
     m_content := b_content b; m_created_at := utcnow |}.

(** base64 gives back the bytes [b] it encoded, through the [rstrip("=")]
    of [hash_password] and the [pad] of [verify_password], and its text is
    ASCII without a dollar sign. *)
Definition codec_round_trips (b : bytes) : Prop :=
  (dollar ∉ rstrip_eq (urlsafe_b64encode b))
  /\ exists x, encode_ascii (pad (rstrip_eq (urlsafe_b64encode b))) = Ok x
               /\ urlsafe_b64decode x = Some b.

(** What [verify_password] needs of the runtime to read back what
    [hash_password] wrote for [password]: [int] inverts [str] on the
    iteration count, and base64 round-trips on the salt and on the derived
    key. *)
Definition hashing_round_trips (password : json) (iters : Z) : Prop :=
  int_of_str (str_of_int iters) = Some iters
  /\ (dollar ∉ str_of_int iters)
  /\ codec_round_trips (token_bytes 16)
  /\ forall pw dk,
       encode_utf8 password = Ok pw ->
       pbkdf2_hmac_sha256 pw (token_bytes 16) iters = Ok dk ->
       codec_round_trips dk.

(** What handling frames of the connection [ws] may do to the world: the
    trace of sends and the trace of database calls grow; no connection is
    added; another connection stays registered, with the session it had,
    unless a send to it raised, and then it is dropped from both
    dictionaries; no row of the database is deleted or changed; unique
    usernames and valid messages stay so. *)
Definition frame_effect (ws : conn) (w w' : world) : Prop :=
  exists new more,
    sent w' = sent w ++ new
    /\ db_calls w' = db_calls w ++ more
    /\ CONNS w' ⊆ CONNS w
    /\ (forall c, c <> ws -> c ∈ CONNS w' <-> c ∈ CONNS w /\ c ∉ evicted new)
    /\ (forall c, c <> ws ->
          SESSIONS w' !! c
          = if decide (c ∈ evicted new) then None else SESSIONS w !! c)
    /\ rows_kept (db w) (db w')
    /\ (usernames_unique (db w) -> usernames_unique (db w'))
    /\ (messages_valid (db w) -> messages_valid (db w')).

Definition respects {A} (ws : conn) (m : io A) : Prop :=
  forall w, frame_effect ws w (m w).1.

(** The session of a connection is an account of the database: the row
    with its [user_id] has its username and its admin flag, and is
    active. *)
Definition session_backed (d : store) (s : session) : Prop :=
  match s with
  | Anonymous => True
  | LoggedIn i =>
      exists row, users d !! user_id i = Some row
                  /\ u_username row = username i
                  /\ u_is_admin row = is_admin i
                  /\ u_is_active row = true
  end.

Definition sessions_backed (w : world) : Prop :=
  forall c s, SESSIONS w !! c = Some s -> session_backed (db w) s.

Definition account_named (d : store) (name : pystr) : Prop :=
  exists i row, users d !! i = Some row /\ u_username row = name.

(** Where a client gets a message from: the broadcast of a [send], made
    of the dict [insert_message] returned, or a history, read from the
    table. *)
Inductive origin := Broadcast | History.

(** A message as a client is sent it is a stored one: the row with its id
    has its user id, kind, [reply_to] and content, and its username is
    that of the account the row names.  In a history its sticker is what
    the column holds and its [created_at] is the text [fetch_history]
    makes of the stored time; in a broadcast its sticker is the value that
    was written to the column and its [created_at] is the [isoformat] of
    the stored time. *)
Definition message_backed (o : origin) (d : store) (m : message) : Prop :=
  exists r u,
    messages d !! msg_id m = Some r
    /\ users d !! msg_user_id m = Some u
    /\ m_user_id r = msg_user_id m
    /\ u_username u = msg_username m
    /\ msg_kind m = (if str_truthy (m_kind r) then m_kind r else py "text")
    /\ m_sticker r = match o with
                     | Broadcast => column_text (msg_sticker m)
                     | History => msg_sticker m
                     end
    /\ msg_reply_to m = m_reply_to r
    /\ msg_content m = m_content r
    /\ msg_created_at m = match o with
                          | Broadcast => isoformat (m_created_at r)
                          | History => column_isoformat (m_created_at r)
                          end.

(** What an event says about the database is so: its messages are stored,
    the names of a presence list, of [login_ok] and of
    [admin_create_user_ok] are accounts. *)
Definition payload_backed (d : store) (ev : event) : Prop :=
  match ev with
  | EvMessage m => message_backed Broadcast d m
  | EvHistory l => Forall (message_backed History d) l
  | EvPresence l => Forall (account_named d) l
  | EvLoginOk name admin =>
      exists i row, users d !! i = Some row /\ u_username row = name
                    /\ u_is_admin row = admin /\ u_is_active row = true
  | EvAdminCreateUserOk name => account_named d name
  | EvError _ | EvLoginError _ | EvAdminCreateUserError _ => True
  end.

Definition sends_backed (w : world) : Prop :=
  Forall (fun a => payload_backed (db w) (payload a)) (sent w).

Definition world_sound (w : world) : Prop :=
  sessions_backed w /\ sends_backed w.

(** [m], started in a sound world where [P] holds, leaves a sound world,
    and one where [Q] holds of what it returns. *)
Definition keeps {A} (P : world -> Prop) (m : io A)
    (Q : A -> world -> Prop) : Prop :=
  forall w, world_sound w -> P w ->
    world_sound (m w).1 /\ forall a, (m w).2 = Ok a -> Q a (m w).1.

(** [m] leaves the part [f] of the database as it is. *)
Definition preserves {A X} (f : store -> X) (m : io A) : Prop :=
  forall w, f (db (m w).1) = f (db w).

(** What happens at the server, one connection at a time: a connection is
    accepted (the first two lines of [handler]), a frame arrives on a
    connection (one turn of its loop), a connection ends ([cleanup_ws] in
    the [finally] of [handler]). *)
Inductive server_event :=
| Accepted (ws : conn)
| Received (ws : conn) (parsed : option json)
| Ended (ws : conn).

Definition run_event (w : world) (ev : server_event) : world :=
  match ev with
  | Accepted ws => register ws w
  | Received ws parsed => (on_frame ws parsed w).1
  | Ended ws => (cleanup_ws_io ws w).1
  end.

Definition run_events (evs : list server_event) (w : world) : world :=
  foldl run_event w evs.

End MoreVocabulary.

(** ** Further scenarios *)

(** The database of alice and bob with an admin account, and connection 1
    after that admin logged in on it. *)
Definition db_with_admin : store :=
  (create_user (H := ascii_runtime) db_two_users
     (py "root") (JStr (py "pw0000")) true true).1.

Definition root : identity :=
  {| user_id := 3; username := py "root"; is_admin := true |}.

Definition admin_world : world :=
  (on_frame (H := ascii_runtime) 1%nat (Some (login_frame "root" "pw0000"))
     (register 1%nat (initial_world db_with_admin))).1.

(** The fields of [{"type": "who_online"}] and of [{"type": "ping"}] *)
Definition who_online_fields : list (pystr * json) :=
  [(py "type", JStr (py "who_online"))].

Definition ping_fields : list (pystr * json) :=
  [(py "type", JStr (py "ping"))].

(** Alice connects, logs in and sends "hi". *)
Definition alice_says_hi : list server_event :=
  [Accepted 1%nat;
   Received 1%nat (Some (login_frame "alice" "pw1234"));
   Received 1%nat (Some hi_frame)].

Definition hi_message : message :=
  {| msg_id := 1; msg_user_id := 1; msg_username := py "alice";
     msg_kind := py "text"; msg_sticker := JNull; msg_reply_to := None;
     msg_content := py "hi"; msg_created_at := py "0+00:00" |}.

(** What [insert_message] returns for alice's "hi". *)
Definition hi_base : base_message :=
  {| b_id := 1; b_user_id := 1; b_kind := py "text"; b_sticker := JNull;
     b_reply_to := None; b_content := py "hi";
     b_created_at := py "0+00:00" |}.

(** Alice on connection 1 and a second connection, just accepted. *)
Definition alice_and_peer : world := register 2%nat alice_world.

(** What the driver does not take, and what the columns change:
    [{"type": "send", "content": "hi", "reply_to": 2**63}],
    [{"type": "login", "username": "\ud800abc", "password": "pw1234"}] and
    [{"type": "send", "content": "hi", "sticker": 5}]. *)
Definition big_reply_frame : json :=
  frame_of_type "send"
    [("content"%string, JStr (py "hi")); ("reply_to"%string, JInt (2 ^ 63))].

Definition surrogate_name : pystr := 55296%N :: py "abc".

Definition surrogate_login_frame : json :=
  JDict [(py "type", JStr (py "login"));
         (py "username", JStr surrogate_name);
         (py "password", JStr (py "pw1234"))].

Definition sticker_five_frame : json :=
  frame_of_type "send"
    [("content"%string, JStr (py "hi")); ("sticker"%string, JInt 5)].

(** ** Strings and sorting *)

Lemma split_once_Some sep s a b :
  split_once sep s = Some (a, b) -> s = a ++ sep :: b /\ (sep ∉ a).
Proof.
  revert a b. induction s as [|c r IH]; intros a b; simpl; [done|].
  destruct (N.eqb_spec c sep) as [->|Hne].
  - intros [= <- <-]. split; [done | apply not_elem_of_nil].
  - destruct (split_once sep r) as [[a' b']|]; [|done].
    intros [= <- <-]. destruct (IH a' b' eq_refl) as [-> Hnot].
    split; [done|]. rewrite elem_of_cons. intros [Heq|Hin]; [congruence|done].
Qed.

Lemma split_max_four sep s a b c d :
  split_max sep 3 s = [a; b; c; d] ->
  s = a ++ sep :: b ++ sep :: c ++ sep :: d
  /\ (sep ∉ a) /\ (sep ∉ b) /\ (sep ∉ c).
Proof.
  simpl.
  destruct (split_once sep s) as [[a1 r1]|] eqn:E1; [|done].
  destruct (split_once sep r1) as [[a2 r2]|] eqn:E2; [|done].
  destruct (split_once sep r2) as [[a3 r3]|] eqn:E3; [|done].
  intros [= <- <- <- <-].
  apply split_once_Some in E1 as [-> ?].
  apply split_once_Some in E2 as [-> ?].
  apply split_once_Some in E3 as [-> ?]. done.
Qed.

Section Sorting.
Context {A : Type} (le : A -> A -> bool).

Lemma insert_by_Permutation x l : insert_by le x l ≡ₚ x :: l.
Proof.
  induction l as [|y r IH]; simpl; [done|].
  destruct (le x y); [done|]. rewrite IH. apply Permutation_swap.
Qed.

Lemma sorted_by_Permutation l : sorted_by le l ≡ₚ l.
Proof.
  induction l as [|x r IH]; simpl; [done|].
  unfold sorted_by in *. simpl. rewrite insert_by_Permutation. by rewrite IH.
Qed.

Hypothesis le_total : forall a b, le a b = false -> le b a = true.
Hypothesis le_trans : forall a b c, le a b = true -> le b c = true -> le a c = true.

Lemma insert_by_StronglySorted x l :
  StronglySorted (fun a b => le a b = true) l ->
  StronglySorted (fun a b => le a b = true) (insert_by le x l).
Proof.
  induction 1 as [|y r Hs IH Hall]; simpl.
  - repeat constructor.
  - destruct (le x y) eqn:E.
    + constructor; [by constructor|].
      constructor; [done|].
      eapply Forall_impl; [exact Hall|]. intros z Hz. by eapply le_trans.
    + constructor; [done|].
      rewrite insert_by_Permutation. constructor; [by apply le_total | done].
Qed.

Lemma sorted_by_StronglySorted l :
  StronglySorted (fun a b => le a b = true) (sorted_by le l).
Proof.
  induction l as [|x r IH]; [constructor|].
  apply insert_by_StronglySorted, IH.
Qed.

End Sorting.

Section PasswordProperties.
Context `{Runtime}.

Lemma verify_password_body_true password stored :
  verify_password_body password stored = Ok true -> hash_format stored.
Proof.
  unfold verify_password_body.
  destruct (split_max dollar 3 stored) as [|a [|b [|c [|d [|? ?]]]]] eqn:E;
    try done.
  apply split_max_four in E as (-> & _ & Hb & Hc).
  case_bool_decide as Halgo; simpl; [|done].
  destruct (int_of_str b) as [iters|] eqn:Ei; simpl; [|done].
  destruct (encode_ascii (pad c)) as [salt_in|] eqn:Esi; simpl; [|done].
  destruct (urlsafe_b64decode salt_in) as [salt|] eqn:Es; simpl; [|done].
  destruct (encode_ascii (pad d)) as [hash_in|] eqn:Ehi; simpl; [|done].
  destruct (urlsafe_b64decode hash_in) as [expected|] eqn:Ee; simpl; [|done].
  intros _. subst a.
  by exists b, c, d, iters, salt_in, hash_in, salt, expected.
Qed.

(** C10: [verify_password] returns a boolean for every password value and
    every stored string, it never raises, and it returns [False] for a
    stored string that is not of the form
    [pbkdf2_sha256$iterations$salt$hash]. *)
Theorem verify_password_total (password : json) (stored : pystr) :
  exists b : bool,
    verify_password password stored = Ok b
    /\ (~ hash_format stored -> b = false).
Proof.
  unfold verify_password, try_except.
  destruct (verify_password_body password stored) as [b|e] eqn:E.
  - exists b. split; [done|]. intros Hnot. destruct b; [|done].
    destruct Hnot. by apply (verify_password_body_true password).
  - by exists false.
Qed.

End PasswordProperties.

(** ** The broadcast engine *)

Lemma new_sends_app w w' l : sent w' = sent w ++ l -> new_sends w w' = l.
Proof. intros Hs. unfold new_sends. by rewrite Hs, drop_app_length. Qed.

Lemma dropped_refl w : dropped w ∅ [] w.
Proof.
  split; [by rewrite app_nil_r|]. do 2 (split; [done|]).
  split; [set_solver|].
  intros c. by rewrite decide_False by set_solver.
Qed.

Lemma dropped_trans w g1 n1 w1 g2 n2 w2 :
  dropped w g1 n1 w1 -> dropped w1 g2 n2 w2 ->
  dropped w (g1 ∪ g2) (n1 ++ n2) w2.
Proof.
  intros (Hs1 & Hd1 & Hc1 & Hn1 & Hm1) (Hs2 & Hd2 & Hc2 & Hn2 & Hm2).
  split; [by rewrite Hs2, Hs1, app_assoc|].
  do 2 (split; [congruence|]).
  split; [rewrite Hn2, Hn1; set_solver|].
  intros c. rewrite Hm2, Hm1.
  repeat case_decide; set_solver.
Qed.

Lemma dropped_eq w g g' new w' :
  g = g' -> dropped w g new w' -> dropped w g' new w'.
Proof. by intros ->. Qed.

Lemma dropped_unregister d w : dropped w {[d]} [] (unregister d w).
Proof.
  split; [simpl; by rewrite app_nil_r|]. do 3 (split; [done|]).
  intros c. simpl. case_decide as Hc.
  - apply elem_of_singleton in Hc as ->. apply lookup_delete_eq.
  - apply lookup_delete_ne. set_solver.
Qed.

Lemma evicted_app l1 l2 : evicted (l1 ++ l2) = evicted l1 ∪ evicted l2.
Proof.
  unfold evicted. rewrite filter_app, fmap_app, list_to_set_app_L. done.
Qed.

Lemma elem_of_evicted c l :
  c ∈ evicted l <-> exists a, a ∈ l /\ target a = c /\ delivered a = false.
Proof.
  unfold evicted. rewrite elem_of_list_to_set, list_elem_of_fmap.
  split.
  - intros (a & -> & Ha). apply list_elem_of_filter in Ha as [? ?]. eauto.
  - intros (a & Ha & <- & Hd). exists a. split; [done|].
    by apply list_elem_of_filter.
Qed.

Section BroadcastProperties.
Context `{Runtime}.

Lemma send_each_spec obj cs w :
  exists atts,
    (send_each obj cs w).1
      = {| SESSIONS := SESSIONS w; CONNS := CONNS w; db := db w;
           sent := sent w ++ atts; db_calls := db_calls w |}
    /\ target <$> atts = cs
    /\ Forall (fun a => payload a = obj) atts
    /\ (send_each obj cs w).2
       = target <$> filter (fun a => delivered a = false) atts.
Proof.
  revert w. induction cs as [|c cs IH]; intros w; simpl.
  - exists []. rewrite app_nil_r. by destruct w.
  - set (a := {| target := c; payload := obj;
                 delivered := negb (send_raises (length (sent w)) c) |}).
    destruct (IH (record_send a w)) as (atts & Hw & Ht & Hp & Hd).
    destruct (send_each obj cs (record_send a w)) as [w2 dead] eqn:E.
    simpl in *. exists (a :: atts). subst w2 dead. repeat split.
    + by rewrite <- app_assoc.
    + by rewrite fmap_cons, Ht.
    + by constructor.
    + rewrite filter_cons. subst a. simpl.
      destruct (send_raises (length (sent w)) c); simpl; done.
Qed.

Lemma online_usernames_ext w w' :
  (forall c, SESSIONS w' !! c = SESSIONS w !! c) ->
  online_usernames w' = online_usernames w.
Proof.
  intros Hext. unfold online_usernames.
  by rewrite (map_eq (SESSIONS w') (SESSIONS w) Hext).
Qed.

Lemma dropped_nothing w new w' :
  dropped w ∅ new w' -> online_usernames w' = online_usernames w.
Proof.
  intros (_ & _ & _ & _ & Hm). apply online_usernames_ext.
  intros c. rewrite Hm. by rewrite decide_False by set_solver.
Qed.

Lemma evicted_none l a :
  evicted l = ∅ -> a ∈ l -> delivered a = true.
Proof.
  intros He Ha. destruct (delivered a) eqn:Hd; [done|].
  assert (target a ∈ evicted l) as Hin by (apply elem_of_evicted; eauto).
  rewrite He in Hin. set_solver.
Qed.

(** The clean-ups of the second loop of [broadcast], given that the
    nested broadcasts behave: the induction step of [broadcast_spec]. *)
Lemma cleanups_spec fuel (w0 : world) :
  (forall obj w, (size (CONNS w) < fuel)%nat ->
     exists w', broadcast fuel obj w = Some w' /\ after_broadcast obj w w') ->
  (size (CONNS w0) <= fuel)%nat ->
  forall dead w2 g n,
    dropped w0 g n w2 ->
    (forall d, d ∈ dead -> d ∈ CONNS w0) ->
    exists w' rest,
      foldl (fun acc d =>
               match acc with
               | None => None
               | Some w2 =>
                   broadcast fuel
                     (EvPresence (online_usernames (unregister d w2)))
                     (unregister d w2)
               end) (Some w2) dead = Some w'
      /\ dropped w2 (list_to_set dead ∪ evicted rest) rest w'
      /\ Forall is_presence rest
      /\ (dead = [] -> rest = [])
      /\ (dead <> [] ->
          forall c, c ∈ CONNS w' ->
            exists a, a ∈ rest /\ target a = c /\ delivered a = true
                      /\ payload a = EvPresence (online_usernames w')).
Proof.
  intros IHfuel Hsize dead.
  induction dead as [|d dead IH]; intros w2 g n Hw2 Hdead.
  - exists w2, []. split; [done|]. split.
    + eapply dropped_eq; [|apply dropped_refl].
      unfold evicted. set_solver.
    + by repeat split.
  - simpl.
    assert (d ∈ CONNS w0) as Hd by (apply Hdead; left).
    assert (size (CONNS (unregister d w2)) < fuel)%nat as Hlt.
    { eapply Nat.lt_le_trans; [|exact Hsize]. apply subset_size.
      destruct Hw2 as (_ & _ & _ & Hc & _). simpl. rewrite Hc. set_solver. }
    destruct (IHfuel (EvPresence (online_usernames (unregister d w2)))
                _ Hlt) as (w3 & -> & first & rest3 & Hw3 & Ht & Hp & Hr
                           & Hnone & Hsome).
    pose proof (dropped_trans _ _ _ _ _ _ _ (dropped_unregister d w2) Hw3)
      as Hw23. simpl in Hw23.
    pose proof (dropped_trans _ _ _ _ _ _ _ Hw2 Hw23) as Hw03.
    destruct (IH w3 _ _ Hw03) as (w' & rest' & Hfold & Hw' & Hr' & Hnil & Hcons).
    { intros d' Hd'. apply Hdead. by right. }
    exists w', ((first ++ rest3) ++ rest'). split; [done|].
    pose proof (dropped_trans _ _ _ _ _ _ _ Hw23 Hw') as Hall.
    assert (Forall is_presence first) as Hfirst.
    { eapply Forall_impl; [exact Hp|]. intros a Ha. eexists. exact Ha. }
    split; [|split; [|split; [done|]]].
    + eapply dropped_eq; [|exact Hall].
      rewrite (evicted_app (first ++ rest3)). set_solver.
    + by repeat apply Forall_app_2.
    + intros _ c Hc. destruct dead as [|d' dead].
      * rewrite (Hnil eq_refl) in *. simpl in Hfold.
        injection Hfold as <-. rewrite app_nil_r.
        destruct (decide (evicted first = ∅)) as [He|He].
        -- rewrite (Hnone He), app_nil_r in *.
           rewrite He in Hw3.
           assert (c ∈ elements (CONNS (unregister d w2))) as Hin.
           { apply elem_of_elements.
             pose proof Hw3 as (_ & _ & _ & Hc3 & _).
             rewrite Hc3 in Hc. set_solver. }
           rewrite <- Ht in Hin. apply list_elem_of_fmap in Hin as (a & -> & Ha).
           exists a. split; [done|]. split; [done|].
           split; [by eapply evicted_none|].
           rewrite (dropped_nothing _ _ _ Hw3).
           by apply (proj1 (Forall_forall _ _) Hp).
        -- destruct (Hsome He c Hc) as (a & Ha & ?). exists a.
           split; [|done]. apply elem_of_app. by right.
      * destruct (Hcons ltac:(done) c Hc) as (a & Ha & ?). exists a.
        split; [|done]. apply elem_of_app. by right.
Qed.

Lemma list_to_set_nil_inv (l : list conn) :
  (list_to_set l : gset conn) = ∅ -> l = [].
Proof. destruct l as [|x l]; [done|]. simpl. set_solver. Qed.

Lemma broadcast_S fuel obj w :
  broadcast (S fuel) obj w
  = foldl (fun acc d =>
             match acc with
             | None => None
             | Some w2 =>
                 broadcast fuel
                   (EvPresence (online_usernames (unregister d w2)))
                   (unregister d w2)
             end)
          (Some (send_each obj (elements (CONNS w)) w).1)
          (send_each obj (elements (CONNS w)) w).2.
Proof. simpl. by destruct (send_each obj (elements (CONNS w)) w). Qed.

(** With more fuel than registered connections, [broadcast] returns. *)
Lemma broadcast_spec fuel obj w :
  (size (CONNS w) < fuel)%nat ->
  exists w', broadcast fuel obj w = Some w' /\ after_broadcast obj w w'.
Proof.
  revert obj w. induction fuel as [|fuel IHfuel]; intros obj w Hsize; [lia|].
  rewrite broadcast_S.
  destruct (send_each_spec obj (elements (CONNS w)) w)
    as (atts & Hw1 & Ht & Hp & Hdead).
  destruct (send_each obj (elements (CONNS w)) w) as [w1 dead].
  cbn [fst snd] in *.
  assert (dropped w ∅ atts w1) as Hd1.
  { subst w1. split; [done|]. do 2 (split; [done|]).
    split; [simpl; set_solver|]. intros c. simpl.
    by rewrite decide_False by set_solver. }
  destruct (cleanups_spec fuel w IHfuel ltac:(lia) dead w1 _ _ Hd1)
    as (w' & rest & -> & Hw' & Hr & Hnil & Hcons).
  { intros d Hd. rewrite Hdead in Hd.
    apply list_elem_of_fmap in Hd as (a & -> & Ha).
    apply list_elem_of_filter in Ha as [_ Ha].
    apply elem_of_elements. rewrite <- Ht. by apply list_elem_of_fmap_2. }
  exists w'. split; [done|]. exists atts, rest.
  assert (list_to_set dead = evicted atts) as Hev by by rewrite Hdead.
  split; [|split; [done|split; [done|split; [done|split]]]].
  - eapply dropped_eq; [|exact (dropped_trans _ _ _ _ _ _ _ Hd1 Hw')].
    rewrite evicted_app, Hev. set_solver.
  - intros He. apply Hnil, list_to_set_nil_inv. by rewrite Hev.
  - intros He. apply Hcons. intros ->. apply He. by rewrite <- Hev.
Qed.

(** A broadcast from the handler always has enough fuel. *)
Lemma broadcast_io_spec obj w :
  exists w', broadcast_io obj w = (w', Ok tt) /\ after_broadcast obj w w'.
Proof.
  unfold broadcast_io.
  destruct (broadcast_spec (S (size (CONNS w))) obj w ltac:(lia))
    as (w' & -> & Hw'). by exists w'.
Qed.

(** C9: [broadcast(obj)] makes one send of [obj] to every registered
    connection, whichever of these sends raise; every connection one of
    whose sends raised is afterwards in neither [CONNS] nor [SESSIONS];
    when there is such a connection, a presence broadcast follows: every
    connection still registered is sent the list of the users online in
    the final registry; a registered connection none of whose sends
    raised stays registered with its session. *)
Theorem broadcast_isolates_failures (fuel : nat) (obj : event) (w : world) :
  (size (CONNS w) < fuel)%nat ->
  exists w',
    broadcast fuel obj w = Some w'
    /\ (exists first rest,
          sent w' = sent w ++ first ++ rest
          /\ target <$> first = elements (CONNS w)
          /\ Forall (fun a => payload a = obj) first
          /\ Forall is_presence rest)
    /\ (forall c, c ∈ CONNS w ->
          exists a, a ∈ new_sends w w' /\ target a = c /\ payload a = obj)
    /\ (forall a, a ∈ new_sends w w' -> delivered a = false ->
          (target a ∉ CONNS w') /\ SESSIONS w' !! target a = None)
    /\ ((exists a, a ∈ new_sends w w' /\ delivered a = false) ->
        forall c, c ∈ CONNS w' ->
          exists a, a ∈ new_sends w w' /\ target a = c
                    /\ delivered a = true
                    /\ payload a = EvPresence (online_usernames w'))
    /\ (forall c, c ∈ CONNS w ->
          (forall a, a ∈ new_sends w w' -> target a = c ->
                     delivered a = true) ->
          c ∈ CONNS w' /\ SESSIONS w' !! c = SESSIONS w !! c).
Proof.
  intros Hfuel.
  destruct (broadcast_spec fuel obj w Hfuel)
    as (w' & Hb & first & rest & Hd & Ht & Hp & Hr & Hnone & Hsome).
  destruct Hd as (Hsent & _ & _ & Hconns & Hsess).
  assert (new_sends w w' = first ++ rest) as Hnew
    by by apply new_sends_app.
  exists w'. split; [done|]. rewrite Hnew.
  split; [by exists first, rest|]. split; [|split; [|split]].
  - intros c Hc. apply elem_of_elements in Hc. rewrite <- Ht in Hc.
    apply list_elem_of_fmap in Hc as (a & -> & Ha). exists a.
    split; [apply elem_of_app; by left|]. split; [done|].
    by apply (proj1 (Forall_forall _ _) Hp).
  - intros a Ha Hfail.
    assert (target a ∈ evicted (first ++ rest)) as Hin
      by (apply elem_of_evicted; eauto).
    split; [rewrite Hconns; set_solver|].
    rewrite Hsess. by rewrite decide_True.
  - intros (a & Ha & Hfail) c Hc.
    assert (evicted first <> ∅) as Hne.
    { intros He.
      rewrite (Hnone He), app_nil_r in Ha.
      by rewrite (evicted_none _ _ He Ha) in Hfail. }
    destruct (Hsome Hne c Hc) as (a' & Ha' & ?). exists a'.
    split; [apply elem_of_app; by right|done].
  - intros c Hc Hok.
    assert (c ∉ evicted (first ++ rest)) as Hnot.
    { intros (a & Ha & Hta & Hfail)%elem_of_evicted.
      by rewrite (Hok a Ha Hta) in Hfail. }
    split; [rewrite Hconns; set_solver|].
    rewrite Hsess. by rewrite decide_False.
Qed.

End BroadcastProperties.

(** ** The dispatcher *)

Section DispatcherProperties.
Context `{Runtime}.

Lemma io_bind_unfold {A B} (m : io A) (k : A -> io B) w :
  (m ≫= k) w
  = match m w with
    | (w', Ok a) => k a w'
    | (w', Raise e) => (w', Raise e)
    end.
Proof. reflexivity. Qed.

Lemma send_json_replied ws obj w : send_json ws obj w = replied ws obj w.
Proof.
  unfold send_json, replied, ws_send.
  by destruct (send_raises (length (sent w)) ws).
Qed.

Lemma require_authed_anonymous ws w :
  SESSIONS w !! ws = Some Anonymous ->
  require_authed ws w = (w, Raise (PermissionError (py "Not authenticated"))).
Proof. intros Hs. unfold require_authed. by rewrite Hs. Qed.

Lemma require_authed_logged_in ws w sess :
  SESSIONS w !! ws = Some (LoggedIn sess) ->
  require_authed ws w = (w, Ok sess).
Proof. intros Hs. unfold require_authed. by rewrite Hs. Qed.

Lemma on_frame_please_login ws msg w :
  SESSIONS w !! ws = Some Anonymous \/ SESSIONS w !! ws = None ->
  eq_str (dict_get msg (py "type")) (py "login") = false ->
  on_frame ws (Some (JDict msg)) w
  = replied ws (EvError (Lit (py "Please login first"))) w.
Proof.
  intros Hs Ht. unfold on_frame. rewrite Ht, io_bind_unfold. unfold io_try.
  rewrite io_bind_unfold.
  assert (require_authed ws w
          = (w, Raise (PermissionError (py "Not authenticated")))) as ->.
  { unfold require_authed. by destruct Hs as [-> | ->]. }
  rewrite io_bind_unfold, send_json_replied. unfold replied.
  by destruct (send_raises (length (sent w)) ws).
Qed.

(** C7: while the session of [ws] is unauthenticated, a frame of any type
    other than [login] is answered with the error "Please login first"
    sent to [ws], and the sessions, the connections, the database and the
    calls made into it are as before. *)
Theorem unauthenticated_frame_rejected (ws : conn) (msg : list (pystr * json))
    (w : world) :
  SESSIONS w !! ws = Some Anonymous ->
  eq_str (dict_get msg (py "type")) (py "login") = false ->
  on_frame ws (Some (JDict msg)) w
    = replied ws (EvError (Lit (py "Please login first"))) w
  /\ SESSIONS (on_frame ws (Some (JDict msg)) w).1 = SESSIONS w
  /\ CONNS (on_frame ws (Some (JDict msg)) w).1 = CONNS w
  /\ db (on_frame ws (Some (JDict msg)) w).1 = db w
  /\ db_calls (on_frame ws (Some (JDict msg)) w).1 = db_calls w.
Proof.
  intros Hs Ht. rewrite on_frame_please_login by auto. done.
Qed.

Ltac eval_type Ht :=
  unfold on_frame; rewrite Ht;
  repeat match goal with
         | |- context [eq_str (JStr (py ?a)) (py ?b)] =>
             let b' := eval vm_compute in (eq_str (JStr (py a)) (py b)) in
             change (eq_str (JStr (py a)) (py b)) with b'
         end;
  cbn [orb andb negb].

(** C8: an authenticated session that is not an admin and sends
    [admin_create_user] is answered with [admin_create_user_error] and the
    message "Admin only", sent to that connection and to no other; the
    database is not called and nothing else changes. *)
Theorem admin_create_user_non_admin (ws : conn) (sess : identity)
    (msg : list (pystr * json)) (w : world) :
  SESSIONS w !! ws = Some (LoggedIn sess) ->
  is_admin sess = false ->
  dict_get msg (py "type") = JStr (py "admin_create_user") ->
  on_frame ws (Some (JDict msg)) w
    = replied ws (EvAdminCreateUserError (Lit (py "Admin only"))) w
  /\ sent (on_frame ws (Some (JDict msg)) w).1
     = sent w ++ [{| target := ws;
                     payload := EvAdminCreateUserError (Lit (py "Admin only"));
                     delivered := negb (send_raises (length (sent w)) ws) |}]
  /\ db_calls (on_frame ws (Some (JDict msg)) w).1 = db_calls w
  /\ db (on_frame ws (Some (JDict msg)) w).1 = db w
  /\ SESSIONS (on_frame ws (Some (JDict msg)) w).1 = SESSIONS w
  /\ CONNS (on_frame ws (Some (JDict msg)) w).1 = CONNS w.
Proof.
  intros Hs Hadmin Ht.
  assert (on_frame ws (Some (JDict msg)) w
          = replied ws (EvAdminCreateUserError (Lit (py "Admin only"))) w)
    as ->.
  { eval_type Ht. rewrite io_bind_unfold. unfold io_try.
    rewrite io_bind_unfold, (require_authed_logged_in _ _ _ Hs).
    cbn [mret io_ret]. unfold on_admin_create_user. rewrite Hadmin.
    cbn [negb]. apply send_json_replied. }
  done.
Qed.

(** C6, as the code has it: [join] and [history_room] are refused with
    "Rooms are disabled. Single chat only." when the session is
    authenticated; an unauthenticated session is told "Please login first"
    instead.  In both cases the reply goes to the sender and nothing else
    changes. *)
Theorem rooms_disabled_reply (ws : conn) (msg : list (pystr * json))
    (w : world) :
  dict_get msg (py "type") = JStr (py "join")
  \/ dict_get msg (py "type") = JStr (py "history_room") ->
  on_frame ws (Some (JDict msg)) w
  = match SESSIONS w !! ws with
    | Some (LoggedIn _) =>
        replied ws
          (EvError (Lit (py "Rooms are disabled. Single chat only."))) w
    | _ => replied ws (EvError (Lit (py "Please login first"))) w
    end.
Proof.
  intros Ht.
  destruct (SESSIONS w !! ws) as [[|sess]|] eqn:Hs.
  - apply on_frame_please_login; [by left|]. by destruct Ht as [-> | ->].
  - destruct Ht as [Ht|Ht]; eval_type Ht; rewrite io_bind_unfold;
      unfold io_try;
      rewrite io_bind_unfold, (require_authed_logged_in _ _ _ Hs);
      cbn [mret io_ret]; apply send_json_replied.
  - apply on_frame_please_login; [by right|]. by destruct Ht as [-> | ->].
Qed.

(** *** [send] *)

Lemma insert_message_raise_db d uid content kind sticker r e d' :
  insert_message d uid content kind sticker r = (d', Raise e) -> d' = d.
Proof.
  unfold insert_message.
  repeat (match goal with
          | |- context [match ?x with _ => _ end] => destruct x eqn:?
          end; simpl; try congruence).
Qed.

(** The [send] branch once [kind] is a string [k]: the only reply is the
    error of the [except] clause, and without it the message goes to
    [broadcast]. *)
Lemma on_send_spec ws sess msg w k :
  json_strip (py_or (dict_get msg (py "kind")) (JStr (py "text"))) = Ok k ->
  on_send ws sess msg w
  = match reply_to_arg (dict_get msg (py "reply_to")) with
    | Raise e => replied ws (EvError (SendFailed e)) w
    | Ok r =>
        let w1 := with_db (db w) (CallInsertMessage (user_id sess)) w in
        match insert_message (db w) (user_id sess)
                (py_or (dict_get msg (py "content")) (JStr []))
                (lower k) (dict_get msg (py "sticker")) r with
        | (_, Raise e) => replied ws (EvError (SendFailed e)) w1
        | (d, Ok base) =>
            broadcast_io
              (EvMessage {| msg_id := b_id base; msg_user_id := user_id sess;
                            msg_username := username sess;
                            msg_kind := b_kind base;
                            msg_sticker := b_sticker base;
                            msg_reply_to := b_reply_to base;
                            msg_content := b_content base;
                            msg_created_at := b_created_at base |})
              (with_db d (CallInsertMessage (user_id sess)) w)
        end
    end.
Proof.
  intros Hk. unfold on_send.
  rewrite io_bind_unfold. unfold lift at 1. rewrite Hk. cbn [fmap].
  rewrite io_bind_unfold. unfold io_try. rewrite io_bind_unfold.
  rewrite io_bind_unfold. unfold lift.
  destruct (reply_to_arg (dict_get msg (py "reply_to"))) as [r|e].
  - unfold insert_message_io.
    destruct (insert_message (db w) (user_id sess)
                (py_or (dict_get msg (py "content")) (JStr []))
                (lower k) (dict_get msg (py "sticker")) r) as [d [base|e]] eqn:E.
    + reflexivity.
    + apply insert_message_raise_db in E as ->.
      rewrite io_bind_unfold, send_json_replied. unfold replied. cbn.
      by destruct (send_raises _ ws).
  - rewrite io_bind_unfold, send_json_replied. unfold replied. cbn.
    by destruct (send_raises _ ws).
Qed.

Lemma normalize_kind_cases k :
  normalize_kind k = py "text" \/ normalize_kind k = py "sticker".
Proof.
  unfold normalize_kind.
  set (k1 := lower (strip (if str_truthy k then k else py "text"))).
  repeat case_bool_decide; simpl; auto.
Qed.

Lemma json_strip_or_str c :
  json_strip (py_or (JStr c) (JStr [])) = Ok (strip c).
Proof. unfold py_or. simpl. by destruct c. Qed.

Lemma insert_message_invalid d uid c k sraw s r :
  py_or sraw (JStr []) = JStr s ->
  send_invalid (normalize_kind k) (strip c) (strip s) = true ->
  exists e, insert_message d uid (JStr c) k sraw r = (d, Raise e).
Proof.
  intros Hs. unfold send_invalid, insert_message.
  rewrite json_strip_or_str, Hs. cbn [json_strip mbind result_bind].
  destruct (bool_decide (normalize_kind k = py "text")
            && negb (str_truthy (strip c))); [by eexists|].
  destruct (2000 <? len (strip c)); [by eexists|].
  destruct (bool_decide (normalize_kind k = py "sticker")); [|done].
  cbn [orb andb]. intros ->. by eexists.
Qed.

(** A [send] that passes validation: the INSERT is executed, and the
    message is stored unless the driver raises. *)
Lemma insert_message_valid d uid c k sraw s r :
  py_or sraw (JStr []) = JStr s ->
  send_invalid (normalize_kind k) (strip c) (strip s) = false ->
  let kind := normalize_kind k in
  let stored := if bool_decide (kind = py "text") then strip c else [] in
  let sticker := if bool_decide (kind = py "sticker")
                 then JStr (strip s) else sraw in
  insert_message d uid (JStr c) k sraw r
  = match execute (insert_params uid kind sticker r (strip c)) with
    | Raise e => (d, Raise e)
    | Ok _ =>
        ({| users := users d;
            messages :=
              <[next_id (messages d) :=
                  {| m_room := py "general"; m_user_id := uid;
                     m_kind := kind; m_sticker := column_text sticker;
                     m_reply_to := r; m_content := stored;
                     m_created_at := utcnow |}]> (messages d) |},
         Ok {| b_id := next_id (messages d); b_user_id := uid;
               b_kind := kind; b_sticker := sticker; b_reply_to := r;
               b_content := stored; b_created_at := isoformat utcnow |})
    end.
Proof.
  intros Hs. unfold send_invalid, insert_message.
  rewrite json_strip_or_str, Hs. cbn [json_strip mbind result_bind].
  destruct (bool_decide (normalize_kind k = py "text")
            && negb (str_truthy (strip c))); [done|].
  destruct (2000 <? len (strip c)); [done|].
  destruct (bool_decide (normalize_kind k = py "sticker")).
  - cbn [orb andb]. intros ->. by cbn [negb].
  - by intros _.
Qed.

Lemma new_sends_replied ws obj w0 w :
  sent w = sent w0 ->
  new_sends w0 (replied ws obj w).1
  = [{| target := ws; payload := obj;
        delivered := negb (send_raises (length (sent w)) ws) |}].
Proof. intros Hs. apply new_sends_app. simpl. by rewrite Hs. Qed.

(** After a broadcast of [obj], the new sends carry [obj] or a presence
    list, nothing else. *)
Lemma after_broadcast_sends obj w0 w w' :
  sent w = sent w0 ->
  after_broadcast obj w w' ->
  Forall (fun a => payload a = obj \/ is_presence a) (new_sends w0 w').
Proof.
  intros Hs (first & rest & (Hsent & _) & _ & Hp & Hr & _).
  rewrite (new_sends_app w0 w' (first ++ rest)) by by rewrite Hsent, Hs.
  apply Forall_app_2.
  - eapply Forall_impl; [exact Hp|]. by left.
  - eapply Forall_impl; [exact Hr|]. by right.
Qed.

Lemma on_frame_send ws sess msg w :
  SESSIONS w !! ws = Some (LoggedIn sess) ->
  dict_get msg (py "type") = JStr (py "send") ->
  on_frame ws (Some (JDict msg)) w = on_send ws sess msg w.
Proof.
  intros Hs Ht. eval_type Ht. rewrite io_bind_unfold. unfold io_try.
  by rewrite io_bind_unfold, (require_authed_logged_in _ _ _ Hs).
Qed.

(** A [send] frame whose [kind] is not a string and not falsy: the
    [strip] of line 121 raises, nothing is sent, and the exception leaves
    the loop. *)
Lemma send_kind_not_string ws sess msg w e :
  SESSIONS w !! ws = Some (LoggedIn sess) ->
  dict_get msg (py "type") = JStr (py "send") ->
  json_strip (py_or (dict_get msg (py "kind")) (JStr (py "text"))) = Raise e ->
  on_frame ws (Some (JDict msg)) w = (w, Raise e).
Proof.
  intros Hs Ht Hk. rewrite (on_frame_send _ _ _ _ Hs Ht). unfold on_send.
  rewrite io_bind_unfold. unfold lift. by rewrite Hk.
Qed.

(** A [send] frame whose [kind] is a string, or falsy: either the only
    new send is one error to the sender and the database is as before, or
    the new sends are the message, once to every registered connection,
    followed by presence lists only. *)
Lemma send_outcomes ws sess msg w k :
  SESSIONS w !! ws = Some (LoggedIn sess) ->
  dict_get msg (py "type") = JStr (py "send") ->
  json_strip (py_or (dict_get msg (py "kind")) (JStr (py "text"))) = Ok k ->
  (exists e,
     new_sends w (on_frame ws (Some (JDict msg)) w).1
     = [{| target := ws; payload := EvError (SendFailed e);
           delivered := negb (send_raises (length (sent w)) ws) |}]
     /\ db (on_frame ws (Some (JDict msg)) w).1 = db w)
  \/ (exists m first rest,
        (on_frame ws (Some (JDict msg)) w).2 = Ok tt
        /\ new_sends w (on_frame ws (Some (JDict msg)) w).1 = first ++ rest
        /\ target <$> first = elements (CONNS w)
        /\ Forall (fun a => payload a = EvMessage m) first
        /\ Forall is_presence rest).
Proof.
  intros Hs Ht Hk.
  rewrite (on_frame_send _ _ _ _ Hs Ht), (on_send_spec _ _ _ _ k Hk).
  destruct (reply_to_arg (dict_get msg (py "reply_to"))) as [r|e].
  2: { left. exists e. by rewrite (new_sends_replied _ _ w). }
  cbn zeta.
  destruct (insert_message (db w) (user_id sess) _ (lower k) _ r)
    as [d [base|e]] eqn:E.
  - right.
    match goal with
    | |- context [broadcast_io ?obj ?w1] =>
        destruct (broadcast_io_spec obj w1)
          as (w' & -> & first & rest & (Hsent & _) & Hfirst & Hp & Hr & _)
    end.
    eexists _, first, rest. split; [done|].
    split; [by apply new_sends_app|]. by split.
  - left. exists e. by rewrite (new_sends_replied _ _ w).
Qed.

(** C4, as the code has it: for a [send] frame of an authenticated
    session whose [kind], [content] and [sticker] are strings or absent
    and whose [reply_to] is absent or converts to an integer, the answer
    is an error reply (with nothing stored and nothing broadcast) exactly
    when validation fails or the database driver does not bind a parameter
    of the INSERT.  Validation fails when the normalised kind is text and
    the stripped content is empty, or the stripped content is longer than
    2000 characters, or the kind is sticker and the stripped sticker is
    empty.  The normalised kind is always text or sticker: any other kind
    is taken as text, not refused.  The parameters are the user id of the
    session, the sticker, [reply_to] and the content. *)
Theorem send_rejected_iff_invalid (ws : conn) (sess : identity)
    (msg : list (pystr * json)) (w : world) (k c s : pystr) (r : option Z) :
  SESSIONS w !! ws = Some (LoggedIn sess) ->
  dict_get msg (py "type") = JStr (py "send") ->
  py_or (dict_get msg (py "kind")) (JStr (py "text")) = JStr k ->
  py_or (dict_get msg (py "content")) (JStr []) = JStr c ->
  py_or (dict_get msg (py "sticker")) (JStr []) = JStr s ->
  reply_to_arg (dict_get msg (py "reply_to")) = Ok r ->
  let kind := normalize_kind (lower (strip k)) in
  let sticker := if bool_decide (kind = py "sticker")
                 then JStr (strip s) else dict_get msg (py "sticker") in
  let bound :=
    forallb driver_binds
      (insert_params (user_id sess) kind sticker r (strip c)) in
  let res := on_frame ws (Some (JDict msg)) w in
  let w1 := with_db (db w) (CallInsertMessage (user_id sess)) w in
  (kind = py "text" \/ kind = py "sticker")
  /\ ((exists a, a ∈ new_sends w res.1 /\ is_error a)
      <-> send_invalid kind (strip c) (strip s) = true \/ bound = false)
  /\ (send_invalid kind (strip c) (strip s) = true \/ bound = false ->
      exists e, res = replied ws (EvError (SendFailed e)) w1)
  /\ (send_invalid kind (strip c) (strip s) = false -> bound = true ->
      exists m row d,
        res.2 = Ok tt
        /\ msg_kind m = kind /\ m_kind row = kind
        /\ messages d = <[msg_id m := row]> (messages (db w))
        /\ db res.1 = d
        /\ after_broadcast (EvMessage m)
             (with_db d (CallInsertMessage (user_id sess)) w) res.1).
Proof.
  intros Hsess Ht Hk Hc Hs Hr kind sticker bound res w1.
  assert (res = match insert_message (db w) (user_id sess) (JStr c)
                        (lower (strip k)) (dict_get msg (py "sticker")) r with
                | (_, Raise e) => replied ws (EvError (SendFailed e)) w1
                | (d, Ok base) =>
                    broadcast_io
                      (EvMessage
                         {| msg_id := b_id base; msg_user_id := user_id sess;
                            msg_username := username sess;
                            msg_kind := b_kind base;
                            msg_sticker := b_sticker base;
                            msg_reply_to := b_reply_to base;
                            msg_content := b_content base;
                            msg_created_at := b_created_at base |})
                      (with_db d (CallInsertMessage (user_id sess)) w)
                end) as Hres.
  { subst res. rewrite (on_frame_send _ _ _ _ Hsess Ht).
    rewrite (on_send_spec _ _ _ _ (strip k)) by by rewrite Hk.
    by rewrite Hr, Hc. }
  assert (send_invalid kind (strip c) (strip s) = true \/ bound = false ->
          exists e, res = replied ws (EvError (SendFailed e)) w1) as Hbad.
  { destruct (send_invalid kind (strip c) (strip s)) eqn:Hinv.
    - intros _.
      destruct (insert_message_invalid (db w) (user_id sess) c
                  (lower (strip k)) _ s r Hs Hinv) as (e & He).
      exists e. by rewrite Hres, He.
    - intros [?|Hb]; [done|].
      pose proof (insert_message_valid (db w) (user_id sess) c
                    (lower (strip k)) _ s r Hs Hinv) as He.
      cbn zeta in He. unfold execute in He. fold kind sticker bound in He.
      rewrite Hb in He. eexists. by rewrite Hres, He. }
  assert (send_invalid kind (strip c) (strip s) = false -> bound = true ->
          exists m row d,
            res.2 = Ok tt
            /\ msg_kind m = kind /\ m_kind row = kind
            /\ messages d = <[msg_id m := row]> (messages (db w))
            /\ db res.1 = d
            /\ after_broadcast (EvMessage m)
                 (with_db d (CallInsertMessage (user_id sess)) w) res.1)
    as Hgood.
  { intros Hinv Hb.
    pose proof (insert_message_valid (db w) (user_id sess) c (lower (strip k))
                  _ s r Hs Hinv) as He.
    cbn zeta in He. unfold execute in He. fold kind sticker bound in He.
    rewrite Hb in He. rewrite He in Hres.
    cbn [b_id b_user_id b_kind b_sticker b_reply_to b_content b_created_at]
      in Hres.
    match type of Hres with
    | _ = broadcast_io (EvMessage ?m) (with_db ?d _ _) =>
        destruct (broadcast_io_spec (EvMessage m)
                    (with_db d (CallInsertMessage (user_id sess)) w))
          as (w' & Hbc & Hafter);
        rewrite Hbc in Hres;
        match d with
        | context [<[_ := ?row]> _] => exists m, row, d
        end
    end.
    rewrite Hres. split; [reflexivity|]. split; [reflexivity|].
    split; [reflexivity|]. split; [reflexivity|]. split; [|exact Hafter].
    destruct Hafter as (? & ? & (_ & Hdb & _) & _). exact Hdb. }
  split; [apply normalize_kind_cases|]. split; [|by split].
  split.
  - intros (a & Ha & t & Hp).
    destruct (send_invalid kind (strip c) (strip s)) eqn:Hinv; [by left|].
    destruct bound eqn:Hb; [|by right].
    destruct (Hgood eq_refl eq_refl)
      as (m & row & d & _ & _ & _ & _ & _ & Hafter).
    pose proof (fun Hs => after_broadcast_sends _ w _ _ Hs Hafter) as Hall.
    specialize (Hall eq_refl).
    apply (proj1 (Forall_forall _ _) Hall) in Ha as [Hm|[o Ho]]; congruence.
  - intros Hinv. destruct (Hbad Hinv) as (e & ->).
    eexists. split.
    + rewrite (new_sends_replied _ _ w) by done. apply list_elem_of_here.
    + by eexists.
Qed.

(** *** [login] *)

(** The [login] branch, whatever the session was: [authenticate] is
    called; when it raises nothing is replied and the exception leaves the
    loop; when it fails the reply is [login_error] and nothing else
    changes; when it succeeds the session of [ws] becomes the user's and
    stays so, unless a send to [ws] raises during the presence broadcast
    and [ws] is dropped.  The sends are [login_ok], the history of at most
    the last 80 messages, and presence lists. *)
Lemma on_login_outcome ws msg w uname :
  json_strip (py_or (dict_get msg (py "username")) (JStr [])) = Ok uname ->
  let password := py_or (dict_get msg (py "password")) (JStr []) in
  let res := on_login ws msg w in
  let w1 := with_db (db w) (CallAuthenticate uname) w in
  match authenticate (db w) uname password with
  | Raise e => res = (w1, Raise e)
  | Ok None =>
      res = replied ws
              (EvLoginError (Lit (py "Invalid credentials or inactive user")))
              w1
  | Ok (Some u) =>
      let who := {| user_id := u.1; username := u_username u.2;
                    is_admin := u_is_admin u.2 |} in
      (exists more, db_calls res.1
                    = db_calls w ++ CallAuthenticate uname :: more)
      /\ db res.1 = db w
      /\ Forall (fun a => payload a = EvLoginOk (username who) (is_admin who)
                          \/ payload a = EvHistory (fetch_history (db w) 80)
                          \/ is_presence a)
           (new_sends w res.1)
      /\ (SESSIONS res.1 !! ws = Some (LoggedIn who)
          \/ SESSIONS res.1 !! ws = None
             /\ ws ∈ evicted (new_sends w res.1))
  end.
Proof.
  intros Hu password res w1.
  assert (res = on_login ws msg w) as Hres by done. clearbody res.
  unfold on_login in Hres. rewrite io_bind_unfold in Hres.
  unfold lift in Hres. rewrite Hu in Hres.
  rewrite io_bind_unfold in Hres. unfold authenticate_io in Hres.
  cbn beta iota in Hres. fold password in Hres. fold w1 in Hres.
  destruct (authenticate (db w) uname password) as [[[uid row]|]|e].
  2: { subst res. apply send_json_replied. }
  2: { by subst res. }
  cbn [fst snd]. set (who := {| user_id := uid; username := u_username row;
                                is_admin := u_is_admin row |}) in *.
  rewrite io_bind_unfold in Hres.
  set (w2 := set_session ws (LoggedIn who) w1) in *.
  cbn beta iota in Hres.
  rewrite io_bind_unfold, send_json_replied in Hres. unfold replied in Hres.
  set (a1 := {| target := ws; payload := EvLoginOk (u_username row)
                                           (u_is_admin row);
                delivered := negb (send_raises (length (sent w2)) ws) |})
    in *.
  assert (SESSIONS w2 !! ws = Some (LoggedIn who)) as Hs2
    by (simpl; apply lookup_insert_eq).
  destruct (send_raises (length (sent w2)) ws) eqn:E1.
  { subst res. cbn [fst snd]. split; [by exists []|]. split; [done|]. split.
    - rewrite (new_sends_app w _ [a1]) by done.
      constructor; [by left | constructor].
    - by left. }
  rewrite io_bind_unfold in Hres. unfold fetch_history_io in Hres.
  cbn beta iota in Hres.
  rewrite io_bind_unfold, send_json_replied in Hres. unfold replied in Hres.
  set (w3 := with_db (db (record_send a1 w2)) (CallFetchHistory 80)
               (record_send a1 w2)) in *.
  set (a2 := {| target := ws;
                payload := EvHistory (fetch_history (db (record_send a1 w2)) 80);
                delivered := negb (send_raises (length (sent w3)) ws) |})
    in *.
  destruct (send_raises (length (sent w3)) ws) eqn:E2.
  { subst res. cbn [fst snd].
    split; [exists [CallFetchHistory 80]; simpl; by rewrite <- app_assoc|].
    split; [done|]. split.
    - rewrite (new_sends_app w _ [a1; a2]) by (simpl; by rewrite <- app_assoc).
      constructor; [by left|]. constructor; [right; by left | constructor].
    - by left. }
  unfold broadcast_presence_io in Hres.
  destruct (broadcast_io_spec (EvPresence (online_usernames (record_send a2 w3)))
              (record_send a2 w3)) as (w' & Hbc & first & rest & Hd & _ & Hp
                                       & Hr & _).
  rewrite Hbc in Hres. subst res. cbn [fst snd].
  destruct Hd as (Hsent & Hdb & Hcalls & _ & Hsess).
  assert (new_sends w w' = [a1; a2] ++ first ++ rest) as Hnew.
  { apply new_sends_app. rewrite Hsent. simpl.
    by rewrite <- !app_assoc. }
  split; [exists [CallFetchHistory 80]; rewrite Hcalls; simpl;
          by rewrite <- app_assoc|].
  split; [by rewrite Hdb|]. split.
  - rewrite Hnew. constructor; [by left|]. constructor; [right; by left|].
    apply Forall_app_2.
    + eapply Forall_impl; [exact Hp|]. intros a Ha. right; right.
      eexists. exact Ha.
    + eapply Forall_impl; [exact Hr|]. intros a Ha. by right; right.
  - rewrite Hsess, Hnew. case_decide as Hin.
    + right. split; [done|]. rewrite evicted_app. set_solver.
    + by left.
Qed.

End DispatcherProperties.

(** ** The history *)

Section HistoryProperties.
Context `{Runtime}.

Lemma id_desc_total a b : id_desc a b = false -> id_desc b a = true.
Proof. unfold id_desc. lia. Qed.

Lemma id_desc_trans a b c :
  id_desc a b = true -> id_desc b c = true -> id_desc a c = true.
Proof. unfold id_desc. lia. Qed.

Lemma omap_ids_sublist {A B} (f : Z * A -> option (Z * A * B))
    (l : list (Z * A)) :
  (forall r x, f r = Some x -> x.1 = r) ->
  (fun x : Z * A * B => x.1.1) <$> omap f l `sublist_of` l.*1.
Proof.
  intros Hf. induction l as [|r l IH]; simpl; [done|].
  destruct (f r) as [x|] eqn:E; simpl.
  - rewrite (Hf _ _ E). by apply sublist_skip.
  - by apply sublist_cons.
Qed.

(** The primary key: no two rows of the join have the same [id]. *)
Lemma history_rows_NoDup d :
  NoDup ((fun r : Z * msg_row * pystr => r.1.1) <$> history_rows d).
Proof.
  unfold history_rows.
  eapply sublist_NoDup; [apply (NoDup_fst_map_to_list (messages d))|].
  etrans; [apply fmap_sublist, sublist_filter|].
  apply omap_ids_sublist. intros r x.
  destruct (users d !! m_user_id r.2); [|done]. by intros [= <-].
Qed.

Lemma StronglySorted_strict (l : list (Z * msg_row * pystr)) :
  StronglySorted (fun a b => id_desc a b = true) l ->
  NoDup ((fun r : Z * msg_row * pystr => r.1.1) <$> l) ->
  StronglySorted (fun a b => b.1.1 < a.1.1) l.
Proof.
  induction 1 as [|x l Hs IH Hall]; [constructor|].
  rewrite fmap_cons, NoDup_cons. intros [Hx Hnd]. constructor; [by apply IH|].
  apply Forall_forall. intros y Hy.
  pose proof (proj1 (Forall_forall _ _) Hall y Hy) as Hle.
  unfold id_desc in Hle.
  assert (y.1.1 <> x.1.1); [|lia].
  intros Heq. apply Hx. rewrite <- Heq.
  by apply (list_elem_of_fmap_2 (fun r : Z * msg_row * pystr => r.1.1)).
Qed.

Lemma StronglySorted_reverse {A} (R : relation A) l :
  StronglySorted R l -> StronglySorted (flip R) (reverse l).
Proof.
  induction 1 as [|x l Hs IH Hall]; [constructor|].
  rewrite reverse_cons. apply StronglySorted_app_2.
  - intros y z Hy Hz. apply list_elem_of_singleton in Hz as ->.
    rewrite elem_of_reverse in Hy. unfold flip.
    exact (proj1 (Forall_forall _ _) Hall y Hy).
  - exact IH.
  - constructor; constructor.
Qed.

Lemma fetch_history_ids d limit :
  msg_id <$> fetch_history d limit
  = (fun r : Z * msg_row * pystr => r.1.1)
      <$> reverse (take (Z.to_nat (clamp limit 1 200))
                     (sorted_by id_desc (history_rows d))).
Proof. unfold fetch_history. by rewrite <- list_fmap_compose. Qed.

Lemma sorted_rows_strict d :
  StronglySorted (fun a b => b.1.1 < a.1.1)
    (sorted_by id_desc (history_rows d)).
Proof.
  apply StronglySorted_strict.
  - apply sorted_by_StronglySorted; [apply id_desc_total|apply id_desc_trans].
  - rewrite sorted_by_Permutation. apply history_rows_NoDup.
Qed.

Lemma fetch_history_length d limit :
  length (fetch_history d limit)
  = (Z.to_nat (clamp limit 1 200) `min` length (history_rows d))%nat.
Proof.
  unfold fetch_history.
  rewrite length_fmap, length_reverse, length_take.
  by rewrite (Permutation_length (sorted_by_Permutation id_desc _)).
Qed.

Lemma on_frame_login ws msg w :
  eq_str (dict_get msg (py "type")) (py "login") = true ->
  on_frame ws (Some (JDict msg)) w = on_login ws msg w.
Proof. intros Ht. unfold on_frame. by rewrite Ht. Qed.

Lemma on_login_not_string ws msg w e :
  json_strip (py_or (dict_get msg (py "username")) (JStr [])) = Raise e ->
  on_login ws msg w = (w, Raise e).
Proof.
  intros Hu. unfold on_login. rewrite io_bind_unfold. unfold lift.
  by rewrite Hu.
Qed.

(** C5: whatever the limit, [fetch_history] returns its messages by
    ascending [id], at most [clamp(limit, 1, 200)] of them, and they are
    the most recent rows: a row left out has a smaller [id] than every
    message returned.  The history the login branch sends was asked with
    limit 80 and has at most 80 messages. *)
Theorem fetch_history_oldest_first_capped (d : store) (limit : Z) :
  StronglySorted Z.lt (msg_id <$> fetch_history d limit)
  /\ length (fetch_history d limit)
     = (Z.to_nat (clamp limit 1 200) `min` length (history_rows d))%nat
  /\ Z.of_nat (length (fetch_history d limit)) <= clamp limit 1 200
  /\ (forall m, m ∈ fetch_history d limit ->
        exists r, r ∈ history_rows d /\ r.1.1 = msg_id m)
  /\ (forall r, r ∈ history_rows d ->
        r.1.1 ∈ msg_id <$> fetch_history d limit
        \/ forall m, m ∈ fetch_history d limit -> r.1.1 < msg_id m)
  /\ (forall ws msg w a hist,
        eq_str (dict_get msg (py "type")) (py "login") = true ->
        a ∈ new_sends w (on_frame ws (Some (JDict msg)) w).1 ->
        payload a = EvHistory hist ->
        hist = fetch_history (db w) 80 /\ (length hist <= 80)%nat).
Proof.
  set (n := Z.to_nat (clamp limit 1 200)).
  set (L := sorted_by id_desc (history_rows d)).
  set (key := fun r : Z * msg_row * pystr => r.1.1).
  pose proof (sorted_rows_strict d) as HL. fold L in HL.
  pose proof (fetch_history_ids d limit) as Hids. fold n L key in Hids.
  pose proof (fetch_history_length d limit) as Hlen. fold n in Hlen.
  rewrite <- (take_drop n L) in HL.
  assert (forall m, m ∈ fetch_history d limit ->
            exists r, r ∈ take n L /\ r.1.1 = msg_id m) as Hfrom.
  { intros m Hm. apply (list_elem_of_fmap_2 msg_id) in Hm.
    rewrite Hids in Hm. apply list_elem_of_fmap in Hm as (r & Hr & Hin).
    exists r. split; [|done]. by rewrite elem_of_reverse in Hin. }
  split; [|split; [done|split; [|split; [|split]]]].
  - rewrite Hids.
    apply (StronglySorted_fmap key (flip (fun a b => b.1.1 < a.1.1))).
    { intros x y. unfold flip, key. lia. }
    apply StronglySorted_reverse. by apply StronglySorted_app_1_l in HL.
  - rewrite Hlen. unfold n, clamp. lia.
  - intros m Hm. destruct (Hfrom m Hm) as (r & Hr & Heq). exists r.
    split; [|done]. apply elem_of_take in Hr as (i & Hr & _).
    apply list_elem_of_lookup_2 in Hr.
    by rewrite <- (sorted_by_Permutation id_desc (history_rows d)).
  - intros r Hr.
    rewrite <- (sorted_by_Permutation id_desc (history_rows d)) in Hr.
    fold L in Hr. rewrite <- (take_drop n L) in Hr.
    apply elem_of_app in Hr as [Hr|Hr].
    + left. rewrite Hids. apply (list_elem_of_fmap_2 key).
      by rewrite elem_of_reverse.
    + right. intros m Hm. destruct (Hfrom m Hm) as (x & Hx & <-).
      apply (StronglySorted_app_1_elem_of _ _ _ _ _ HL Hx Hr).
  - intros ws msg w a hist Ht Ha Hp.
    rewrite (on_frame_login _ _ _ Ht) in Ha.
    assert (hist = fetch_history (db w) 80) as ->.
    { destruct (json_strip (py_or (dict_get msg (py "username")) (JStr [])))
        as [uname|e] eqn:Hu.
      - pose proof (on_login_outcome ws msg w uname Hu) as Hout.
        cbn zeta in Hout.
        destruct (authenticate (db w) uname
                    (py_or (dict_get msg (py "password")) (JStr [])))
          as [[u|]|e].
        + destruct Hout as (_ & _ & Hall & _).
          apply (proj1 (Forall_forall _ _) Hall) in Ha
            as [Ha|[Ha|[o Ha]]]; congruence.
        + rewrite Hout in Ha. rewrite (new_sends_replied _ _ w) in Ha by done.
          apply list_elem_of_singleton in Ha as ->. simpl in Hp. congruence.
        + rewrite Hout in Ha. unfold new_sends in Ha. simpl in Ha.
          rewrite drop_all in Ha. by apply elem_of_nil in Ha.
      - rewrite (on_login_not_string _ _ _ _ Hu) in Ha.
        unfold new_sends in Ha. simpl in Ha. rewrite drop_all in Ha.
        by apply elem_of_nil in Ha. }
    split; [done|]. rewrite fetch_history_length. unfold clamp. lia.
Qed.

End HistoryProperties.

Section LoginProperties.
Context `{Runtime}.

(** C3, as the code has it: the login branch does not look at the
    session.  Every [login] frame whose username is a string or absent
    calls [authenticate], also on a session that is already
    authenticated; when it succeeds the identity of the session is
    replaced by the user's (or the session is gone, when a send to [ws]
    raised during the presence broadcast and [ws] was dropped); when it
    fails the reply is [login_error] and the session is as before; when
    it raises, which it does when the database driver does not bind the
    username, nothing is replied, the session is as before and the
    exception leaves the loop. *)
Theorem login_in_any_state (ws : conn) (msg : list (pystr * json)) (w : world)
    (uname : pystr) :
  eq_str (dict_get msg (py "type")) (py "login") = true ->
  json_strip (py_or (dict_get msg (py "username")) (JStr [])) = Ok uname ->
  let password := py_or (dict_get msg (py "password")) (JStr []) in
  let res := on_frame ws (Some (JDict msg)) w in
  (exists more, db_calls res.1 = db_calls w ++ CallAuthenticate uname :: more)
  /\ ((exists e, authenticate (db w) uname password = Raise e)
      <-> driver_binds (JStr (strip uname)) = false)
  /\ match authenticate (db w) uname password with
     | Raise e =>
         res = (with_db (db w) (CallAuthenticate uname) w, Raise e)
         /\ SESSIONS res.1 = SESSIONS w
     | Ok None =>
         res = replied ws
                 (EvLoginError
                    (Lit (py "Invalid credentials or inactive user")))
                 (with_db (db w) (CallAuthenticate uname) w)
         /\ SESSIONS res.1 = SESSIONS w
     | Ok (Some u) =>
         let who := {| user_id := u.1; username := u_username u.2;
                       is_admin := u_is_admin u.2 |} in
         SESSIONS res.1 !! ws = Some (LoggedIn who)
         \/ SESSIONS res.1 !! ws = None
            /\ ws ∈ evicted (new_sends w res.1)
     end.
Proof.
  intros Ht Hu password res. subst res.
  rewrite (on_frame_login _ _ _ Ht).
  pose proof (on_login_outcome ws msg w uname Hu) as Hout. cbn zeta in Hout.
  fold password in Hout.
  split; [|split].
  - destruct (authenticate (db w) uname password) as [[u|]|e].
    + by destruct Hout as (Hcalls & _).
    + rewrite Hout. by exists [].
    + rewrite Hout. by exists [].
  - unfold authenticate, get_user_by_username, execute.
    cbn [forallb]. rewrite andb_true_r.
    destruct (driver_binds (JStr (strip uname))); simpl.
    + split; [by intros [? [=]]|done].
    + by split; [|eexists].
  - destruct (authenticate (db w) uname password) as [[u|]|e].
    + by destruct Hout as (_ & _ & _ & Hsess).
    + by rewrite Hout.
    + by rewrite Hout.
Qed.

End LoginProperties.

(** ** Presence *)

Lemma str_compare_antisym a b : str_compare b a = CompOpp (str_compare a b).
Proof.
  revert b. induction a as [|x a IH]; intros [|y b]; simpl; try done.
  rewrite (N.compare_antisym x y).
  destruct (N.compare x y); simpl; auto.
Qed.

Lemma str_leb_total a b : str_leb a b = false -> str_leb b a = true.
Proof.
  unfold str_leb. rewrite (str_compare_antisym a b).
  by destruct (str_compare a b).
Qed.

Lemma str_leb_trans a b c :
  str_leb a b = true -> str_leb b c = true -> str_leb a c = true.
Proof.
  unfold str_leb. revert b c.
  induction a as [|x a IH]; intros [|y b] [|z c]; simpl; try done.
  destruct (N.compare_spec x y) as [->|Hxy|Hxy]; [| |done].
  - destruct (N.compare_spec y z) as [->|Hyz|Hyz]; [|done|done].
    apply IH.
  - destruct (N.compare_spec y z) as [->|Hyz|Hyz]; [| |done]; intros _ _.
    + by rewrite (proj2 (N.compare_lt_iff x z) Hxy).
    + by rewrite (proj2 (N.compare_lt_iff x z) ltac:(lia)).
Qed.

Section PresenceProperties.
Context `{Runtime}.

(** [online_usernames] on any registry: no duplicates, sorted by the
    lower-cased names, and exactly the non-empty usernames of the
    authenticated sessions. *)
Lemma online_usernames_spec w :
  NoDup (online_usernames w)
  /\ StronglySorted (fun a b => str_leb (lower a) (lower b) = true)
       (online_usernames w)
  /\ forall x, x ∈ online_usernames w
               <-> x <> [] /\ exists ws i, SESSIONS w !! ws = Some (LoggedIn i)
                                          /\ username i = x.
Proof.
  unfold online_usernames. split; [|split].
  - rewrite sorted_by_Permutation. apply set_iter_NoDup.
  - apply (sorted_by_StronglySorted lower_leb).
    + intros a b. apply str_leb_total.
    + intros a b c. apply str_leb_trans.
  - intros x. rewrite sorted_by_Permutation, set_iter_elem, list_elem_of_omap.
    split.
    + intros ([ws s] & Hin & Hx). apply elem_of_map_to_list in Hin.
      simpl in Hx. destruct s as [|i]; [done|].
      destruct (username i) as [|c r] eqn:Hn; [done|].
      injection Hx as <-. split; [done|]. by exists ws, i.
    + intros (Hne & ws & i & Hs & <-). exists (ws, LoggedIn i).
      split; [by apply elem_of_map_to_list|]. simpl.
      by destruct (username i).
Qed.

Lemma select_by_username_Some d uname u :
  select_by_username d uname = Some u -> users d !! u.1 = Some u.2.
Proof.
  unfold select_by_username. intros Hh.
  apply head_Some_elem_of, list_elem_of_filter in Hh as [_ Hin].
  destruct u as [uid row]. by apply elem_of_map_to_list in Hin.
Qed.

(** [get_user_by_username] returns what the SELECT finds, when the driver
    binds the username, and raises when it does not. *)
Lemma get_user_by_username_bound d uname :
  driver_binds (JStr uname) = true ->
  get_user_by_username d uname = Ok (select_by_username d uname).
Proof.
  intros Hb. unfold get_user_by_username, execute. cbn [forallb].
  by rewrite Hb.
Qed.

Lemma get_user_by_username_unbound d uname :
  driver_binds (JStr uname) = false ->
  get_user_by_username d uname = Raise (driver_error [JStr uname]).
Proof.
  intros Hb. unfold get_user_by_username, execute. cbn [forallb].
  by rewrite Hb.
Qed.

Lemma get_user_by_username_Ok d uname o :
  get_user_by_username d uname = Ok o ->
  driver_binds (JStr uname) = true /\ o = select_by_username d uname.
Proof.
  destruct (driver_binds (JStr uname)) eqn:Hb.
  - rewrite (get_user_by_username_bound _ _ Hb). by intros [= <-].
  - by rewrite (get_user_by_username_unbound _ _ Hb).
Qed.

Lemma authenticate_Some d uname password u :
  authenticate d uname password = Ok (Some u) -> users d !! u.1 = Some u.2.
Proof.
  unfold authenticate.
  destruct (get_user_by_username d (strip uname)) as [o|e] eqn:E; [|done].
  apply get_user_by_username_Ok in E as [_ ->]. simpl.
  destruct (select_by_username d (strip uname)) as [u'|] eqn:E; [|done].
  destruct (negb (u_is_active u'.2)); [done|].
  destruct (verify_password _ _) as [[|]|]; try done.
  intros [= <-]. by apply select_by_username_Some in E.
Qed.

Lemma create_user_valid d uname password admin active :
  usernames_valid d ->
  usernames_valid (create_user d uname password admin active).1.
Proof.
  intros Hv. unfold create_user.
  destruct (negb ((3 <=? len (strip uname)) && (len (strip uname) <=? 32))
            || existsb isspace (strip uname)) eqn:Hlen; [done|].
  destruct (json_len (py_or password (JStr []))) as [n|]; [|done].
  destruct (n <? 4); [done|].
  destruct (hash_password password PBKDF2_ITERS_DEFAULT); [|done].
  destruct (execute [JStr (strip uname)]) as [[]|[]]; try done.
  destruct (select_by_username d (strip uname)); [done|].
  intros uid row. simpl. rewrite lookup_insert.
  case_decide; [|apply Hv]. intros [= <-]. simpl.
  apply orb_false_elim in Hlen as [Hlen _]. apply negb_false_iff in Hlen.
  lia.
Qed.

(** In every history the sessions hold usernames of the [users] table. *)
Lemma run_ops_valid ops :
  usernames_valid (db (run_ops ops))
  /\ forall ws i, SESSIONS (run_ops ops) !! ws = Some (LoggedIn i) ->
                  3 <= len (username i).
Proof.
  unfold run_ops.
  induction ops as [|op ops IH] using rev_ind.
  - split; [intros uid row; simpl; by rewrite lookup_empty|].
    intros ws i. simpl. by rewrite lookup_empty.
  - rewrite foldl_app. simpl.
    set (w := foldl run_op (initial_world empty_store) ops) in *.
    destruct IH as [Hv Hs]. destruct op as [ws|ws uname pw|ws|uname pw adm];
      simpl.
    + split; [done|]. intros ws' i. rewrite lookup_insert.
      case_decide; [done|apply Hs].
    + destruct (authenticate (db w) uname pw) as [[u|]|e] eqn:E; try done.
      split; [done|]. intros ws' i. simpl. rewrite lookup_insert.
      case_decide; [|apply Hs]. intros [= <-]. simpl.
      apply authenticate_Some in E. by apply Hv in E.
    + split; [done|]. intros ws' i. rewrite lookup_delete.
      case_decide; [done|apply Hs].
    + split; [by apply create_user_valid|done].
Qed.

(** C1: after any sequence of accepts, successful logins, clean-ups (and
    account creations), [online_usernames] has no duplicate, is sorted by
    the lower-cased names, and holds exactly the usernames of the sessions
    whose [authed] flag is true. *)
Theorem online_usernames_exact (ops : list registry_op) :
  NoDup (online_usernames (run_ops ops))
  /\ StronglySorted (fun a b => str_leb (lower a) (lower b) = true)
       (online_usernames (run_ops ops))
  /\ forall x, x ∈ online_usernames (run_ops ops)
               <-> exists ws s, SESSIONS (run_ops ops) !! ws = Some s
                                /\ authed s = true
                                /\ sess_username s = Some x.
Proof.
  destruct (online_usernames_spec (run_ops ops)) as (Hnd & Hsorted & Hel).
  split; [done|]. split; [done|]. intros x. rewrite Hel. split.
  - intros (_ & ws & i & Hs & <-). by exists ws, (LoggedIn i).
  - intros (ws & [|i] & Hs & Ha & Hx); [done|]. injection Hx as <-.
    split; [|by exists ws, i].
    pose proof (proj2 (run_ops_valid ops) ws i Hs) as Hlen.
    intros Hnil. rewrite Hnil in Hlen. unfold len in Hlen. simpl in Hlen. lia.
Qed.

End PresenceProperties.

(** C6, refuted as stated: an unauthenticated connection that sends
    [join] is told "Please login first"; no "Rooms are disabled" error is
    sent. *)
Lemma rooms_disabled_unauthenticated :
  SESSIONS anonymous_world !! 1%nat = Some Anonymous
  /\ sent (on_frame (H := ascii_runtime) 1%nat (Some join_frame)
            anonymous_world).1
     = [{| target := 1%nat;
           payload := EvError (Lit (py "Please login first"));
           delivered := true |}]
  /\ ~ (exists a,
          a ∈ sent (on_frame (H := ascii_runtime) 1%nat (Some join_frame)
                      anonymous_world).1
          /\ payload a
             = EvError (Lit (py "Rooms are disabled. Single chat only."))).
Proof.
  split; [by vm_compute|].
  assert (sent (on_frame (H := ascii_runtime) 1%nat (Some join_frame)
                  anonymous_world).1
          = [{| target := 1%nat;
                payload := EvError (Lit (py "Please login first"));
                delivered := true |}]) as -> by by vm_compute.
  split; [done|]. intros (a & Ha & Hp).
  apply list_elem_of_singleton in Ha as ->. simpl in Hp.
  apply (f_equal (fun e => match e with
                           | EvError (Lit s) => length s
                           | _ => O
                           end)) in Hp.
  vm_compute in Hp. discriminate.
Qed.

(** C4, refuted as stated: alice sends a message of kind "image"; it is
    stored and broadcast as a text message and no error is sent. *)
Lemma send_unknown_kind_accepted :
  SESSIONS alice_world !! 1%nat = Some (LoggedIn alice)
  /\ @lower ascii_runtime (strip (py "image")) <> py "text"
  /\ @lower ascii_runtime (strip (py "image")) <> py "sticker"
  /\ new_sends alice_world
       (on_frame (H := ascii_runtime) 1%nat (Some image_frame) alice_world).1
     = [{| target := 1%nat;
           payload :=
             EvMessage {| msg_id := 1; msg_user_id := 1;
                          msg_username := py "alice"; msg_kind := py "text";
                          msg_sticker := JNull; msg_reply_to := None;
                          msg_content := py "hi";
                          msg_created_at := py "0+00:00" |};
           delivered := true |}]
  /\ messages (db (on_frame (H := ascii_runtime) 1%nat (Some image_frame)
                     alice_world).1) !! 1
     = Some {| m_room := py "general"; m_user_id := 1; m_kind := py "text";
               m_sticker := JNull; m_reply_to := None;
               m_content := py "hi"; m_created_at := 0 |}
  /\ messages (db alice_world) !! 1 = None.
Proof. repeat split; by vm_compute. Qed.

(** C2, where the code departs from it: alice sends a [send] frame whose
    [kind] is the number 5.  [kind.strip()] raises outside of any [try], so
    the frame is answered by nothing at all, neither a message broadcast
    nor an error reply, and the exception ends the connection's loop. *)
Lemma send_numeric_kind_raises :
  SESSIONS alice_world !! 1%nat = Some (LoggedIn alice)
  /\ on_frame (H := ascii_runtime) 1%nat (Some numeric_kind_frame) alice_world
     = (alice_world, Raise AttributeError)
  /\ new_sends alice_world
       (on_frame (H := ascii_runtime) 1%nat (Some numeric_kind_frame)
          alice_world).1 = [].
Proof. repeat split; by vm_compute. Qed.

(** C3, refuted as stated: alice is logged in on connection 1; a second
    [login] frame on that connection, with bob's credentials, calls
    [authenticate] again and replaces the identity of the session. *)
Lemma second_login_replaces_identity :
  SESSIONS alice_world !! 1%nat = Some (LoggedIn alice)
  /\ SESSIONS (on_frame (H := ascii_runtime) 1%nat
                 (Some (login_frame "bob" "pw5678")) alice_world).1 !! 1%nat
     = Some (LoggedIn bob)
  /\ db_calls (on_frame (H := ascii_runtime) 1%nat
                 (Some (login_frame "bob" "pw5678")) alice_world).1
     = db_calls alice_world
         ++ [CallAuthenticate (py "bob"); CallFetchHistory 80]
  /\ (on_frame (H := ascii_runtime) 1%nat
        (Some (login_frame "bob" "pw5678")) alice_world).2 = Ok tt.
Proof. repeat split; by vm_compute. Qed.

(** ** The theorems at concrete inputs *)

(** An unauthenticated connection sends a [send] frame. *)
Lemma unauthenticated_frame_rejected_witness :
  SESSIONS anonymous_world !! 1%nat = Some Anonymous
  /\ eq_str (dict_get image_fields (py "type")) (py "login") = false
  /\ on_frame (H := ascii_runtime) 1%nat (Some (JDict image_fields))
       anonymous_world
     = replied (H := ascii_runtime) 1%nat
         (EvError (Lit (py "Please login first"))) anonymous_world
  /\ SESSIONS (on_frame (H := ascii_runtime) 1%nat
                 (Some (JDict image_fields)) anonymous_world).1
     = SESSIONS anonymous_world
  /\ CONNS (on_frame (H := ascii_runtime) 1%nat
              (Some (JDict image_fields)) anonymous_world).1
     = CONNS anonymous_world
  /\ db (on_frame (H := ascii_runtime) 1%nat
           (Some (JDict image_fields)) anonymous_world).1
     = db anonymous_world
  /\ db_calls (on_frame (H := ascii_runtime) 1%nat
                 (Some (JDict image_fields)) anonymous_world).1
     = db_calls anonymous_world.
Proof.
  split; [by vm_compute|]. split; [by vm_compute|].
  apply (unauthenticated_frame_rejected (H := ascii_runtime)
           1%nat image_fields anonymous_world); by vm_compute.
Defined.

(** alice, who is not an admin, asks for the account carol. *)
Lemma admin_create_user_non_admin_witness :
  SESSIONS alice_world !! 1%nat = Some (LoggedIn alice)
  /\ is_admin alice = false
  /\ dict_get create_carol_fields (py "type")
     = JStr (py "admin_create_user")
  /\ on_frame (H := ascii_runtime) 1%nat (Some (JDict create_carol_fields))
       alice_world
     = replied (H := ascii_runtime) 1%nat
         (EvAdminCreateUserError (Lit (py "Admin only"))) alice_world
  /\ sent (on_frame (H := ascii_runtime) 1%nat
             (Some (JDict create_carol_fields)) alice_world).1
     = sent alice_world
         ++ [{| target := 1%nat;
                payload := EvAdminCreateUserError (Lit (py "Admin only"));
                delivered :=
                  negb (send_raises (Runtime := ascii_runtime)
                          (length (sent alice_world)) 1%nat) |}]
  /\ db_calls (on_frame (H := ascii_runtime) 1%nat
                 (Some (JDict create_carol_fields)) alice_world).1
     = db_calls alice_world
  /\ db (on_frame (H := ascii_runtime) 1%nat
           (Some (JDict create_carol_fields)) alice_world).1
     = db alice_world
  /\ SESSIONS (on_frame (H := ascii_runtime) 1%nat
                 (Some (JDict create_carol_fields)) alice_world).1
     = SESSIONS alice_world
  /\ CONNS (on_frame (H := ascii_runtime) 1%nat
              (Some (JDict create_carol_fields)) alice_world).1
     = CONNS alice_world.
Proof.
  split; [by vm_compute|]. split; [reflexivity|]. split; [by vm_compute|].
  apply (admin_create_user_non_admin (H := ascii_runtime)
           1%nat alice create_carol_fields alice_world);
    by vm_compute.
Defined.

(** alice, logged in, sends [join]. *)
Lemma rooms_disabled_reply_witness :
  (dict_get [(py "type", JStr (py "join"))] (py "type") = JStr (py "join")
   \/ dict_get [(py "type", JStr (py "join"))] (py "type")
      = JStr (py "history_room"))
  /\ on_frame (H := ascii_runtime) 1%nat
       (Some (JDict [(py "type", JStr (py "join"))])) alice_world
     = match SESSIONS alice_world !! 1%nat with
       | Some (LoggedIn _) =>
           replied (H := ascii_runtime) 1%nat
             (EvError (Lit (py "Rooms are disabled. Single chat only.")))
             alice_world
       | _ => replied (H := ascii_runtime) 1%nat
                (EvError (Lit (py "Please login first"))) alice_world
       end.
Proof.
  split; [left; by vm_compute|].
  apply (rooms_disabled_reply (H := ascii_runtime) 1%nat
           [(py "type", JStr (py "join"))] alice_world).
  left. by vm_compute.
Defined.

(** alice sends the text "hi" with kind "image": validation passes, the
    driver binds the parameters, and the message is stored and
    broadcast. *)
Lemma send_rejected_iff_invalid_witness :
  SESSIONS alice_world !! 1%nat = Some (LoggedIn alice)
  /\ dict_get image_fields (py "type") = JStr (py "send")
  /\ send_invalid
       (normalize_kind (H := ascii_runtime)
          (lower (Runtime := ascii_runtime) (strip (py "image"))))
       (strip (py "hi")) (strip []) = false
  /\ forallb (driver_binds (Runtime := ascii_runtime))
       (insert_params (user_id alice)
          (normalize_kind (H := ascii_runtime)
             (lower (Runtime := ascii_runtime) (strip (py "image"))))
          (dict_get image_fields (py "sticker")) None (strip (py "hi")))
     = true
  /\ exists m row d,
       (on_frame (H := ascii_runtime) 1%nat (Some (JDict image_fields))
          alice_world).2 = Ok tt
       /\ msg_kind m
          = normalize_kind (H := ascii_runtime)
              (lower (Runtime := ascii_runtime) (strip (py "image")))
       /\ m_kind row
          = normalize_kind (H := ascii_runtime)
              (lower (Runtime := ascii_runtime) (strip (py "image")))
       /\ messages d = <[msg_id m := row]> (messages (db alice_world))
       /\ db (on_frame (H := ascii_runtime) 1%nat
                (Some (JDict image_fields)) alice_world).1 = d
       /\ after_broadcast (H := ascii_runtime) (EvMessage m)
            (with_db d (CallInsertMessage (user_id alice)) alice_world)
            (on_frame (H := ascii_runtime) 1%nat
               (Some (JDict image_fields)) alice_world).1.
Proof.
  split; [by vm_compute|]. split; [by vm_compute|].
  split; [by vm_compute|]. split; [by vm_compute|].
  destruct (send_rejected_iff_invalid (H := ascii_runtime) 1%nat alice
              image_fields alice_world (py "image") (py "hi") [] None)
    as (_ & _ & _ & Hgood); try by vm_compute.
  apply Hgood; by vm_compute.
Defined.

(** A [login] frame with bob's credentials on alice's connection. *)
Lemma login_in_any_state_witness :
  SESSIONS alice_world !! 1%nat = Some (LoggedIn alice)
  /\ eq_str (dict_get login_bob_fields (py "type")) (py "login") = true
  /\ json_strip (py_or (dict_get login_bob_fields (py "username")) (JStr []))
     = Ok (py "bob")
  /\ (exists more,
        db_calls (on_frame (H := ascii_runtime) 1%nat
                    (Some (JDict login_bob_fields)) alice_world).1
        = db_calls alice_world ++ CallAuthenticate (py "bob") :: more)
  /\ ((exists e,
         authenticate (H := ascii_runtime) (db alice_world) (py "bob")
           (py_or (dict_get login_bob_fields (py "password")) (JStr []))
         = Raise e)
      <-> driver_binds (Runtime := ascii_runtime) (JStr (strip (py "bob")))
          = false)
  /\ match authenticate (H := ascii_runtime) (db alice_world) (py "bob")
             (py_or (dict_get login_bob_fields (py "password")) (JStr []))
     with
     | Raise e =>
         on_frame (H := ascii_runtime) 1%nat (Some (JDict login_bob_fields))
           alice_world
         = (with_db (db alice_world) (CallAuthenticate (py "bob"))
              alice_world, Raise e)
         /\ SESSIONS (on_frame (H := ascii_runtime) 1%nat
                        (Some (JDict login_bob_fields)) alice_world).1
            = SESSIONS alice_world
     | Ok None =>
         on_frame (H := ascii_runtime) 1%nat (Some (JDict login_bob_fields))
           alice_world
         = replied (H := ascii_runtime) 1%nat
             (EvLoginError (Lit (py "Invalid credentials or inactive user")))
             (with_db (db alice_world) (CallAuthenticate (py "bob"))
                alice_world)
         /\ SESSIONS (on_frame (H := ascii_runtime) 1%nat
                        (Some (JDict login_bob_fields)) alice_world).1
            = SESSIONS alice_world
     | Ok (Some u) =>
         SESSIONS (on_frame (H := ascii_runtime) 1%nat
                     (Some (JDict login_bob_fields)) alice_world).1 !! 1%nat
         = Some (LoggedIn {| user_id := u.1; username := u_username u.2;
                             is_admin := u_is_admin u.2 |})
         \/ SESSIONS (on_frame (H := ascii_runtime) 1%nat
                        (Some (JDict login_bob_fields)) alice_world).1
              !! 1%nat = None
            /\ 1%nat ∈ evicted
                 (new_sends alice_world
                    (on_frame (H := ascii_runtime) 1%nat
                       (Some (JDict login_bob_fields)) alice_world).1)
     end.
Proof.
  split; [by vm_compute|]. split; [by vm_compute|]. split; [by vm_compute|].
  apply (login_in_any_state (H := ascii_runtime) 1%nat login_bob_fields
           alice_world (py "bob")); by vm_compute.
Defined.

(** A broadcast to two connections, the second of which is dead. *)
Lemma broadcast_isolates_failures_witness :
  (size (CONNS two_connections) < 3)%nat
  /\ exists w',
       broadcast (H := second_is_dead) 3 (EvPresence []) two_connections
       = Some w'
       /\ (exists first rest,
             sent w' = sent two_connections ++ first ++ rest
             /\ target <$> first = elements (CONNS two_connections)
             /\ Forall (fun a => payload a = EvPresence []) first
             /\ Forall is_presence rest)
       /\ (forall c, c ∈ CONNS two_connections ->
             exists a, a ∈ new_sends two_connections w' /\ target a = c
                       /\ payload a = EvPresence [])
       /\ (forall a, a ∈ new_sends two_connections w' ->
             delivered a = false ->
             (target a ∉ CONNS w') /\ SESSIONS w' !! target a = None)
       /\ ((exists a, a ∈ new_sends two_connections w'
                      /\ delivered a = false) ->
           forall c, c ∈ CONNS w' ->
             exists a, a ∈ new_sends two_connections w' /\ target a = c
                       /\ delivered a = true
                       /\ payload a
                          = EvPresence
                              (online_usernames (H := second_is_dead) w'))
       /\ (forall c, c ∈ CONNS two_connections ->
             (forall a, a ∈ new_sends two_connections w' -> target a = c ->
                        delivered a = true) ->
             c ∈ CONNS w'
             /\ SESSIONS w' !! c = SESSIONS two_connections !! c).
Proof.
  split; [vm_compute; lia|].
  apply (broadcast_isolates_failures (H := second_is_dead) 3 (EvPresence [])
           two_connections).
  vm_compute; lia.
Defined.

(** The same broadcast, run: both connections are sent the event, the
    send to connection 2 raises, connection 2 is dropped from both
    dictionaries and connection 1 is sent the presence list. *)
Example broadcast_drops_dead_connection :
  exists w',
    broadcast (H := second_is_dead) 3 (EvPresence [py "x"]) two_connections
    = Some w'
    /\ elements (CONNS w') = [1%nat]
    /\ SESSIONS w' !! 2%nat = None
    /\ SESSIONS w' !! 1%nat = Some Anonymous
    /\ (fun a => (target a, payload a, delivered a)) <$> sent w'
       = [(2%nat, EvPresence [py "x"], false);
          (1%nat, EvPresence [py "x"], true);
          (1%nat, EvPresence [], true)].
Proof. eexists. split; [by vm_compute|]. repeat split; by vm_compute. Qed.

(** ** Runs of the model *)

Example online_usernames_run :
  online_usernames (H := ascii_runtime)
    (run_ops (H := ascii_runtime) four_connections)
  = [py "Alice"; py "bob"].
Proof. by vm_compute. Qed.

Example spec_scenario_trace :
  (fun a => (target a, payload a)) <$> sent spec_scenario
  = [(1%nat, EvLoginOk (py "alice") false);
     (1%nat, EvHistory []);
     (1%nat, EvPresence [py "alice"]);
     (2%nat, EvLoginOk (py "bob") false);
     (2%nat, EvHistory []);
     (2%nat, EvPresence [py "alice"; py "bob"]);
     (1%nat, EvPresence [py "alice"; py "bob"]);
     (2%nat, EvMessage {| msg_id := 1; msg_user_id := 1;
                          msg_username := py "alice"; msg_kind := py "text";
                          msg_sticker := JNull; msg_reply_to := None;
                          msg_content := py "hi";
                          msg_created_at := py "0+00:00" |});
     (1%nat, EvMessage {| msg_id := 1; msg_user_id := 1;
                          msg_username := py "alice"; msg_kind := py "text";
                          msg_sticker := JNull; msg_reply_to := None;
                          msg_content := py "hi";
                          msg_created_at := py "0+00:00" |});
     (1%nat, EvPresence [py "alice"])].
Proof. by vm_compute. Qed.

Example fetch_history_run :
  (fun m => (msg_id m, msg_username m, msg_content m))
    <$> fetch_history (H := ascii_runtime) db_three_messages 2
  = [(2, py "alice", py "two"); (3, py "alice", py "three")]
  /\ length (fetch_history (H := ascii_runtime) db_three_messages 0) = 1%nat
  /\ length (fetch_history (H := ascii_runtime) db_three_messages 1000)
     = 3%nat.
Proof. repeat split; by vm_compute. Qed.

Example verify_password_run :
  (forall h, hash_password (H := ascii_runtime) (JStr (py "pw1234")) 200000
             = Ok h ->
             verify_password (H := ascii_runtime) (JStr (py "pw1234")) h
             = Ok true
             /\ verify_password (H := ascii_runtime) (JStr (py "pw12345")) h
                = Ok false
             /\ verify_password (H := ascii_runtime) (JInt 5) h = Ok false)
  /\ verify_password (H := ascii_runtime) (JStr (py "pw1234"))
       (py "pbkdf2_sha256$x$AAAA$AAAA") = Ok false
  /\ verify_password (H := ascii_runtime) (JStr (py "pw1234"))
       (py "not a hash") = Ok false.
Proof.
  split; [|split; by vm_compute].
  intros h Hh. vm_compute in Hh. injection Hh as <-.
  repeat split; by vm_compute.
Qed.

(** A whole connection: alice logs in, sends a frame whose [kind] is a
    number, then "hi".  The loop ends at the second frame with the
    exception; "hi" is never read, and the clean-up finds nobody left to
    tell. *)
Example handler_stops_at_numeric_kind :
  (handler (H := ascii_runtime) 1%nat
     [Some (login_frame "alice" "pw1234"); Some numeric_kind_frame;
      Some hi_frame]
     (initial_world db_two_users)).2 = Raise AttributeError
  /\ payload <$> sent (handler (H := ascii_runtime) 1%nat
                         [Some (login_frame "alice" "pw1234");
                          Some numeric_kind_frame; Some hi_frame]
                         (initial_world db_two_users)).1
     = [EvLoginOk (py "alice") false; EvHistory [];
        EvPresence [py "alice"]]
  /\ messages (db (handler (H := ascii_runtime) 1%nat
                     [Some (login_frame "alice" "pw1234");
                      Some numeric_kind_frame; Some hi_frame]
                     (initial_world db_two_users)).1) = ∅.
Proof. repeat split; by vm_compute. Qed.

(** Alice sends "hi" in reply to message 2**63: validation passes, the
    driver does not bind the number, and the answer is the error of the
    [except] clause; nothing is stored and nothing is broadcast. *)
Example send_unbound_reply_to_run :
  on_frame (H := ascii_runtime) 1%nat (Some big_reply_frame) alice_world
  = replied (H := ascii_runtime) 1%nat (EvError (SendFailed OverflowError))
      (with_db (db alice_world) (CallInsertMessage 1) alice_world)
  /\ messages (db (on_frame (H := ascii_runtime) 1%nat (Some big_reply_frame)
                     alice_world).1) = ∅.
Proof. split; by vm_compute. Qed.

(** A login whose username the driver does not bind: [authenticate] is
    called outside of every [try], so nothing is replied, the exception
    ends the loop and leaves [handler], and "hi" is never read. *)
Example login_unbound_username_run :
  on_frame (H := ascii_runtime) 1%nat (Some surrogate_login_frame)
    (register 1%nat (initial_world db_two_users))
  = (with_db db_two_users (CallAuthenticate surrogate_name)
       (register 1%nat (initial_world db_two_users)), Raise UnicodeError)
  /\ (handler (H := ascii_runtime) 1%nat
        [Some surrogate_login_frame; Some hi_frame]
        (initial_world db_two_users)).2 = Raise UnicodeError
  /\ sent (handler (H := ascii_runtime) 1%nat
             [Some surrogate_login_frame; Some hi_frame]
             (initial_world db_two_users)).1 = [].
Proof. repeat split; by vm_compute. Qed.

(** Alice sends the text "hi" with the number 5 as sticker: the event
    carries the number and the [isoformat] of the time with its offset;
    the row holds the text "5", and the history gives that text and the
    time without the offset. *)
Example send_numeric_sticker_run :
  payload <$> new_sends alice_world
                (on_frame (H := ascii_runtime) 1%nat (Some sticker_five_frame)
                   alice_world).1
  = [EvMessage {| msg_id := 1; msg_user_id := 1; msg_username := py "alice";
                  msg_kind := py "text"; msg_sticker := JInt 5;
                  msg_reply_to := None; msg_content := py "hi";
                  msg_created_at := py "0+00:00" |}]
  /\ messages (db (on_frame (H := ascii_runtime) 1%nat
                     (Some sticker_five_frame) alice_world).1) !! 1
     = Some {| m_room := py "general"; m_user_id := 1; m_kind := py "text";
               m_sticker := JStr (py "5"); m_reply_to := None;
               m_content := py "hi"; m_created_at := 0 |}
  /\ fetch_history (H := ascii_runtime)
       (db (on_frame (H := ascii_runtime) 1%nat (Some sticker_five_frame)
              alice_world).1) 80
     = [{| msg_id := 1; msg_user_id := 1; msg_username := py "alice";
           msg_kind := py "text"; msg_sticker := JStr (py "5");
           msg_reply_to := None; msg_content := py "hi";
           msg_created_at := py "0" |}].
Proof. repeat split; by vm_compute. Qed.

(** ** The store: keys, lookups, accounts *)

Lemma foldr_max_ge (l : list Z) i : i ∈ l -> i <= foldr Z.max 0 l.
Proof.
  induction l as [|x l IH]; [by intros ?%elem_of_nil|].
  rewrite elem_of_cons. simpl. intros [->|Hin]; [lia|]. specialize (IH Hin). lia.
Qed.

Lemma next_id_above {A} (t : gmap Z A) i x : t !! i = Some x -> i < next_id t.
Proof.
  intros Hi. unfold next_id.
  assert (i ∈ (map_to_list t).*1) as Hin.
  { apply list_elem_of_fmap. exists (i, x). split; [done|].
    by apply elem_of_map_to_list. }
  apply foldr_max_ge in Hin. lia.
Qed.

Lemma next_id_fresh {A} (t : gmap Z A) : t !! next_id t = None.
Proof.
  destruct (t !! next_id t) as [x|] eqn:E; [|done].
  apply next_id_above in E. lia.
Qed.

Lemma lstrip_head s :
  lstrip s = [] \/ exists c r, lstrip s = c :: r /\ isspace c = false.
Proof.
  induction s as [|c r IH]; simpl; [by left|].
  destruct (isspace c) eqn:E; [done|]. right. by exists c, r.
Qed.

Lemma lstrip_snoc l c :
  isspace c = false -> exists x, lstrip (l ++ [c]) = x ++ [c].
Proof.
  intros Hc. induction l as [|d l IH]; simpl.
  - rewrite Hc. by exists [].
  - destruct (isspace d); [done|]. by exists (d :: l).
Qed.

Lemma rstrip_cons c r :
  isspace c = false -> exists r', rstrip (c :: r) = c :: r'.
Proof.
  intros Hc. unfold rstrip. rewrite reverse_cons.
  destruct (lstrip_snoc (reverse r) c Hc) as (x & ->).
  exists (reverse x). by rewrite reverse_app.
Qed.

Lemma lstrip_idemp s : lstrip (lstrip s) = lstrip s.
Proof.
  induction s as [|c r IH]; simpl; [done|].
  destruct (isspace c) eqn:E; [done|]. simpl. by rewrite E.
Qed.

Lemma rstrip_idemp s : rstrip (rstrip s) = rstrip s.
Proof. unfold rstrip. by rewrite reverse_involutive, lstrip_idemp. Qed.

(** [strip] of a stripped string changes nothing. *)
Lemma strip_idemp s : strip (strip s) = strip s.
Proof.
  unfold strip.
  destruct (lstrip_head s) as [->|(c & r & -> & Hc)]; [done|].
  destruct (rstrip_cons c r Hc) as (r' & Hr). rewrite Hr.
  simpl. rewrite Hc. by rewrite <- Hr, rstrip_idemp.
Qed.

Lemma lstrip_no_space s : existsb isspace s = false -> lstrip s = s.
Proof. destruct s as [|c r]; simpl; [done|]. by destruct (isspace c). Qed.

Lemma existsb_reverse {A} (f : A -> bool) l :
  existsb f (reverse l) = existsb f l.
Proof.
  induction l as [|x l IH]; [done|].
  rewrite reverse_cons, existsb_app, IH. simpl. by destruct (f x), (existsb f l).
Qed.

Lemma strip_no_space s : existsb isspace s = false -> strip s = s.
Proof.
  intros Hs. unfold strip, rstrip. rewrite (lstrip_no_space s Hs).
  rewrite lstrip_no_space by by rewrite existsb_reverse.
  apply reverse_involutive.
Qed.

Section StoreProperties.
Context `{Runtime}.

Lemma select_by_username_found d name u :
  select_by_username d name = Some u ->
  users d !! u.1 = Some u.2 /\ u_username u.2 = name.
Proof.
  unfold select_by_username. intros Hh.
  apply head_Some_elem_of, list_elem_of_filter in Hh as [Hn Hin].
  destruct u as [uid row]. by apply elem_of_map_to_list in Hin.
Qed.

Lemma select_by_username_absent d name :
  select_by_username d name = None
  <-> forall i r, users d !! i = Some r -> u_username r <> name.
Proof.
  unfold select_by_username. split.
  - intros Hh i r Hi Hn.
    destruct (filter (fun r => u_username r.2 = name) (map_to_list (users d)))
      as [|x l] eqn:E; [|done].
    assert ((i, r) ∈ filter (fun r : Z * user_row => u_username r.2 = name)
                       (map_to_list (users d))) as Hin.
    { apply list_elem_of_filter. split; [done|]. by apply elem_of_map_to_list. }
    rewrite E in Hin. by apply elem_of_nil in Hin.
  - intros Hno.
    destruct (filter (fun r => u_username r.2 = name) (map_to_list (users d)))
      as [|[i r] l] eqn:E; [done|].
    assert ((i, r) ∈ filter (fun r : Z * user_row => u_username r.2 = name)
                       (map_to_list (users d))) as Hin
      by (rewrite E; left).
    apply list_elem_of_filter in Hin as [Hn Hin].
    apply elem_of_map_to_list in Hin. by destruct (Hno i r Hin).
Qed.

Lemma NoDup_fmap_inj_on {A B} (f : A -> B) (l : list A) x y :
  NoDup (f <$> l) -> x ∈ l -> y ∈ l -> f x = f y -> x = y.
Proof.
  induction l as [|a l IH]; [by intros _ ?%elem_of_nil|].
  rewrite fmap_cons, NoDup_cons. intros [Ha Hnd].
  rewrite !elem_of_cons. intros [->|Hx] [->|Hy] Hf; [done| | |by apply IH].
  - destruct Ha. rewrite Hf. by apply list_elem_of_fmap_2.
  - destruct Ha. rewrite <- Hf. by apply list_elem_of_fmap_2.
Qed.

(** Under the unique constraint a username names one row. *)
Lemma usernames_unique_row d i j r1 r2 :
  usernames_unique d ->
  users d !! i = Some r1 -> users d !! j = Some r2 ->
  u_username r1 = u_username r2 -> i = j /\ r1 = r2.
Proof.
  intros Hu Hi Hj Hn.
  assert ((i, r1) = (j, r2)) as [= -> ->]; [|done].
  apply (NoDup_fmap_inj_on (fun r : Z * user_row => u_username r.2)
           (map_to_list (users d))); [done| | |done];
    by apply elem_of_map_to_list.
Qed.

(** What a call of [create_user] that returns has checked and done. *)
Lemma create_user_Ok d uname password admin active d' pk :
  create_user d uname password admin active = (d', Ok pk) ->
  3 <= len (strip uname) <= 32
  /\ existsb isspace (strip uname) = false
  /\ select_by_username d (strip uname) = None
  /\ pk = next_id (users d)
  /\ (exists s, password = JStr s /\ 4 <= len s)
  /\ exists h,
       hash_password password PBKDF2_ITERS_DEFAULT = Ok h
       /\ d' = {| users :=
                    <[pk := {| u_username := strip uname;
                               u_password_hash := h; u_is_admin := admin;
                               u_is_active := active;
                               u_created_at := utcnow |}]> (users d);
                  messages := messages d |}.
Proof.
  unfold create_user.
  destruct (negb ((3 <=? len (strip uname)) && (len (strip uname) <=? 32))
            || existsb isspace (strip uname)) eqn:Hlen; [done|].
  destruct (json_len (py_or password (JStr []))) as [n|] eqn:Hn; [|done].
  destruct (n <? 4) eqn:Hn4; [done|].
  destruct (hash_password password PBKDF2_ITERS_DEFAULT) as [h|] eqn:Hh;
    [|done].
  destruct (execute [JStr (strip uname)]) as [[]|[]]; try done.
  destruct (select_by_username d (strip uname)); [done|].
  intros [= <- <-].
  apply orb_false_elim in Hlen as [Hlen Hsp]. apply negb_false_iff in Hlen.
  split; [lia|]. split; [done|]. split; [done|]. split; [done|].
  split; [|by exists h].
  destruct password as [| | | |[|c s]| |]; try done.
  exists (c :: s). split; [done|]. simpl in Hn. injection Hn as <-. lia.
Qed.

(** A call of [create_user] that returns has executed its INSERT: the
    driver bound the username. *)
Lemma create_user_Ok_bound d uname password admin active d' pk :
  create_user d uname password admin active = (d', Ok pk) ->
  driver_binds (JStr (strip uname)) = true.
Proof.
  unfold create_user, execute. cbn [forallb]. rewrite andb_true_r.
  destruct (negb ((3 <=? len (strip uname)) && (len (strip uname) <=? 32))
            || existsb isspace (strip uname)); [done|].
  destruct (json_len (py_or password (JStr []))) as [n|]; [|done].
  destruct (n <? 4); [done|].
  destruct (hash_password password PBKDF2_ITERS_DEFAULT); [|done].
  destruct (driver_binds (JStr (strip uname))); [done|].
  by destruct (driver_error [JStr (strip uname)]).
Qed.

Lemma create_user_Raise d uname password admin active d' e :
  create_user d uname password admin active = (d', Raise e) -> d' = d.
Proof.
  unfold create_user.
  repeat (match goal with
          | |- context [match ?x with _ => _ end] => destruct x eqn:?
          end; simpl; try congruence).
Qed.

Lemma usernames_unique_insert d pk row :
  usernames_unique d ->
  users d !! pk = None ->
  select_by_username d (u_username row) = None ->
  usernames_unique {| users := <[pk := row]> (users d);
                      messages := messages d |}.
Proof.
  unfold usernames_unique. simpl. intros Hu Hpk Hget.
  rewrite (map_to_list_insert _ _ _ Hpk), fmap_cons. simpl.
  apply NoDup_cons. split; [|done].
  intros ([i r] & Hn & Hin)%list_elem_of_fmap. simpl in Hn.
  apply elem_of_map_to_list in Hin.
  by apply (proj1 (select_by_username_absent _ _) Hget i r).
Qed.

Lemma create_user_unique d uname password admin active :
  usernames_unique d ->
  usernames_unique (create_user d uname password admin active).1.
Proof.
  intros Hu.
  destruct (create_user d uname password admin active) as [d' [pk|e]] eqn:E.
  - apply create_user_Ok in E as (_ & _ & Hget & -> & _ & h & _ & ->). simpl.
    apply (usernames_unique_insert d _ {| u_username := strip uname |});
      [done|apply next_id_fresh|done].
  - apply create_user_Raise in E as ->. done.
Qed.

Lemma create_user_effect_messages d uname password admin active :
  messages (create_user d uname password admin active).1 = messages d.
Proof.
  destruct (create_user d uname password admin active) as [d' [pk|e]] eqn:E.
  - by apply create_user_Ok in E as (_ & _ & _ & _ & _ & h & _ & ->).
  - by apply create_user_Raise in E as ->.
Qed.

Lemma create_user_rows_kept d uname password admin active :
  rows_kept d (create_user d uname password admin active).1.
Proof.
  destruct (create_user d uname password admin active) as [d' [pk|e]] eqn:E.
  - apply create_user_Ok in E as (_ & _ & _ & -> & _ & h & _ & ->).
    split; [|done]. intros i r Hi. simpl. rewrite lookup_insert_ne; [done|].
    intros <-. by rewrite next_id_fresh in Hi.
  - apply create_user_Raise in E as ->. by split.
Qed.

(** X1: a call of [create_user] that returns has checked the username (3
    to 32 characters after [strip], no whitespace, not yet in the table)
    and the password (a string of at least 4 characters), and has added
    one row under a key larger than every key of the table, leaving every
    other row and the messages as they were; a call that raises leaves the
    database as it was. *)
Theorem create_user_effect (d : store) (uname : pystr) (password : json)
    (admin active : bool) :
  match create_user d uname password admin active with
  | (d', Ok pk) =>
      3 <= len (strip uname) <= 32
      /\ existsb isspace (strip uname) = false
      /\ (exists s, password = JStr s /\ 4 <= len s)
      /\ (forall i r, users d !! i = Some r ->
                      u_username r <> strip uname /\ i < pk
                      /\ users d' !! i = Some r)
      /\ (exists h,
            hash_password password PBKDF2_ITERS_DEFAULT = Ok h
            /\ users d' !! pk
               = Some {| u_username := strip uname; u_password_hash := h;
                         u_is_admin := admin; u_is_active := active;
                         u_created_at := utcnow |})
      /\ (forall i, is_Some (users d' !! i) -> i = pk \/ is_Some (users d !! i))
      /\ messages d' = messages d
  | (d', Raise _) => d' = d
  end.
Proof.
  destruct (create_user d uname password admin active) as [d' [pk|e]] eqn:E.
  2: { by apply create_user_Raise in E. }
  apply create_user_Ok in E as (Hlen & Hsp & Hget & -> & Hpw & h & Hh & ->).
  split; [done|]. split; [done|]. split; [done|]. simpl.
  split; [|split; [|split; [|done]]].
  - intros i r Hi. split; [|split].
    + by apply (proj1 (select_by_username_absent _ _) Hget i r).
    + by apply next_id_above in Hi.
    + rewrite lookup_insert_ne; [done|]. intros <-.
      by rewrite next_id_fresh in Hi.
  - exists h. split; [done|]. apply lookup_insert_eq.
  - intros i. rewrite lookup_insert. case_decide; [by left|by right].
Qed.

Lemma create_users_snoc l a :
  create_users (l ++ [a])
  = (create_user (create_users l) a.1.1.1 a.1.1.2 a.1.2 a.2).1.
Proof. unfold create_users. by rewrite foldl_app. Qed.

(** X2: in a [users] table filled by calls of [create_user], whatever
    their arguments and whichever of them raise, no two rows have the same
    username, and every username has 3 to 32 characters, none of them
    whitespace. *)
Theorem create_users_unique (l : list (pystr * json * bool * bool)) :
  usernames_unique (create_users l)
  /\ (forall i j r1 r2,
        users (create_users l) !! i = Some r1 ->
        users (create_users l) !! j = Some r2 ->
        u_username r1 = u_username r2 -> i = j)
  /\ forall i r, users (create_users l) !! i = Some r ->
                 3 <= len (u_username r) <= 32
                 /\ existsb isspace (u_username r) = false.
Proof.
  assert (usernames_unique (create_users l)) as Hu.
  { induction l as [|a l IH] using rev_ind.
    - unfold usernames_unique, create_users. simpl.
      rewrite map_to_list_empty. constructor.
    - rewrite create_users_snoc. by apply create_user_unique. }
  split; [done|]. split.
  - intros i j r1 r2 Hi Hj Hn.
    by destruct (usernames_unique_row _ _ _ _ _ Hu Hi Hj Hn).
  - clear Hu. induction l as [|a l IH] using rev_ind.
    + intros i r. unfold create_users. simpl. by rewrite lookup_empty.
    + rewrite create_users_snoc. intros i r.
      destruct (create_user (create_users l) a.1.1.1 a.1.1.2 a.1.2 a.2)
        as [d' [pk|e]] eqn:E.
      * apply create_user_Ok in E as (Hlen & Hsp & _ & -> & _ & h & _ & ->).
        simpl. rewrite lookup_insert. case_decide; [|apply IH].
        by intros [= <-].
      * apply create_user_Raise in E as ->. apply IH.
Qed.

End StoreProperties.

(** ** Passwords: what is hashed verifies *)

Lemma split_once_app sep a b :
  sep ∉ a -> split_once sep (a ++ sep :: b) = Some (a, b).
Proof.
  induction a as [|c a IH]; simpl.
  - by rewrite N.eqb_refl.
  - rewrite not_elem_of_cons. intros [Hne Ha].
    destruct (N.eqb_spec c sep) as [->|_]; [done|]. by rewrite (IH Ha).
Qed.

Lemma split_max_join sep a b c d :
  sep ∉ a -> sep ∉ b -> sep ∉ c ->
  split_max sep 3 (a ++ sep :: b ++ sep :: c ++ sep :: d) = [a; b; c; d].
Proof.
  intros Ha Hb Hc. simpl.
  rewrite (split_once_app _ _ _ Ha), (split_once_app _ _ _ Hb).
  by rewrite (split_once_app _ _ _ Hc).
Qed.

Lemma dollar_not_in_algo : dollar ∉ py "pbkdf2_sha256".
Proof.
  apply (bool_decide_unpack (dollar ∉ py "pbkdf2_sha256")). by vm_compute.
Qed.

Section PasswordRoundTrip.
Context `{Runtime}.

Lemma hash_password_Ok password iters h :
  hash_password password iters = Ok h ->
  exists s pw dk,
    password = JStr s /\ s <> []
    /\ encode_utf8 password = Ok pw
    /\ pbkdf2_hmac_sha256 pw (token_bytes 16) iters = Ok dk
    /\ h = py "pbkdf2_sha256" ++ dollar :: str_of_int iters
             ++ dollar :: rstrip_eq (urlsafe_b64encode (token_bytes 16))
             ++ dollar :: rstrip_eq (urlsafe_b64encode dk).
Proof.
  unfold hash_password.
  destruct password as [| | | |[|c s]| |]; try done.
  destruct (encode_utf8 (JStr (c :: s))) as [pw|] eqn:Hpw; [|done].
  cbn [mbind result_bind].
  destruct (pbkdf2_hmac_sha256 pw (token_bytes 16) iters) as [dk|] eqn:Hdk;
    [|done].
  intros [= <-]. by exists (c :: s), pw, dk.
Qed.

Lemma verify_hash_round_trip password iters h :
  hash_password password iters = Ok h ->
  hashing_round_trips password iters ->
  verify_password password h = Ok true.
Proof.
  intros (s & pw & dk & -> & Hs & Hpw & Hdk & ->)%hash_password_Ok
         (Hint & Hnd & (Hsd & xs & Hxs & Hds) & Hkey).
  destruct (Hkey pw dk Hpw Hdk) as (_ & xk & Hxk & Hdkk).
  unfold verify_password, verify_password_body.
  rewrite (split_max_join _ _ _ _ _ dollar_not_in_algo Hnd Hsd).
  rewrite bool_decide_true by done. cbn [negb].
  rewrite Hint. cbn [of_option mbind result_bind].
  rewrite Hxs. cbn [mbind result_bind]. rewrite Hds.
  cbn [of_option mbind result_bind]. rewrite Hxk. cbn [mbind result_bind].
  rewrite Hdkk. cbn [of_option mbind result_bind]. rewrite Hpw.
  cbn [mbind result_bind]. rewrite Hdk. cbn [mbind result_bind try_except].
  by rewrite bool_decide_true.
Qed.

(** X3: [verify_password] accepts, for a password, the string
    [hash_password] made of it, provided [int] reads back the iteration
    count [str] wrote and base64 decodes what it encoded of the salt and
    of the derived key; and what [hash_password] returns has the four
    fields of the stored format. *)
Theorem hash_then_verify (password : json) (iters : Z) (h : pystr) :
  hash_password password iters = Ok h ->
  hashing_round_trips password iters ->
  verify_password password h = Ok true /\ hash_format h.
Proof.
  intros Hh Hrt.
  pose proof (verify_hash_round_trip _ _ _ Hh Hrt) as Hv. split; [done|].
  apply (verify_password_body_true password).
  unfold verify_password, try_except in Hv.
  by destruct (verify_password_body password h) as [[|]|].
Qed.

(** X4: an account [create_user] has just made can log in with the
    password it was given, under any spelling of the username that strips
    to the same name, exactly when it was created active; [authenticate]
    then returns the new row, and it does not raise. *)
Theorem created_user_authenticates (d d' : store) (uname uname' : pystr)
    (password : json) (admin active : bool) (pk : Z) :
  create_user d uname password admin active = (d', Ok pk) ->
  hashing_round_trips password PBKDF2_ITERS_DEFAULT ->
  strip uname' = strip uname ->
  exists row,
    users d' !! pk = Some row
    /\ u_username row = strip uname
    /\ u_is_admin row = admin
    /\ authenticate d' uname' password
       = Ok (if active then Some (pk, row) else None).
Proof.
  intros Hc Hrt Hsame.
  pose proof (create_user_Ok_bound _ _ _ _ _ _ _ Hc) as Hb.
  pose proof Hc as (_ & _ & Hget & Hpk & (s & -> & Hlen) & h & Hh & Hd')
    %create_user_Ok.
  set (row := {| u_username := strip uname; u_password_hash := h;
                 u_is_admin := admin; u_is_active := active;
                 u_created_at := utcnow |}) in *.
  assert (users d' !! pk = Some row) as Hrow
    by (rewrite Hd'; simpl; apply lookup_insert_eq).
  exists row. split; [done|]. split; [done|]. split; [done|].
  unfold authenticate. rewrite Hsame.
  rewrite (get_user_by_username_bound _ _ Hb). cbn [mbind result_bind].
  f_equal.
  destruct (select_by_username d' (strip uname)) as [[i r]|] eqn:E.
  - apply select_by_username_found in E as [Hi Hn]. simpl in Hi, Hn.
    assert (i = pk /\ r = row) as [-> ->].
    { rewrite Hd' in Hi. simpl in Hi. rewrite lookup_insert in Hi.
      case_decide as Hk; [by injection Hi as <-|].
      by destruct (proj1 (select_by_username_absent _ _) Hget i r Hi). }
    simpl. destruct active; [|done]. simpl.
    assert (py_or (JStr s) (JStr []) = JStr s) as ->.
    { unfold py_or. destruct s; [|done]. unfold len in Hlen. simpl in Hlen. lia. }
    by rewrite (verify_hash_round_trip _ _ _ Hh Hrt).
  - by destruct (proj1 (select_by_username_absent _ _) E pk row Hrow).
Qed.

(** X5: when usernames are unique, [authenticate] returns a row exactly
    when the driver binds the stripped name, that row is in the table
    under that key, its username is the stripped name, it is active and
    its stored hash verifies the password; an inactive account or a wrong
    password is never returned.  It raises exactly when the driver does
    not bind the stripped name.  In a table whose usernames the driver
    binds, as they are when [create_user] stored them, the first
    condition follows from the others. *)
Theorem authenticate_exactly (d : store) (uname : pystr) (password : json)
    (i : Z) (r : user_row) :
  usernames_unique d ->
  (authenticate d uname password = Ok (Some (i, r))
   <-> driver_binds (JStr (strip uname)) = true
       /\ users d !! i = Some r
       /\ u_username r = strip uname
       /\ u_is_active r = true
       /\ verify_password (py_or password (JStr [])) (u_password_hash r)
          = Ok true)
  /\ ((exists e, authenticate d uname password = Raise e)
      <-> driver_binds (JStr (strip uname)) = false)
  /\ ((forall j r', users d !! j = Some r' ->
                    driver_binds (JStr (u_username r')) = true) ->
      (authenticate d uname password = Ok (Some (i, r))
       <-> users d !! i = Some r
           /\ u_username r = strip uname
           /\ u_is_active r = true
           /\ verify_password (py_or password (JStr [])) (u_password_hash r)
              = Ok true)).
Proof.
  intros Hu.
  assert (authenticate d uname password = Ok (Some (i, r))
          <-> driver_binds (JStr (strip uname)) = true
              /\ users d !! i = Some r
              /\ u_username r = strip uname
              /\ u_is_active r = true
              /\ verify_password (py_or password (JStr []))
                   (u_password_hash r) = Ok true) as Hiff; last first.
  { split; [exact Hiff|]. split.
    - unfold authenticate.
      destruct (driver_binds (JStr (strip uname))) eqn:Hb.
      + rewrite (get_user_by_username_bound _ _ Hb).
        split; [by intros [e [=]]|done].
      + rewrite (get_user_by_username_unbound _ _ Hb).
        split; [done|]. intros _. by eexists.
    - intros Hbound. rewrite Hiff. split; [by intros (_ & ?)|].
      intros (Hi & Hn & Hrest). split; [|done].
      rewrite <- Hn. by eapply Hbound. }
  unfold authenticate. split.
  - destruct (get_user_by_username d (strip uname)) as [o|e] eqn:E; [|done].
    apply get_user_by_username_Ok in E as [Hb ->]. cbn [mbind result_bind].
    destruct (select_by_username d (strip uname)) as [u|] eqn:E; [|done].
    apply select_by_username_found in E as [Hi Hn].
    destruct (u_is_active u.2) eqn:Ha; [|done]. simpl.
    destruct (verify_password _ _) as [[|]|] eqn:Hv; try done.
    by intros [= ->].
  - intros (Hb & Hi & Hn & Ha & Hv).
    rewrite (get_user_by_username_bound _ _ Hb). cbn [mbind result_bind].
    destruct (select_by_username d (strip uname)) as [[j r']|] eqn:E.
    + apply select_by_username_found in E as [Hj Hn']. simpl in Hj, Hn'.
      destruct (usernames_unique_row d i j r r' Hu Hi Hj) as [-> ->];
        [congruence|].
      simpl. by rewrite Ha, Hv.
    + by destruct (proj1 (select_by_username_absent _ _) E i r Hi).
Qed.

End PasswordRoundTrip.

(** ** Messages: what is stored, and what the history gives back *)

Section MessageProperties.
Context `{Runtime}.

Lemma insert_message_Raise d uid c k s r d' e :
  insert_message d uid c k s r = (d', Raise e) -> d' = d.
Proof.
  unfold insert_message.
  repeat (match goal with
          | |- context [match ?x with _ => _ end] => destruct x eqn:?
          end; simpl; try congruence).
Qed.

(** What a call of [insert_message] that returns has checked and done. *)
Lemma insert_message_Ok d uid c k s r d' b :
  insert_message d uid c k s r = (d', Ok b) ->
  b_id b = next_id (messages d)
  /\ b_user_id b = uid /\ b_reply_to b = r /\ b_kind b = normalize_kind k
  /\ b_created_at b = isoformat utcnow
  /\ d' = {| users := users d;
             messages := <[b_id b := row_of b]> (messages d) |}
  /\ exists content,
       json_strip (py_or c (JStr [])) = Ok content
       /\ len content <= 2000
       /\ (b_kind b = py "text" /\ content <> [] /\ b_content b = content
             /\ b_sticker b = s
           \/ b_kind b = py "sticker" /\ b_content b = []
              /\ exists s0, json_strip (py_or s (JStr [])) = Ok s0
                            /\ s0 <> [] /\ b_sticker b = JStr s0).
Proof.
  unfold insert_message.
  destruct (json_strip (py_or c (JStr []))) as [content|] eqn:Hc; [|done].
  destruct (normalize_kind_cases k) as [Hk|Hk]; rewrite Hk.
  - rewrite bool_decide_true by done.
    rewrite (bool_decide_false (py "text" = py "sticker"))
      by (intros Heq; vm_compute in Heq; discriminate).
    cbn [andb]. destruct (str_truthy content) eqn:Ht; [|done]. cbn [negb].
    destruct (2000 <? len content) eqn:Hl; [done|].
    destruct (execute _) as [[]|e0] eqn:Hb; [|done].
    intros [= <- <-]. cbn. repeat (split; [done|]).
    exists content. split; [done|]. split; [lia|]. left.
    repeat split; try done. by destruct content.
  - rewrite (bool_decide_false (py "sticker" = py "text"))
      by (intros Heq; vm_compute in Heq; discriminate).
    rewrite bool_decide_true by done. cbn [andb].
    destruct (2000 <? len content) eqn:Hl; [done|].
    destruct (json_strip (py_or s (JStr []))) as [s0|] eqn:Hs; [|done].
    cbn [mbind result_bind].
    destruct (str_truthy s0) eqn:Ht; [|done]. cbn [negb].
    destruct (execute _) as [[]|e0] eqn:Hb; [|done].
    intros [= <- <-]. cbn. repeat (split; [done|]).
    exists content. split; [done|]. split; [lia|]. right.
    split; [done|]. split; [done|]. exists s0.
    repeat split; try done. by destruct s0.
Qed.

(** A call of [insert_message] that returns has executed its INSERT: the
    driver bound the user id, the sticker, [reply_to] and the content. *)
Lemma insert_message_Ok_bound d uid c k s r d' b :
  insert_message d uid c k s r = (d', Ok b) ->
  exists content,
    json_strip (py_or c (JStr [])) = Ok content
    /\ forallb driver_binds
         (insert_params uid (b_kind b) (b_sticker b) r content) = true.
Proof.
  unfold insert_message, execute.
  destruct (json_strip (py_or c (JStr []))) as [content|] eqn:Hc; [|done].
  destruct (_ && negb (str_truthy content)); [done|].
  destruct (2000 <? len content); [done|].
  match goal with
  | |- context [match ?checked with Ok _ => _ | Raise _ => _ end] =>
      destruct checked as [st|]; [|done]
  end.
  destruct (forallb driver_binds _) eqn:Hb; [|done].
  intros [= <- <-]. by exists content.
Qed.

Lemma json_strip_stripped v s : json_strip v = Ok s -> strip s = s.
Proof.
  destruct v; try done. simpl. intros [= <-]. apply strip_idemp.
Qed.

Lemma insert_message_row_valid d uid c k s r d' b :
  insert_message d uid c k s r = (d', Ok b) -> message_valid (row_of b).
Proof.
  intros (_ & _ & _ & _ & _ & _ & content & Hc & Hlen & Hcase)
         %insert_message_Ok.
  split; [done|]. simpl.
  destruct Hcase as [(Hk & Hne & -> & _)|(Hk & -> & s0 & Hs & Hne & ->)].
  - left. repeat split; try done. by apply (json_strip_stripped _ _ Hc).
  - right. split; [done|]. split; [done|]. exists s0.
    rewrite column_text_str.
    repeat split; try done. by apply (json_strip_stripped _ _ Hs).
Qed.

Lemma insert_message_rows_kept d uid c k s r :
  rows_kept d (insert_message d uid c k s r).1.
Proof.
  destruct (insert_message d uid c k s r) as [d' [b|e]] eqn:E.
  - apply insert_message_Ok in E as (Hid & _ & _ & _ & _ & -> & _).
    split; [done|]. intros i row Hi. simpl. rewrite lookup_insert_ne; [done|].
    rewrite Hid. intros <-. by rewrite next_id_fresh in Hi.
  - apply insert_message_Raise in E as ->. by split.
Qed.

Lemma insert_message_valid_kept d uid c k s r :
  messages_valid d -> messages_valid (insert_message d uid c k s r).1.
Proof.
  intros Hv.
  destruct (insert_message d uid c k s r) as [d' [b|e]] eqn:E.
  - pose proof (insert_message_row_valid _ _ _ _ _ _ _ _ E) as Hrow.
    apply insert_message_Ok in E as (_ & _ & _ & _ & _ & -> & _).
    intros i row. simpl. rewrite lookup_insert.
    case_decide; [by intros [= <-]|apply Hv].
  - apply insert_message_Raise in E as ->. done.
Qed.

Lemma insert_message_users d uid c k s r :
  users (insert_message d uid c k s r).1 = users d.
Proof.
  destruct (insert_message d uid c k s r) as [d' [b|e]] eqn:E.
  - by apply insert_message_Ok in E as (_ & _ & _ & _ & _ & -> & _).
  - by apply insert_message_Raise in E as ->.
Qed.

(** X6: a call of [insert_message] that returns has executed its INSERT
    (the driver bound the user id, the sticker, [reply_to] and the
    content) and has stored exactly one row, under an [id] larger than
    every [id] of the table, which is the [id] of the dict it returns;
    every other row and the users are as before.  The row has the user
    id, kind, [reply_to] and content of the dict; its sticker is what the
    column keeps of the dict's sticker, which need not be the same value
    (SQLite keeps the text "5" of the number 5); its [created_at] is the
    time of which the dict has the [isoformat].  The kind is text or
    sticker; a text has its stripped, non-empty content of at most 2000
    characters, a sticker has empty content and its stripped, non-empty
    sticker, which the column keeps as it is.  A call that raises leaves
    the database as it was. *)
Theorem insert_message_effect (d : store) (uid : Z) (c : json) (k : pystr)
    (s : json) (r : option Z) :
  match insert_message d uid c k s r with
  | (d', Ok b) =>
      messages d' !! b_id b
      = Some {| m_room := py "general"; m_user_id := uid;
                m_kind := b_kind b;
                m_sticker := column_text (b_sticker b);
                m_reply_to := r; m_content := b_content b;
                m_created_at := utcnow |}
      /\ b_created_at b = isoformat utcnow
      /\ message_valid (row_of b)
      /\ b_user_id b = uid /\ b_reply_to b = r
      /\ (exists content,
            json_strip (py_or c (JStr [])) = Ok content
            /\ forallb driver_binds
                 (insert_params uid (b_kind b) (b_sticker b) r content)
               = true)
      /\ (forall i row, messages d !! i = Some row ->
             i < b_id b /\ messages d' !! i = Some row)
      /\ (forall i, is_Some (messages d' !! i) ->
             i = b_id b \/ is_Some (messages d !! i))
      /\ users d' = users d
  | (d', Raise _) => d' = d
  end.
Proof.
  destruct (insert_message d uid c k s r) as [d' [b|e]] eqn:E.
  2: { by apply insert_message_Raise in E. }
  pose proof (insert_message_row_valid _ _ _ _ _ _ _ _ E) as Hrow.
  pose proof (insert_message_Ok_bound _ _ _ _ _ _ _ _ E) as Hbound.
  apply insert_message_Ok in E as (Hid & Hu & Hr & _ & Hat & -> & _). simpl.
  split; [rewrite lookup_insert_eq; unfold row_of; by rewrite Hu, Hr|].
  split; [done|]. split; [done|]. split; [done|].
  split; [done|]. split; [done|]. split; [|split; [|done]].
  - intros i row Hi. rewrite Hid. split; [by apply next_id_above in Hi|].
    rewrite lookup_insert_ne; [done|]. intros <-.
    by rewrite next_id_fresh in Hi.
  - intros i. rewrite lookup_insert. case_decide; [by left|by right].
Qed.

(** The rows of the join, read on the two tables. *)
Lemma elem_of_history_rows d (x : Z * msg_row * pystr) :
  x ∈ history_rows d
  <-> messages d !! x.1.1 = Some x.1.2
      /\ m_room x.1.2 = py "general"
      /\ exists u, users d !! m_user_id x.1.2 = Some u
                   /\ x.2 = u_username u.
Proof.
  unfold history_rows. rewrite list_elem_of_filter, list_elem_of_omap.
  destruct x as [[i row] name]. simpl. split.
  - intros (Hroom & [j row'] & Hin & Hjoin). simpl in Hjoin.
    apply elem_of_map_to_list in Hin.
    destruct (users d !! m_user_id row') as [u|] eqn:Hu; [|done].
    injection Hjoin as -> -> <-. split; [done|]. split; [done|]. by exists u.
  - intros (Hi & Hroom & u & Hu & ->). split; [done|].
    exists (i, row). split; [by apply elem_of_map_to_list|]. simpl.
    by rewrite Hu.
Qed.

(** X7: a message [insert_message] has just stored for a user of the
    [users] table is the last entry of the history, whatever the limit,
    with the [id], kind, content and [reply_to] that [insert_message]
    returned and the username of that user.  Its sticker is what the
    column keeps of the sticker that was returned, and its [created_at] is
    the text [fetch_history] makes of the stored time: neither need be
    the value in the dict [insert_message] returned. *)
Theorem inserted_message_ends_history (d d' : store) (uid : Z) (c : json)
    (k : pystr) (s : json) (r : option Z) (b : base_message) (u : user_row)
    (limit : Z) :
  insert_message d uid c k s r = (d', Ok b) ->
  users d !! uid = Some u ->
  last (fetch_history d' limit)
  = Some {| msg_id := b_id b; msg_user_id := uid;
            msg_username := u_username u; msg_kind := b_kind b;
            msg_sticker := column_text (b_sticker b);
            msg_reply_to := b_reply_to b;
            msg_content := b_content b;
            msg_created_at := column_isoformat utcnow |}.
Proof.
  intros Hins Hu.
  pose proof (insert_message_Ok _ _ _ _ _ _ _ _ Hins)
    as (Hid & Huid & _ & Hkind & _ & Hd' & _).
  set (x0 := ((b_id b, row_of b), u_username u) : Z * msg_row * pystr).
  assert (x0 ∈ history_rows d') as Hx0.
  { apply elem_of_history_rows. subst d'. simpl.
    split; [apply lookup_insert_eq|]. split; [done|]. exists u.
    by rewrite Huid. }
  assert (forall y, y ∈ history_rows d' -> y.1.1 <= b_id b) as Hmax.
  { intros y (Hy & _)%elem_of_history_rows. subst d'. simpl in Hy.
    rewrite lookup_insert in Hy. case_decide as Hk; [lia|].
    apply next_id_above in Hy. lia. }
  pose proof (sorted_rows_strict d') as HL.
  assert (head (sorted_by id_desc (history_rows d')) = Some x0) as Hhead.
  { rewrite <- (sorted_by_Permutation id_desc (history_rows d')) in Hx0.
    destruct (sorted_by id_desc (history_rows d')) as [|y L] eqn:E;
      [by apply elem_of_nil in Hx0|].
    simpl. f_equal. apply elem_of_cons in Hx0 as [->|Hin]; [done|].
    apply StronglySorted_cons in HL as [Hall _].
    pose proof (proj1 (Forall_forall _ _) Hall x0 Hin) as Hlt. simpl in Hlt.
    assert (y ∈ history_rows d') as Hy
      by (rewrite <- (sorted_by_Permutation id_desc), E; left).
    apply Hmax in Hy. lia. }
  unfold fetch_history. rewrite fmap_last, last_reverse.
  assert (exists n, Z.to_nat (1 `max` (200 `min` limit)) = S n) as [n ->]
    by (exists (Z.to_nat (1 `max` (200 `min` limit)) - 1)%nat; lia).
  destruct (sorted_by id_desc (history_rows d')) as [|y L]; [done|].
  simpl in *. injection Hhead as ->. simpl. f_equal. f_equal; [done|].
  rewrite Hkind. by destruct (normalize_kind_cases k) as [-> | ->].
Qed.

End MessageProperties.

(** ** What a frame can and cannot do *)

Lemma rows_kept_refl d : rows_kept d d.
Proof. by split. Qed.

Lemma rows_kept_trans d1 d2 d3 :
  rows_kept d1 d2 -> rows_kept d2 d3 -> rows_kept d1 d3.
Proof. intros [Hu1 Hm1] [Hu2 Hm2]. split; eauto. Qed.

Section FrameProperties.
Context `{Runtime}.

(** Splits a [frame_effect] into its eight parts and closes all but the
    two on the other connections, when they hold by computation. *)
Ltac split_effect :=
  split; [done|]; split; [done|]; split; [simpl; set_solver|];
  split; [|split; [|split; [done|split; done]]].

Lemma evicted_nil : evicted [] = ∅.
Proof. done. Qed.

Lemma evicted_singleton a c : c ∈ evicted [a] -> c = target a.
Proof.
  unfold evicted. rewrite elem_of_list_to_set, list_elem_of_fmap.
  intros (x & -> & Hx). apply list_elem_of_filter in Hx as [_ Hx].
  by apply list_elem_of_singleton in Hx as ->.
Qed.

Lemma frame_effect_refl ws w : frame_effect ws w w.
Proof.
  exists [], []. rewrite !app_nil_r, evicted_nil. split_effect.
  - intros c _. set_solver.
  - intros c _. by rewrite decide_False by set_solver.
Qed.

Lemma frame_effect_trans ws w1 w2 w3 :
  frame_effect ws w1 w2 -> frame_effect ws w2 w3 -> frame_effect ws w1 w3.
Proof.
  intros (n1 & m1 & Hs1 & Hc1 & Hsub1 & Hkeep1 & Hse1 & Hr1 & Hu1 & Hv1)
         (n2 & m2 & Hs2 & Hc2 & Hsub2 & Hkeep2 & Hse2 & Hr2 & Hu2 & Hv2).
  exists (n1 ++ n2), (m1 ++ m2).
  split; [by rewrite Hs2, Hs1, app_assoc|].
  split; [by rewrite Hc2, Hc1, app_assoc|].
  rewrite evicted_app.
  split; [set_solver|].
  split; [|split; [|split; [by eapply rows_kept_trans|split; auto]]].
  - intros c Hc. rewrite (Hkeep2 c Hc), (Hkeep1 c Hc). set_solver.
  - intros c Hc. rewrite (Hse2 c Hc), (Hse1 c Hc).
    repeat case_decide; try done; set_solver.
Qed.

Lemma frame_effect_record_send ws a w :
  target a = ws -> frame_effect ws w (record_send a w).
Proof.
  intros Ha. exists [a], []. rewrite app_nil_r. split_effect.
  - intros c Hc. simpl. split; [|by intros [? _]].
    intros Hin. split; [done|]. intros He%evicted_singleton. congruence.
  - intros c Hc. simpl. rewrite decide_False; [done|].
    intros He%evicted_singleton. congruence.
Qed.

Lemma frame_effect_with_db ws d call w :
  rows_kept (db w) d ->
  (usernames_unique (db w) -> usernames_unique d) ->
  (messages_valid (db w) -> messages_valid d) ->
  frame_effect ws w (with_db d call w).
Proof.
  intros Hr Hu Hv. exists [], [call]. rewrite app_nil_r, evicted_nil.
  split_effect.
  - intros c _. simpl. set_solver.
  - intros c _. by rewrite decide_False by set_solver.
Qed.

Lemma frame_effect_set_session ws s w :
  frame_effect ws w (set_session ws s w).
Proof.
  exists [], []. rewrite !app_nil_r, evicted_nil. split_effect.
  - intros c _. simpl. set_solver.
  - intros c Hc. rewrite decide_False by set_solver. simpl.
    by rewrite lookup_insert_ne.
Qed.

Lemma frame_effect_unregister ws w : frame_effect ws w (unregister ws w).
Proof.
  exists [], []. rewrite !app_nil_r, evicted_nil. split_effect.
  - intros c Hc. simpl. set_solver.
  - intros c Hc. rewrite decide_False by set_solver. simpl.
    by rewrite lookup_delete_ne.
Qed.

Lemma frame_effect_after_broadcast ws obj w w' :
  after_broadcast obj w w' -> frame_effect ws w w'.
Proof.
  intros (first & rest & (Hsent & Hdb & Hcalls & Hconns & Hsess) & _).
  exists (first ++ rest), []. rewrite app_nil_r, Hdb, Hconns.
  split; [done|]. split; [done|]. split; [set_solver|].
  split; [|split; [|by split]].
  - intros c _. set_solver.
  - intros c _. apply Hsess.
Qed.

(** The same, for the pieces of the handler. *)
Lemma respects_ret {A} ws (a : A) : respects ws (mret a).
Proof. intros w. apply frame_effect_refl. Qed.

Lemma respects_lift {A} ws (r : result A) : respects ws (lift r).
Proof. intros w. apply frame_effect_refl. Qed.

Lemma respects_bind {A B} ws (m : io A) (k : A -> io B) :
  respects ws m -> (forall a, respects ws (k a)) -> respects ws (m ≫= k).
Proof.
  intros Hm Hk w. rewrite io_bind_unfold. specialize (Hm w).
  destruct (m w) as [w' [a|e]]; [|done].
  eapply frame_effect_trans; [exact Hm|apply Hk].
Qed.

Lemma respects_try {A} ws (body : io A) (handler : exn -> io A) :
  respects ws body -> (forall e, respects ws (handler e)) ->
  respects ws (io_try body handler).
Proof.
  intros Hb Hh w. unfold io_try. specialize (Hb w).
  destruct (body w) as [w' [a|e]]; [done|].
  eapply frame_effect_trans; [exact Hb|apply Hh].
Qed.

Lemma respects_world {A} ws (f : world -> io A) :
  (forall w0, respects ws (f w0)) -> respects ws (fun w => f w w).
Proof. intros Hf w. apply Hf. Qed.

Lemma respects_send_json ws obj : respects ws (send_json ws obj).
Proof.
  intros w. rewrite send_json_replied. by apply frame_effect_record_send.
Qed.

Lemma respects_broadcast_io ws obj : respects ws (broadcast_io obj).
Proof.
  intros w. destruct (broadcast_io_spec obj w) as (w' & -> & Hafter).
  by eapply frame_effect_after_broadcast.
Qed.

Lemma respects_broadcast_presence_io ws : respects ws broadcast_presence_io.
Proof. intros w. apply respects_broadcast_io. Qed.

Lemma respects_cleanup_ws_io ws : respects ws (cleanup_ws_io ws).
Proof.
  intros w. unfold cleanup_ws_io.
  eapply frame_effect_trans; [apply frame_effect_unregister|].
  apply respects_broadcast_presence_io.
Qed.

Lemma respects_require_authed ws : respects ws (require_authed ws).
Proof.
  intros w. unfold require_authed.
  destruct (SESSIONS w !! ws) as [[|?]|]; apply frame_effect_refl.
Qed.

Lemma respects_authenticate_io ws u p : respects ws (authenticate_io u p).
Proof.
  intros w. apply frame_effect_with_db; [apply rows_kept_refl|done|done].
Qed.

Lemma respects_fetch_history_io ws n : respects ws (fetch_history_io n).
Proof.
  intros w. apply frame_effect_with_db; [apply rows_kept_refl|done|done].
Qed.

Lemma respects_insert_message_io ws uid c k s r :
  respects ws (insert_message_io uid c k s r).
Proof.
  intros w. unfold insert_message_io.
  pose proof (insert_message_rows_kept (db w) uid c k s r) as Hr.
  pose proof (insert_message_valid_kept (db w) uid c k s r) as Hv.
  pose proof (insert_message_users (db w) uid c k s r) as Hu.
  destruct (insert_message (db w) uid c k s r) as [d res]. simpl in *.
  apply frame_effect_with_db; [done| |done].
  unfold usernames_unique. by rewrite Hu.
Qed.

Lemma respects_create_user_io ws u p a act :
  respects ws (create_user_io u p a act).
Proof.
  intros w. unfold create_user_io.
  pose proof (create_user_rows_kept (db w) u p a act) as Hr.
  pose proof (create_user_unique (db w) u p a act) as Hu.
  pose proof (create_user_effect_messages (db w) u p a act) as Hm.
  destruct (create_user (db w) u p a act) as [d res]. simpl in *.
  apply frame_effect_with_db; [done|done|].
  unfold messages_valid. by rewrite Hm.
Qed.

Lemma respects_on_login ws msg : respects ws (on_login ws msg).
Proof.
  unfold on_login. apply respects_bind; [apply respects_lift|]. intros uname.
  apply respects_bind; [apply respects_authenticate_io|].
  intros [[uid row]|]; [|apply respects_send_json].
  apply respects_bind.
  { intros w. apply frame_effect_set_session. }
  intros _. apply respects_bind; [apply respects_send_json|]. intros _.
  apply respects_bind; [apply respects_fetch_history_io|]. intros hist.
  apply respects_bind; [apply respects_send_json|]. intros _.
  apply respects_broadcast_presence_io.
Qed.

Lemma respects_on_send ws sess msg : respects ws (on_send ws sess msg).
Proof.
  unfold on_send. apply respects_bind; [apply respects_lift|]. intros k.
  cbn zeta. apply respects_bind.
  - apply respects_try.
    + apply respects_bind; [|intros base; apply respects_ret].
      apply respects_bind; [apply respects_lift|]. intros r.
      apply respects_insert_message_io.
    + intros e. apply respects_bind; [apply respects_send_json|].
      intros _. apply respects_ret.
  - intros [full|]; [apply respects_broadcast_io|apply respects_ret].
Qed.

Lemma respects_on_admin_create_user ws sess msg :
  respects ws (on_admin_create_user ws sess msg).
Proof.
  unfold on_admin_create_user.
  destruct (negb (is_admin sess)); [apply respects_send_json|].
  apply respects_bind; [apply respects_lift|]. intros name. cbn zeta.
  apply respects_try.
  - apply respects_bind; [apply respects_create_user_io|]. intros _.
    apply respects_send_json.
  - intros e. apply respects_send_json.
Qed.

Lemma respects_on_frame ws parsed : respects ws (on_frame ws parsed).
Proof.
  unfold on_frame. destruct parsed as [v|]; [|apply respects_send_json].
  destruct v; try apply respects_lift. cbn zeta.
  destruct (eq_str _ (py "login")); [apply respects_on_login|].
  apply respects_bind.
  - apply respects_try.
    + apply respects_bind; [apply respects_require_authed|].
      intros sess. apply respects_ret.
    + intros e. apply respects_bind; [apply respects_send_json|].
      intros _. apply respects_ret.
  - intros [sess|]; [|apply respects_ret].
    destruct (eq_str _ (py "send")); [apply respects_on_send|].
    destruct (eq_str _ (py "who_online")).
    { intros w. apply respects_send_json. }
    destruct (eq_str _ (py "admin_create_user"));
      [apply respects_on_admin_create_user|].
    destruct (_ || _); apply respects_send_json.
Qed.

Lemma respects_frames_loop ws frames : respects ws (frames_loop ws frames).
Proof.
  induction frames as [|f rest IH]; simpl; [apply respects_ret|].
  apply respects_bind; [apply respects_on_frame|]. by intros _.
Qed.

(** Any run of events keeps the rows and the two invariants of the
    database. *)
Lemma run_events_database evs w :
  rows_kept (db w) (db (run_events evs w))
  /\ (usernames_unique (db w) -> usernames_unique (db (run_events evs w)))
  /\ (messages_valid (db w) -> messages_valid (db (run_events evs w))).
Proof.
  unfold run_events. revert w. induction evs as [|ev evs IH]; intros w.
  { split; [apply rows_kept_refl|done]. }
  simpl. destruct (IH (run_event w ev)) as (Hr & Hu & Hv).
  assert (rows_kept (db w) (db (run_event w ev))
          /\ (usernames_unique (db w) -> usernames_unique (db (run_event w ev)))
          /\ (messages_valid (db w) -> messages_valid (db (run_event w ev))))
    as (Hr0 & Hu0 & Hv0).
  { destruct ev as [ws|ws parsed|ws]; simpl.
    - split; [apply rows_kept_refl|done].
    - by destruct (respects_on_frame ws parsed w)
        as (? & ? & _ & _ & _ & _ & _ & ? & ? & ?).
    - by destruct (respects_cleanup_ws_io ws w)
        as (? & ? & _ & _ & _ & _ & _ & ? & ? & ?). }
  split; [by eapply rows_kept_trans|]. split; auto.
Qed.

End FrameProperties.

(** ** What the server tells its clients *)

Section Soundness.
Context `{Runtime}.

Lemma session_backed_mono d d' s :
  rows_kept d d' -> session_backed d s -> session_backed d' s.
Proof.
  intros [Hu _]. destruct s as [|i]; [done|]. intros (row & Hr & ?).
  exists row. split; [by apply Hu|done].
Qed.

Lemma account_named_mono d d' name :
  rows_kept d d' -> account_named d name -> account_named d' name.
Proof.
  intros [Hu _] (i & row & Hr & ?). exists i, row. split; [by apply Hu|done].
Qed.

Lemma message_backed_mono o d d' m :
  rows_kept d d' -> message_backed o d m -> message_backed o d' m.
Proof.
  intros [Hu Hm] (r & u & H1 & H2 & ?). exists r, u.
  split; [by apply Hm|]. split; [by apply Hu|done].
Qed.

Lemma payload_backed_mono d d' ev :
  rows_kept d d' -> payload_backed d ev -> payload_backed d' ev.
Proof.
  intros Hk. destruct ev; simpl; try done.
  - intros (i & row & Hr & ?). exists i, row.
    split; [by apply (proj1 Hk)|done].
  - intros Hf. eapply Forall_impl; [exact Hf|].
    intros m. by apply message_backed_mono.
  - by apply message_backed_mono.
  - intros Hf. eapply Forall_impl; [exact Hf|].
    intros m. by apply account_named_mono.
  - by apply account_named_mono.
Qed.

Lemma world_sound_with_db d call w :
  world_sound w -> rows_kept (db w) d -> world_sound (with_db d call w).
Proof.
  intros [Hs Hp] Hk. split.
  - intros c s Hc. eapply session_backed_mono; [exact Hk|]. by eapply Hs.
  - unfold sends_backed. simpl. eapply Forall_impl; [exact Hp|].
    intros a. by apply payload_backed_mono.
Qed.

Lemma world_sound_record_send a w :
  world_sound w -> payload_backed (db w) (payload a) ->
  world_sound (record_send a w).
Proof.
  intros [Hs Hp] Ha. split; [done|]. unfold sends_backed. simpl.
  apply Forall_app_2; [done|]. by constructor.
Qed.

Lemma world_sound_set_session ws s w :
  world_sound w -> session_backed (db w) s ->
  world_sound (set_session ws s w).
Proof.
  intros [Hs Hp] Hb. split; [|done]. intros c s'. simpl.
  destruct (decide (c = ws)) as [->|Hne].
  - rewrite lookup_insert_eq. by intros [= <-].
  - rewrite lookup_insert_ne by done. apply Hs.
Qed.

Lemma world_sound_unregister ws w :
  world_sound w -> world_sound (unregister ws w).
Proof.
  intros [Hs Hp]. split; [|done]. intros c s. simpl.
  intros [_ Hc]%lookup_delete_Some. by eapply Hs.
Qed.

Lemma world_sound_register ws w :
  world_sound w -> world_sound (register ws w).
Proof.
  intros [Hs Hp]. split; [|done]. intros c s. simpl.
  destruct (decide (c = ws)) as [->|Hne].
  - rewrite lookup_insert_eq. by intros [= <-].
  - rewrite lookup_insert_ne by done. apply Hs.
Qed.

Lemma presence_backed w :
  sessions_backed w -> payload_backed (db w) (EvPresence (online_usernames w)).
Proof.
  intros Hs. simpl. apply Forall_forall. intros x Hx.
  apply online_usernames_spec in Hx as (_ & c & i & Hc & <-).
  destruct (Hs c _ Hc) as (row & Hr & Hn & _). by exists (user_id i), row.
Qed.

Lemma send_each_sound obj cs w :
  world_sound w -> payload_backed (db w) obj ->
  world_sound (send_each obj cs w).1 /\ db (send_each obj cs w).1 = db w.
Proof.
  intros [Hs Hp] Hobj.
  destruct (send_each_spec obj cs w) as (atts & Hw & _ & Hatts & _).
  rewrite Hw. split; [|done]. split; [done|].
  unfold sends_backed. simpl. apply Forall_app_2; [done|].
  eapply Forall_impl; [exact Hatts|]. by intros a ->.
Qed.

(** [broadcast] sends [obj] and presence lists of the registry: it keeps a
    sound world sound, and does not touch the database. *)
Lemma broadcast_sound fuel : forall obj w w',
  world_sound w -> payload_backed (db w) obj ->
  broadcast fuel obj w = Some w' ->
  world_sound w' /\ db w' = db w.
Proof.
  induction fuel as [|fuel IH]; intros obj w w' Hw Hobj; [done|].
  rewrite broadcast_S.
  destruct (send_each_sound obj (elements (CONNS w)) w Hw Hobj) as [Hw1 Hdb1].
  destruct (send_each obj (elements (CONNS w)) w) as [w1 dead].
  cbn [fst snd] in *. rewrite <- Hdb1. clear Hdb1 Hw Hobj.
  revert w1 Hw1. induction dead as [|d dead IHd]; intros w1 Hw1; simpl.
  { by intros [= <-]. }
  destruct (broadcast fuel (EvPresence (online_usernames (unregister d w1)))
              (unregister d w1)) as [w2|] eqn:E.
  - pose proof (world_sound_unregister d w1 Hw1) as Hu.
    destruct (IH _ _ _ Hu (presence_backed _ (proj1 Hu)) E) as [Hw2 Hdb2].
    intros Hf. destruct (IHd w2 Hw2 Hf) as [? Hd']. split; [done|].
    by rewrite Hd', Hdb2.
  - intros Hf. exfalso. revert Hf. clear. induction dead; simpl; done.
Qed.

Lemma broadcast_io_sound obj w :
  world_sound w -> payload_backed (db w) obj ->
  world_sound (broadcast_io obj w).1 /\ db (broadcast_io obj w).1 = db w.
Proof.
  intros Hw Hobj. unfold broadcast_io.
  destruct (broadcast (S (size (CONNS w))) obj w) as [w'|] eqn:E; [|done].
  by eapply broadcast_sound.
Qed.

Lemma fetch_history_backed d limit :
  Forall (message_backed History d) (fetch_history d limit).
Proof.
  unfold fetch_history. apply Forall_fmap, Forall_forall. intros x Hx.
  rewrite elem_of_reverse in Hx. apply elem_of_take in Hx as (i & Hx & _).
  apply list_elem_of_lookup_2 in Hx.
  rewrite sorted_by_Permutation in Hx.
  apply elem_of_history_rows in Hx as (Hm & _ & u & Hu & Hn).
  exists x.1.2, u. by repeat split.
Qed.

Lemma authenticate_active d uname password u :
  authenticate d uname password = Ok (Some u) -> u_is_active u.2 = true.
Proof.
  unfold authenticate.
  destruct (get_user_by_username d (strip uname)) as [[x|]|]; try done.
  simpl. destruct (u_is_active x.2) eqn:E; simpl; [|done].
  destruct (verify_password _ _) as [[]|]; try done. by intros [= <-].
Qed.

(** *** The pieces of the handler *)

Lemma keeps_ret {A} (P : world -> Prop) (Q : A -> world -> Prop) (a : A) :
  (forall w, P w -> Q a w) -> keeps P (mret a) Q.
Proof. intros HQ w Hw HP. split; [done|]. intros a' [= <-]. by apply HQ. Qed.

Lemma keeps_lift {A} (P : world -> Prop) (Q : A -> world -> Prop)
    (r : result A) :
  (forall w a, P w -> r = Ok a -> Q a w) -> keeps P (lift r) Q.
Proof. intros HQ w Hw HP. split; [done|]. intros a Ha. by eapply HQ. Qed.

Lemma keeps_bind {A B} (Q : A -> world -> Prop) (P : world -> Prop)
    (m : io A) (k : A -> io B) (R : B -> world -> Prop) :
  keeps P m Q -> (forall a, keeps (Q a) (k a) R) -> keeps P (m ≫= k) R.
Proof.
  intros Hm Hk w Hw HP. rewrite io_bind_unfold.
  destruct (Hm w Hw HP) as [Hw1 HQ].
  destruct (m w) as [w1 [a|e]]; [|done]. apply Hk; [done|by apply HQ].
Qed.

Lemma keeps_try {A} (P : world -> Prop) (body : io A)
    (handler : exn -> io A) (Q : A -> world -> Prop) :
  keeps P body Q -> (forall e, keeps (fun _ => True) (handler e) Q) ->
  keeps P (io_try body handler) Q.
Proof.
  intros Hb Hh w Hw HP. unfold io_try.
  destruct (Hb w Hw HP) as [Hw1 HQ].
  destruct (body w) as [w1 [a|e]]; [done|]. by apply Hh.
Qed.

Lemma keeps_pre {A} (P P' : world -> Prop) (m : io A)
    (Q : A -> world -> Prop) :
  (forall w, P' w -> P w) -> keeps P m Q -> keeps P' m Q.
Proof. intros HP Hm w Hw HP'. apply Hm; [done|by apply HP]. Qed.

Lemma keeps_post {A} (Q Q' : A -> world -> Prop) (P : world -> Prop)
    (m : io A) :
  (forall a w, Q a w -> Q' a w) -> keeps P m Q -> keeps P m Q'.
Proof.
  intros HQ Hm w Hw HP. destruct (Hm w Hw HP) as [? Hq]. split; [done|].
  intros a Ha. by apply HQ, Hq.
Qed.

Lemma keeps_assume {A} (fact : Prop) (m : io A) (Q : A -> world -> Prop) :
  (fact -> keeps (fun _ => True) m Q) -> keeps (fun _ => fact) m Q.
Proof. intros Hm w Hw Hf. by apply Hm. Qed.

Lemma keeps_send_json (F : store -> Prop) ws obj :
  (forall d, F d -> payload_backed d obj) ->
  keeps (fun w => F (db w)) (send_json ws obj) (fun _ w => F (db w)).
Proof.
  intros HF w Hw HP. rewrite send_json_replied. unfold replied. simpl.
  split; [|done]. apply world_sound_record_send; [done|]. by apply HF.
Qed.

Lemma keeps_set_session (F : store -> Prop) ws s :
  (forall d, F d -> session_backed d s) ->
  keeps (fun w => F (db w)) (fun w => (set_session ws s w, Ok tt))
        (fun _ w => F (db w)).
Proof.
  intros HF w Hw HP. simpl. split; [|done].
  apply world_sound_set_session; [done|]. by apply HF.
Qed.

Lemma keeps_broadcast_io obj :
  keeps (fun w => payload_backed (db w) obj) (broadcast_io obj)
        (fun _ _ => True).
Proof. intros w Hw HP. split; [|done]. by apply broadcast_io_sound. Qed.

Lemma keeps_broadcast_presence_io (P : world -> Prop) :
  keeps P broadcast_presence_io (fun _ _ => True).
Proof.
  intros w Hw _. split; [|done]. unfold broadcast_presence_io.
  apply broadcast_io_sound; [done|]. apply presence_backed, Hw.
Qed.

Lemma keeps_cleanup_ws_io ws :
  keeps (fun _ => True) (cleanup_ws_io ws) (fun _ _ => True).
Proof.
  intros w Hw _. unfold cleanup_ws_io.
  by apply (keeps_broadcast_presence_io (fun _ => True) (unregister ws w));
    [apply world_sound_unregister|].
Qed.

Lemma keeps_require_authed ws :
  keeps (fun _ => True) (require_authed ws)
        (fun sess w => session_backed (db w) (LoggedIn sess)).
Proof.
  intros w Hw _. unfold require_authed.
  destruct (SESSIONS w !! ws) as [[|sess]|] eqn:E; simpl; try done.
  split; [done|]. intros a [= <-]. exact (proj1 Hw ws _ E).
Qed.

Lemma keeps_authenticate_io uname password :
  keeps (fun _ => True) (authenticate_io uname password)
        (fun u w => forall x, u = Some x ->
                      users (db w) !! x.1 = Some x.2
                      /\ u_is_active x.2 = true).
Proof.
  intros w Hw _. unfold authenticate_io. simpl. split.
  - apply world_sound_with_db; [done|apply rows_kept_refl].
  - intros u Hu x ->. split.
    + by eapply authenticate_Some.
    + by eapply authenticate_active.
Qed.

Lemma keeps_fetch_history_io (P : world -> Prop) limit :
  keeps P (fetch_history_io limit)
        (fun hist w => Forall (message_backed History (db w)) hist).
Proof.
  intros w Hw _. unfold fetch_history_io. simpl. split.
  - apply world_sound_with_db; [done|apply rows_kept_refl].
  - intros hist [= <-]. apply fetch_history_backed.
Qed.

Lemma keeps_insert_message_io sess c k s r :
  keeps (fun w => session_backed (db w) (LoggedIn sess))
        (insert_message_io (user_id sess) c k s r)
        (fun base w =>
           message_backed Broadcast (db w)
             {| msg_id := b_id base; msg_user_id := user_id sess;
                msg_username := username sess; msg_kind := b_kind base;
                msg_sticker := b_sticker base;
                msg_reply_to := b_reply_to base;
                msg_content := b_content base;
                msg_created_at := b_created_at base |}).
Proof.
  intros w Hw (row & Hrow & Hname & _). unfold insert_message_io.
  pose proof (insert_message_rows_kept (db w) (user_id sess) c k s r) as Hk.
  destruct (insert_message (db w) (user_id sess) c k s r) as [d res] eqn:E.
  simpl in *. split; [by apply world_sound_with_db|].
  intros base ->.
  apply insert_message_Ok in E as (_ & Huid & _ & Hkind & Hat & -> & _).
  exists (row_of base), row. simpl.
  split; [apply lookup_insert_eq|]. split; [done|]. split; [done|].
  split; [done|]. split.
  { rewrite Hkind. by destruct (normalize_kind_cases k) as [-> | ->]. }
  by repeat split.
Qed.

Lemma keeps_create_user_io uname password admin active :
  keeps (fun _ => True) (create_user_io uname password admin active)
        (fun _ w => account_named (db w) (strip uname)).
Proof.
  intros w Hw _. unfold create_user_io.
  pose proof (create_user_rows_kept (db w) uname password admin active) as Hk.
  destruct (create_user (db w) uname password admin active) as [d res] eqn:E.
  simpl in *. split; [by apply world_sound_with_db|].
  intros pk ->.
  apply create_user_Ok in E as (_ & _ & _ & _ & _ & h & _ & ->).
  eexists pk, _. simpl. split; [apply lookup_insert_eq|done].
Qed.

Lemma keeps_send_plain (P : world -> Prop) ws obj :
  (forall d, payload_backed d obj) ->
  keeps P (send_json ws obj) (fun _ _ => True).
Proof.
  intros Hobj. apply (keeps_pre (fun _ => True)); [done|].
  apply (keeps_send_json (fun _ => True)). intros d _. apply Hobj.
Qed.

Lemma keeps_on_login ws msg :
  keeps (fun _ => True) (on_login ws msg) (fun _ _ => True).
Proof.
  unfold on_login.
  apply (keeps_bind (fun _ _ => True)); [by apply keeps_lift|]. intros uname.
  eapply keeps_bind; [apply keeps_authenticate_io|].
  intros [[uid row]|]; [|by apply keeps_send_plain].
  set (F := fun d : store =>
              users d !! uid = Some row /\ u_is_active row = true).
  apply (keeps_pre (fun w => F (db w))).
  { intros w Hx. by apply (Hx (uid, row)). }
  apply (keeps_bind (fun _ w => F (db w))).
  { apply (keeps_set_session F). intros d [Hr Ha]. by exists row. }
  intros _. apply (keeps_bind (fun _ w => F (db w))).
  { apply (keeps_send_json F). intros d [Hr Ha]. by exists uid, row. }
  intros _.
  apply (keeps_bind
           (fun hist w => Forall (message_backed History (db w)) hist)).
  { apply keeps_fetch_history_io. }
  intros hist.
  apply (keeps_bind
           (fun _ w => Forall (message_backed History (db w)) hist)).
  { by apply (keeps_send_json
                (fun d => Forall (message_backed History d) hist)). }
  intros _. apply keeps_broadcast_presence_io.
Qed.

Lemma keeps_on_send ws sess msg :
  keeps (fun w => session_backed (db w) (LoggedIn sess))
        (on_send ws sess msg) (fun _ _ => True).
Proof.
  unfold on_send.
  apply (keeps_bind (fun _ w => session_backed (db w) (LoggedIn sess)));
    [by apply keeps_lift|].
  intros k. cbn zeta.
  apply (keeps_bind
           (fun r w => match r with
                       | Some full => message_backed Broadcast (db w) full
                       | None => True
                       end)).
  - apply keeps_try.
    + eapply keeps_bind.
      * apply (keeps_bind
                 (fun _ w => session_backed (db w) (LoggedIn sess)));
          [by apply keeps_lift|].
        intros r. apply keeps_insert_message_io.
      * intros base. by apply keeps_ret.
    + intros e. apply (keeps_bind (fun _ _ => True)).
      * by apply keeps_send_plain.
      * intros _. by apply keeps_ret.
  - intros [full|]; [apply (keeps_broadcast_io (EvMessage full))|].
    by apply keeps_ret.
Qed.

Lemma keeps_on_admin_create_user ws sess msg :
  keeps (fun _ => True) (on_admin_create_user ws sess msg) (fun _ _ => True).
Proof.
  unfold on_admin_create_user.
  destruct (negb (is_admin sess)); [by apply keeps_send_plain|].
  apply (keeps_bind (fun name _ => strip name = name)).
  { apply keeps_lift. intros w name _. apply json_strip_stripped. }
  intros name. cbn zeta. apply keeps_assume. intros Hname.
  apply keeps_try.
  - apply (keeps_bind (fun _ w => account_named (db w) name)).
    + apply (keeps_post (fun _ w => account_named (db w) (strip name))).
      { intros _ w. by rewrite Hname. }
      apply keeps_create_user_io.
    + intros _. apply (keeps_post (fun _ w => account_named (db w) name)).
      { done. }
      by apply (keeps_send_json (fun d => account_named d name)).
  - intros e. by apply keeps_send_plain.
Qed.

Lemma keeps_on_frame ws parsed :
  keeps (fun _ => True) (on_frame ws parsed) (fun _ _ => True).
Proof.
  unfold on_frame. destruct parsed as [v|]; [|by apply keeps_send_plain].
  destruct v; try by apply keeps_lift. cbn zeta.
  destruct (eq_str _ (py "login")); [apply keeps_on_login|].
  apply (keeps_bind
           (fun r w => match r with
                       | Some sess => session_backed (db w) (LoggedIn sess)
                       | None => True
                       end)).
  - apply keeps_try.
    + eapply keeps_bind; [apply keeps_require_authed|].
      intros sess. by apply keeps_ret.
    + intros e. apply (keeps_bind (fun _ _ => True)).
      * by apply keeps_send_plain.
      * intros _. by apply keeps_ret.
  - intros [sess|]; [|by apply keeps_ret].
    destruct (eq_str _ (py "send")); [apply keeps_on_send|].
    destruct (eq_str _ (py "who_online")).
    { intros w Hw _. unfold on_who_online. split; [|done].
      rewrite send_json_replied. apply world_sound_record_send; [done|].
      apply presence_backed, Hw. }
    destruct (eq_str _ (py "admin_create_user")).
    { eapply keeps_pre; [|apply keeps_on_admin_create_user]. done. }
    destruct (_ || _); by apply keeps_send_plain.
Qed.

Lemma run_event_sound w ev : world_sound w -> world_sound (run_event w ev).
Proof.
  intros Hw. destruct ev as [ws|ws parsed|ws]; simpl.
  - by apply world_sound_register.
  - by apply keeps_on_frame.
  - by apply keeps_cleanup_ws_io.
Qed.

(** From a start with no connection and nothing sent, every run of events
    ends in a sound world. *)
Lemma run_events_sound d evs : world_sound (run_events evs (initial_world d)).
Proof.
  unfold run_events.
  assert (world_sound (initial_world d)) as Hw.
  { split; [|by constructor]. intros c s Hc. simpl in Hc.
    by rewrite lookup_empty in Hc. }
  revert Hw. generalize (initial_world d).
  induction evs as [|ev evs IH]; intros w Hw; [done|].
  simpl. by apply IH, run_event_sound.
Qed.

End Soundness.

(** ** The handler and the runs of the server *)

Section ServerProperties.
Context `{Runtime}.

(** X8: whatever frames a connection delivers, and however its loop ends,
    [handler] leaves the connection in neither [CONNS] nor [SESSIONS] and
    registers no other; a [ConnectionClosed] never leaves it; and every
    connection still registered at its end has been sent, in a send that
    returned, the list of the users online in the final registry. *)
Theorem handler_cleans_up (ws : conn) (frames : list (option json))
    (w : world) :
  let res := handler ws frames w in
  CONNS res.1 ⊆ CONNS w ∖ {[ws]}
  /\ SESSIONS res.1 !! ws = None
  /\ res.2 <> Raise ConnectionClosed
  /\ forall c, c ∈ CONNS res.1 ->
       exists a, a ∈ new_sends w res.1 /\ target a = c
                 /\ delivered a = true
                 /\ payload a = EvPresence (online_usernames res.1).
Proof.
  unfold handler.
  destruct (respects_frames_loop ws frames (register ws w))
    as (new & more & Hsent1 & _ & Hsub1 & _).
  destruct (frames_loop ws frames (register ws w)) as [w1 r].
  cbn [fst] in *. unfold cleanup_ws_io, broadcast_presence_io.
  destruct (broadcast_io_spec
              (EvPresence (online_usernames (unregister ws w1)))
              (unregister ws w1))
    as (w2 & -> & first & rest & Hd & Ht & Hp & Hr & Hnone & Hsome).
  cbn [fst snd].
  pose proof Hd as (Hsent & _ & _ & Hconns & Hsess).
  simpl in Hsub1, Hconns, Hsent1.
  split; [rewrite Hconns; set_solver|].
  split; [rewrite Hsess; case_decide; [done|simpl; apply lookup_delete_eq]|].
  split; [by destruct r as [[]|[]]|].

  intros c Hc.
  assert (new_sends w w2 = new ++ first ++ rest) as ->.
  { apply new_sends_app. rewrite Hsent. simpl.
    by rewrite Hsent1, <- app_assoc. }
  destruct (decide (evicted first = ∅)) as [He|He].
  - rewrite (Hnone He), app_nil_r in *. rewrite He in Hd, Hconns.
    assert (c ∈ elements (CONNS (unregister ws w1))) as Hin.
    { apply elem_of_elements. simpl. set_solver. }
    rewrite <- Ht in Hin. apply list_elem_of_fmap in Hin as (a & -> & Ha).
    exists a. split; [apply elem_of_app; by right|]. split; [done|].
    split; [by eapply evicted_none|].
    rewrite (dropped_nothing _ _ _ Hd).
    by apply (proj1 (Forall_forall _ _) Hp).
  - destruct (Hsome He c Hc) as (a & Ha & ?). exists a.
    split; [|done]. rewrite !elem_of_app. by right; right.
Qed.

(** X9: what a frame of the connection [ws] does to another connection
    [c]: nothing, unless a send to [c] raised while the frame was handled,
    and then [c] is dropped from [CONNS] and from [SESSIONS].  A frame
    never registers a connection and never gives another connection a
    session or an identity. *)
Theorem frame_leaves_others (ws c : conn) (parsed : option json)
    (w : world) :
  c <> ws ->
  let w' := (on_frame ws parsed w).1 in
  let failed := c ∈ evicted (new_sends w w') in
  (c ∈ CONNS w' <-> c ∈ CONNS w /\ ~ failed)
  /\ SESSIONS w' !! c = (if decide failed then None else SESSIONS w !! c).
Proof.
  intros Hc w' failed. subst w' failed.
  destruct (respects_on_frame ws parsed w)
    as (new & more & Hsent & _ & _ & Hconns & Hsess & _).
  rewrite (new_sends_app _ _ _ Hsent). split; [by apply Hconns|by apply Hsess].
Qed.

(** X10: no run of the server deletes or changes a row of the database:
    whatever connections are accepted, whatever frames they deliver and
    whichever sends raise, every account and every message stored before
    is stored after, under the same key and with the same columns. *)
Theorem server_keeps_rows (evs : list server_event) (w : world) :
  rows_kept (db w) (db (run_events evs w)).
Proof. apply run_events_database. Qed.

(** X11: a run of the server keeps the usernames of the accounts pairwise
    different, and every stored message valid: in the room general, either
    a text with stripped, non-empty content of at most 2000 characters or
    a sticker with empty content and a non-empty sticker string. *)
Theorem server_keeps_database_valid (evs : list server_event) (w : world) :
  usernames_unique (db w) -> messages_valid (db w) ->
  usernames_unique (db (run_events evs w))
  /\ messages_valid (db (run_events evs w)).
Proof.
  intros Hu Hv. destruct (run_events_database evs w) as (_ & Hu' & Hv').
  by split; [apply Hu'|apply Hv'].
Qed.

(** X12: at every point of every run of the server, a connection whose
    session is authenticated holds the id, the username and the admin flag
    of an account of the database, and that account is active. *)
Theorem sessions_are_accounts (d : store) (evs : list server_event)
    (c : conn) (who : identity) :
  SESSIONS (run_events evs (initial_world d)) !! c = Some (LoggedIn who) ->
  exists row,
    users (db (run_events evs (initial_world d))) !! user_id who = Some row
    /\ u_username row = username who
    /\ u_is_admin row = is_admin who
    /\ u_is_active row = true.
Proof. intros Hc. exact (proj1 (run_events_sound d evs) c _ Hc). Qed.

(** X13: every message the server ever sends to a client, broadcast as a
    [message] event or listed in a [history] event, is a row of the
    messages table with the same id, user id, kind, [reply_to] and
    content, under the user id of an account, and carries that account's
    username.  In a history the sticker is what the column holds and
    [created_at] is the text made of the stored time; in a broadcast the
    sticker is the value that was written, of which the row holds what the
    column keeps, and [created_at] is the [isoformat] of the stored
    time. *)
Theorem sent_messages_are_stored (d : store) (evs : list server_event)
    (a : attempt) (m : message) :
  a ∈ sent (run_events evs (initial_world d)) ->
  (payload a = EvMessage m ->
   message_backed Broadcast (db (run_events evs (initial_world d))) m)
  /\ (forall l, payload a = EvHistory l -> m ∈ l ->
       message_backed History (db (run_events evs (initial_world d))) m).
Proof.
  intros Ha.
  pose proof (proj1 (Forall_forall _ _) (proj2 (run_events_sound d evs)) a Ha)
    as Hp.
  cbv beta in Hp. split.
  - intros Hm. by rewrite Hm in Hp.
  - intros l Hm Hin. rewrite Hm in Hp. simpl in Hp.
    by apply (proj1 (Forall_forall _ _) Hp).
Qed.

(** X14: every username the server ever announces, in a presence list, in
    a [login_ok] or in an [admin_create_user_ok], is the username of an
    account of the database. *)
Theorem announced_names_are_accounts (d : store) (evs : list server_event)
    (a : attempt) (name : pystr) :
  a ∈ sent (run_events evs (initial_world d)) ->
  (exists l, payload a = EvPresence l /\ name ∈ l)
  \/ (exists admin, payload a = EvLoginOk name admin)
  \/ payload a = EvAdminCreateUserOk name ->
  account_named (db (run_events evs (initial_world d))) name.
Proof.
  intros Ha Hm.
  pose proof (proj1 (Forall_forall _ _) (proj2 (run_events_sound d evs)) a Ha)
    as Hp.
  cbv beta in Hp.
  destruct Hm as [(l & Hm & Hin)|[(admin & Hm)|Hm]];
    rewrite Hm in Hp; simpl in Hp.
  - by apply (proj1 (Forall_forall _ _) Hp).
  - destruct Hp as (i & row & ? & ? & _). by exists i, row.
  - done.
Qed.

(** *** Who may write *)

Lemma eq_str_true v lit : eq_str v lit = true <-> v = JStr lit.
Proof.
  destruct v; simpl; try (split; [done|by intros [=]]).
  rewrite bool_decide_eq_true. split; [by intros ->|by intros [= ->]].
Qed.

Lemma eq_str_false v lit : v <> JStr lit -> eq_str v lit = false.
Proof.
  intros Hv. destruct (eq_str v lit) eqn:E; [|done].
  by apply eq_str_true in E.
Qed.

(** The frame of an authenticated session that is not a [login]: the
    branches behind the gate. *)
Lemma on_frame_logged_in ws sess msg w :
  SESSIONS w !! ws = Some (LoggedIn sess) ->
  eq_str (dict_get msg (py "type")) (py "login") = false ->
  on_frame ws (Some (JDict msg)) w
  = (if eq_str (dict_get msg (py "type")) (py "send")
     then on_send ws sess msg
     else if eq_str (dict_get msg (py "type")) (py "who_online")
     then on_who_online ws
     else if eq_str (dict_get msg (py "type")) (py "admin_create_user")
     then on_admin_create_user ws sess msg
     else if eq_str (dict_get msg (py "type")) (py "join")
             || eq_str (dict_get msg (py "type")) (py "history_room")
     then send_json ws
            (EvError (Lit (py "Rooms are disabled. Single chat only.")))
     else send_json ws (EvError (UnknownType (dict_get msg (py "type"))))) w.
Proof.
  intros Hs Hl. unfold on_frame. cbn zeta. rewrite Hl.
  rewrite io_bind_unfold. unfold io_try.
  by rewrite io_bind_unfold, (require_authed_logged_in _ _ _ Hs).
Qed.

Lemma preserves_ret {A X} (f : store -> X) (a : A) : preserves f (mret a).
Proof. done. Qed.

Lemma preserves_lift {A X} (f : store -> X) (r : result A) :
  preserves f (lift r).
Proof. done. Qed.

Lemma preserves_bind {A B X} (f : store -> X) (m : io A) (k : A -> io B) :
  preserves f m -> (forall a, preserves f (k a)) -> preserves f (m ≫= k).
Proof.
  intros Hm Hk w. rewrite io_bind_unfold. specialize (Hm w).
  destruct (m w) as [w1 [a|e]]; simpl in *; [|done]. by rewrite Hk.
Qed.

Lemma preserves_try {A X} (f : store -> X) (body : io A)
    (handler : exn -> io A) :
  preserves f body -> (forall e, preserves f (handler e)) ->
  preserves f (io_try body handler).
Proof.
  intros Hb Hh w. unfold io_try. specialize (Hb w).
  destruct (body w) as [w1 [a|e]]; simpl in *; [done|]. by rewrite Hh.
Qed.

Lemma preserves_send_json {X} (f : store -> X) ws obj :
  preserves f (send_json ws obj).
Proof. intros w. by rewrite send_json_replied. Qed.

Lemma preserves_broadcast_io {X} (f : store -> X) obj :
  preserves f (broadcast_io obj).
Proof.
  intros w.
  destruct (broadcast_io_spec obj w)
    as (w' & -> & first & rest & (_ & Hdb & _) & _).
  simpl. by rewrite Hdb.
Qed.

Lemma preserves_on_login {X} (f : store -> X) ws msg :
  preserves f (on_login ws msg).
Proof.
  unfold on_login. apply preserves_bind; [apply preserves_lift|].
  intros uname. apply preserves_bind; [done|].
  intros [[uid row]|]; [|apply preserves_send_json].
  apply preserves_bind; [done|]. intros _.
  apply preserves_bind; [apply preserves_send_json|]. intros _.
  apply preserves_bind; [done|]. intros hist.
  apply preserves_bind; [apply preserves_send_json|]. intros _.
  intros w. apply preserves_broadcast_io.
Qed.

Lemma preserves_on_send ws sess msg : preserves users (on_send ws sess msg).
Proof.
  unfold on_send. apply preserves_bind; [apply preserves_lift|]. intros k.
  cbn zeta. apply preserves_bind.
  - apply preserves_try.
    + apply preserves_bind; [|intros base; apply preserves_ret].
      apply preserves_bind; [apply preserves_lift|]. intros r w.
      unfold insert_message_io.
      pose proof (insert_message_users (db w) (user_id sess)
                    (py_or (dict_get msg (py "content")) (JStr []))
                    (lower k) (dict_get msg (py "sticker")) r) as Hu.
      by destruct (insert_message _ _ _ _ _ _).
    + intros e. apply preserves_bind; [apply preserves_send_json|].
      intros _. apply preserves_ret.
  - intros [full|]; [apply preserves_broadcast_io|apply preserves_ret].
Qed.

Lemma preserves_on_admin_create_user ws sess msg :
  preserves messages (on_admin_create_user ws sess msg).
Proof.
  unfold on_admin_create_user.
  destruct (negb (is_admin sess)); [apply preserves_send_json|].
  apply preserves_bind; [apply preserves_lift|]. intros name. cbn zeta.
  apply preserves_try.
  - apply preserves_bind; [|intros _; apply preserves_send_json].
    intros w. unfold create_user_io.
    pose proof (create_user_effect_messages (db w) name
                  (py_or (dict_get msg (py "password")) (JStr []))
                  (truthy (dict_get msg (py "is_admin"))) true) as Hm.
    by destruct (create_user _ _ _ _ _).
  - intros e. apply preserves_send_json.
Qed.

(** X15: a frame writes to the database only with authority.  The users
    table changes only when the frame is an [admin_create_user] on a
    connection whose session is authenticated as an admin; the messages
    table changes only when the frame is a [send] on a connection whose
    session is authenticated, and then by one new row under the next id,
    written under the user id of that session. *)
Theorem writes_need_authority (ws : conn) (parsed : option json) (w : world) :
  let w' := (on_frame ws parsed w).1 in
  (users (db w') <> users (db w) ->
     exists sess msg,
       parsed = Some (JDict msg)
       /\ dict_get msg (py "type") = JStr (py "admin_create_user")
       /\ SESSIONS w !! ws = Some (LoggedIn sess)
       /\ is_admin sess = true)
  /\ (messages (db w') <> messages (db w) ->
     exists sess msg row,
       parsed = Some (JDict msg)
       /\ dict_get msg (py "type") = JStr (py "send")
       /\ SESSIONS w !! ws = Some (LoggedIn sess)
       /\ messages (db w')
          = <[next_id (messages (db w)) := row]> (messages (db w))
       /\ m_user_id row = user_id sess).
Proof.
  assert (forall m : io unit, preserves id m ->
            on_frame ws parsed w = m w ->
            let w' := (on_frame ws parsed w).1 in
            (users (db w') <> users (db w) -> False)
            /\ (messages (db w') <> messages (db w) -> False)) as Hsame.
  { intros m Hm ->. specialize (Hm w). unfold id in Hm.
    by split; intros Hne; apply Hne; rewrite Hm. }
  destruct parsed as [v|].
  2: { destruct (Hsame _ (preserves_send_json id ws _) eq_refl).
       by split. }
  destruct v as [| | | | | |msg];
    try (destruct (Hsame _ (preserves_lift id (Raise AttributeError))
                     eq_refl); by split).
  destruct (eq_str (dict_get msg (py "type")) (py "login")) eqn:El.
  { destruct (Hsame _ (preserves_on_login id ws msg)
                (on_frame_login _ _ _ El)). by split. }
  destruct (SESSIONS w !! ws) as [[|sess]|] eqn:Hs.
  1: rewrite (on_frame_please_login ws msg w (or_introl Hs) El); by split.
  2: rewrite (on_frame_please_login ws msg w (or_intror Hs) El); by split.
  rewrite (on_frame_logged_in _ _ _ _ Hs El).
  destruct (eq_str (dict_get msg (py "type")) (py "send")) eqn:Es.
  { apply eq_str_true in Es. split.
    { intros Hne. exfalso. apply Hne. apply (preserves_on_send ws sess msg). }
    intros Hne.
    destruct (json_strip (py_or (dict_get msg (py "kind")) (JStr (py "text"))))
      as [k|e] eqn:Ek.
    2: { exfalso. apply Hne. unfold on_send. rewrite io_bind_unfold.
         unfold lift at 1. by rewrite Ek. }
    rewrite (on_send_spec _ _ _ _ k Ek) in Hne |- *.
    destruct (reply_to_arg (dict_get msg (py "reply_to"))) as [r|e];
      [|by exfalso; apply Hne].
    cbn zeta in Hne |- *.
    destruct (insert_message (db w) (user_id sess) _ (lower k) _ r)
      as [d [base|e]] eqn:E; [|by exfalso; apply Hne].
    apply insert_message_Ok in E as (Hid & Huid & _ & _ & _ & -> & _).
    exists sess, msg, (row_of base).
    do 3 (split; [done|]).
    match goal with
    | |- context [broadcast_io ?obj ?w1] =>
        pose proof (preserves_broadcast_io id obj w1) as Hdb
    end.
    unfold id in Hdb. rewrite Hdb. simpl. by rewrite Hid. }
  destruct (eq_str (dict_get msg (py "type")) (py "who_online")).
  { unfold on_who_online. rewrite send_json_replied. by split. }
  destruct (eq_str (dict_get msg (py "type")) (py "admin_create_user")) eqn:Ea.
  { apply eq_str_true in Ea. split.
    - intros Hne. exists sess, msg. do 3 (split; [done|]).
      destruct (is_admin sess) eqn:Hadm; [done|]. exfalso. apply Hne.
      unfold on_admin_create_user. rewrite Hadm. cbn [negb].
      by rewrite send_json_replied.
    - intros Hne. exfalso. apply Hne.
      apply (preserves_on_admin_create_user ws sess msg). }
  destruct (_ || _); rewrite send_json_replied; by split.
Qed.

(** Evaluates the comparisons of a literal type with the types the
    handler knows. *)
Ltac eval_eq_str :=
  repeat match goal with
         | |- context [eq_str (JStr (py ?a)) (py ?b)] =>
             let b' := eval vm_compute in (eq_str (JStr (py a)) (py b)) in
             change (eq_str (JStr (py a)) (py b)) with b'
         end;
  cbn [orb andb negb].

(** X16: an [admin_create_user] frame of a session that is an admin, with
    a username that is a string or absent.  The server calls
    [create_user] with the stripped username, the password of the frame and
    [is_active=True], and the database is what that call leaves.  When the
    call raises, the reply is [admin_create_user_error] with the text of
    the exception.  When it returns, the reply is [admin_create_user_ok];
    if sending that reply raises, the same [except] clause sends an
    [admin_create_user_error] although the account has been created. *)
Theorem admin_creates_user (ws : conn) (sess : identity)
    (msg : list (pystr * json)) (w : world) (name : pystr) :
  SESSIONS w !! ws = Some (LoggedIn sess) ->
  is_admin sess = true ->
  dict_get msg (py "type") = JStr (py "admin_create_user") ->
  json_strip (py_or (dict_get msg (py "username")) (JStr [])) = Ok name ->
  let made :=
    create_user (db w) name (py_or (dict_get msg (py "password")) (JStr []))
      (truthy (dict_get msg (py "is_admin"))) true in
  let w1 := with_db made.1 (CallCreateUser name) w in
  let ok := {| target := ws; payload := EvAdminCreateUserOk name;
               delivered := negb (send_raises (length (sent w)) ws) |} in
  on_frame ws (Some (JDict msg)) w
  = match made.2 with
    | Raise e => replied ws (EvAdminCreateUserError (StrOf e)) w1
    | Ok _ =>
        if send_raises (length (sent w)) ws
        then replied ws (EvAdminCreateUserError (StrOf ConnectionClosed))
               (record_send ok w1)
        else (record_send ok w1, Ok tt)
    end
  /\ db (on_frame ws (Some (JDict msg)) w).1 = made.1.
Proof.
  intros Hs Hadmin Ht Hname made w1 ok.
  assert (on_frame ws (Some (JDict msg)) w
          = match made.2 with
            | Raise e => replied ws (EvAdminCreateUserError (StrOf e)) w1
            | Ok _ =>
                if send_raises (length (sent w)) ws
                then replied ws
                       (EvAdminCreateUserError (StrOf ConnectionClosed))
                       (record_send ok w1)
                else (record_send ok w1, Ok tt)
            end) as ->.
  { rewrite (on_frame_logged_in _ _ _ _ Hs) by (rewrite Ht; by vm_compute).
    rewrite Ht. eval_eq_str. unfold on_admin_create_user. rewrite Hadmin.
    cbn [negb]. rewrite io_bind_unfold. unfold lift at 1. rewrite Hname.
    cbn zeta. unfold io_try. rewrite io_bind_unfold. unfold create_user_io.
    subst w1 ok. subst made.
    destruct (create_user (db w) name _ _ true) as [d' [pk|e]];
      cbn [fst snd].
    - rewrite send_json_replied. unfold replied at 1. cbn [sent with_db].
      destruct (send_raises (length (sent w)) ws); [|done].
      by rewrite send_json_replied.
    - by rewrite send_json_replied. }
  split; [done|]. destruct (made.2); [|done].
  by destruct (send_raises (length (sent w)) ws).
Qed.

(** X17: [who_online] of an authenticated session is answered, to the
    sender only and with nothing else changed, by the list of the users
    online, which names the sender unless its username is empty. *)
Theorem who_online_reply (ws : conn) (sess : identity)
    (msg : list (pystr * json)) (w : world) :
  SESSIONS w !! ws = Some (LoggedIn sess) ->
  dict_get msg (py "type") = JStr (py "who_online") ->
  on_frame ws (Some (JDict msg)) w
  = replied ws (EvPresence (online_usernames w)) w
  /\ (username sess <> [] -> username sess ∈ online_usernames w).
Proof.
  intros Hs Ht. split.
  - rewrite (on_frame_logged_in _ _ _ _ Hs) by (rewrite Ht; by vm_compute).
    rewrite Ht. eval_eq_str. unfold on_who_online. apply send_json_replied.
  - intros Hne. apply online_usernames_spec. split; [done|].
    by exists ws, sess.
Qed.

(** X18: a frame of an authenticated session whose type is none of the six
    the server knows (a missing type and a type that is not a string
    included) is answered by the error "Unknown type: ..." with that type,
    to the sender only and with nothing else changed. *)
Theorem unknown_type_reply (ws : conn) (sess : identity)
    (msg : list (pystr * json)) (w : world) :
  SESSIONS w !! ws = Some (LoggedIn sess) ->
  (forall t, t ∈ [py "login"; py "send"; py "who_online";
                  py "admin_create_user"; py "join"; py "history_room"] ->
             dict_get msg (py "type") <> JStr t) ->
  on_frame ws (Some (JDict msg)) w
  = replied ws (EvError (UnknownType (dict_get msg (py "type")))) w.
Proof.
  intros Hs Hn.
  assert (forall t, t ∈ [py "login"; py "send"; py "who_online";
                         py "admin_create_user"; py "join";
                         py "history_room"] ->
                    eq_str (dict_get msg (py "type")) t = false) as Hf.
  { intros t Ht. by apply eq_str_false, Hn. }
  rewrite (on_frame_logged_in _ _ _ _ Hs) by (apply Hf; set_solver).
  rewrite !Hf by set_solver. apply send_json_replied.
Qed.

Lemma frames_loop_app ws pre rest w :
  frames_loop ws (pre ++ rest) w
  = match frames_loop ws pre w with
    | (w1, Ok _) => frames_loop ws rest w1
    | (w1, Raise e) => (w1, Raise e)
    end.
Proof.
  revert w. induction pre as [|f pre IH]; intros w; simpl; [done|].
  rewrite !io_bind_unfold.
  destruct (on_frame ws f w) as [w1 [[]|e]]; [apply IH|done].
Qed.

(** X19: a frame that is JSON but not an object (a number, a string, a
    list, [null], ...) ends the connection: [msg.get] raises
    [AttributeError] outside of every [try] of the loop, so nothing is
    replied, the frames after it are never handled, the connection is
    cleaned up as after the frames before it, and the exception leaves
    [handler]. *)
Theorem non_object_frame_ends_connection (ws : conn)
    (pre rest : list (option json)) (v : json) (w : world) :
  (forall msg, v <> JDict msg) ->
  (frames_loop ws pre (register ws w)).2 = Ok tt ->
  handler ws (pre ++ Some v :: rest) w
  = ((handler ws pre w).1, Raise AttributeError).
Proof.
  intros Hv Hpre. unfold handler. rewrite frames_loop_app.
  destruct (frames_loop ws pre (register ws w)) as [w1 [[]|e]]; [|done].
  assert (on_frame ws (Some v) w1 = (w1, Raise AttributeError)) as Hf.
  { destruct v; try done. by exfalso; eapply Hv. }
  cbn [frames_loop]. rewrite io_bind_unfold, Hf.
  by destruct (cleanup_ws_io ws w1).
Qed.

(** X20: [ensure_admin_if_needed] never deletes or changes a row and keeps
    the usernames unique; when it does not return it leaves the database
    as it was; when it returns and the configured name is not empty, an
    account of that name exists, and running it again, whatever password
    is typed, returns at once and changes nothing. *)
Theorem ensure_admin_settles (d : store) (init_admin_username : json)
    (pwd : pystr) :
  let res := ensure_admin_if_needed d init_admin_username pwd in
  rows_kept d res.1
  /\ (usernames_unique d -> usernames_unique res.1)
  /\ (res.2 <> Returned -> res.1 = d)
  /\ (res.2 = Returned ->
      (forall pwd',
         ensure_admin_if_needed res.1 init_admin_username pwd'
         = (res.1, Returned))
      /\ forall u, json_strip (py_or init_admin_username (JStr [])) = Ok u ->
                   u <> [] -> account_named res.1 u).
Proof.
  unfold ensure_admin_if_needed.
  destruct (json_strip (py_or init_admin_username (JStr [])))
    as [u|e] eqn:Eu; cbn [fst snd].
  2: { split; [apply rows_kept_refl|]. by repeat split. }
  destruct (str_truthy u) eqn:Et; cbn [negb].
  2: { split; [apply rows_kept_refl|]. split; [done|]. split; [done|].
       intros _. split; [done|]. intros u' [= <-] Hne. by destruct u. }
  destruct (get_user_by_username d u) as [[x|]|e] eqn:Eg; cbn [fst snd].
  3: { split; [apply rows_kept_refl|]. by repeat split. }
  { split; [apply rows_kept_refl|]. split; [done|].
    split; [done|]. intros _. split; [by rewrite Eg|].
    intros u' [= <-] _.
    apply get_user_by_username_Ok in Eg as [_ Eg]. symmetry in Eg.
    apply select_by_username_found in Eg as [? ?]. by exists x.1, x.2. }
  apply get_user_by_username_Ok in Eg as [Hb _].
  destruct (str_truthy pwd); cbn [negb fst snd].
  2: { split; [apply rows_kept_refl|]. by repeat split. }
  pose proof (create_user_rows_kept d u (JStr pwd) true true) as Hk.
  pose proof (create_user_unique d u (JStr pwd) true true) as Hu.
  destruct (create_user d u (JStr pwd) true true) as [d' [pk|e]] eqn:E;
    cbn [fst snd] in *.
  2: { apply create_user_Raise in E as ->. by repeat split. }
  split; [done|]. split; [done|]. split; [done|]. intros _.
  apply create_user_Ok in E as (_ & _ & _ & _ & _ & h & _ & Hd').
  assert (strip u = u) as Hst by by eapply json_strip_stripped.
  rewrite Hst in Hd'.
  assert (account_named d' u) as Hacc.
  { exists pk. eexists. rewrite Hd'. simpl. split; [apply lookup_insert_eq|done]. }
  split; [|by intros u' [= <-] _].
  intros pwd'. rewrite (get_user_by_username_bound _ _ Hb).
  destruct (select_by_username d' u) as [x|] eqn:Eg'; [done|].
  destruct Hacc as (i & row & Hrow & Hname).
  by destruct (proj1 (select_by_username_absent d' u) Eg' i row Hrow).
Qed.

(** X23: a [send] that is accepted reaches every registered connection,
    whether it has logged in or not: when the frame stores a message, one
    [message] event is sent to each connection of [CONNS], and to no
    other.  The event has the user id and the username of the sender's
    session and the id, kind, content and [reply_to] of the stored row;
    its sticker is the value that was written, of which the row holds
    what the column keeps, and its [created_at] is the [isoformat] of the
    stored time. *)
Theorem accepted_send_reaches_all (ws : conn) (sess : identity)
    (msg : list (pystr * json)) (w : world) :
  SESSIONS w !! ws = Some (LoggedIn sess) ->
  dict_get msg (py "type") = JStr (py "send") ->
  messages (db (on_frame ws (Some (JDict msg)) w).1) <> messages (db w) ->
  exists m row,
    messages (db (on_frame ws (Some (JDict msg)) w).1) !! msg_id m = Some row
    /\ msg_user_id m = user_id sess /\ m_user_id row = user_id sess
    /\ msg_username m = username sess
    /\ msg_kind m = m_kind row /\ msg_content m = m_content row
    /\ m_sticker row = column_text (msg_sticker m)
    /\ msg_reply_to m = m_reply_to row
    /\ msg_created_at m = isoformat (m_created_at row)
    /\ (forall c, c ∈ CONNS w ->
          exists a, a ∈ new_sends w (on_frame ws (Some (JDict msg)) w).1
                    /\ target a = c /\ payload a = EvMessage m)
    /\ (forall a, a ∈ new_sends w (on_frame ws (Some (JDict msg)) w).1 ->
          payload a = EvMessage m -> target a ∈ CONNS w).
Proof.
  intros Hs Ht. rewrite (on_frame_send _ _ _ _ Hs Ht). intros Hne.
  destruct (json_strip (py_or (dict_get msg (py "kind")) (JStr (py "text"))))
    as [k|e] eqn:Ek.
  2: { exfalso. apply Hne. unfold on_send. rewrite io_bind_unfold.
       unfold lift at 1. by rewrite Ek. }
  rewrite (on_send_spec _ _ _ _ k Ek) in Hne |- *.
  destruct (reply_to_arg (dict_get msg (py "reply_to"))) as [r|e];
    [|by exfalso; apply Hne].
  cbn zeta in Hne |- *.
  destruct (insert_message (db w) (user_id sess) _ (lower k) _ r)
    as [d [base|e]] eqn:E; [|by exfalso; apply Hne].
  apply insert_message_Ok in E as (Hid & Huid & _ & _ & Hat & -> & _).
  match goal with
  | |- context [broadcast_io ?obj ?w1] =>
      destruct (broadcast_io_spec obj w1)
        as (w' & -> & first & rest & (Hsent & Hdb & _) & Hfirst & Hp & Hr & _)
  end.
  cbn [fst]. simpl in Hsent, Hdb, Hfirst.
  exists {| msg_id := b_id base; msg_user_id := user_id sess;
            msg_username := username sess; msg_kind := b_kind base;
            msg_sticker := b_sticker base; msg_reply_to := b_reply_to base;
            msg_content := b_content base;
            msg_created_at := b_created_at base |}, (row_of base).
  rewrite Hdb. simpl.
  split; [apply lookup_insert_eq|]. do 8 (split; [done|]).
  rewrite (new_sends_app w w' (first ++ rest)) by done. split.
  - intros c Hc. apply elem_of_elements in Hc. rewrite <- Hfirst in Hc.
    apply list_elem_of_fmap in Hc as (a & -> & Ha). exists a.
    split; [apply elem_of_app; by left|]. split; [done|].
    by apply (proj1 (Forall_forall _ _) Hp).
  - intros a Ha Hpa. apply elem_of_app in Ha as [Ha|Ha].
    + apply elem_of_elements. rewrite <- Hfirst. by apply list_elem_of_fmap_2.
    + destruct (proj1 (Forall_forall _ _) Hr a Ha) as [online Hon].
      congruence.
Qed.

End ServerProperties.

(** ** The further theorems at concrete inputs *)

Lemma ascii_hashing_round_trips :
  hashing_round_trips (H := ascii_runtime) (JStr (py "pw1234"))
    PBKDF2_ITERS_DEFAULT.
Proof.
  split; [by vm_compute|]. split.
  { apply (bool_decide_unpack _). by vm_compute. }
  split.
  { split; [apply (bool_decide_unpack _); by vm_compute|].
    eexists. split; by vm_compute. }
  intros pw dk Hpw Hdk. vm_compute in Hpw. injection Hpw as <-.
  vm_compute in Hdk. injection Hdk as <-.
  split; [apply (bool_decide_unpack _); by vm_compute|].
  eexists. split; by vm_compute.
Qed.

(** The password "pw1234", hashed and verified. *)
Lemma hash_then_verify_witness :
  exists h,
    hash_password (H := ascii_runtime) (JStr (py "pw1234"))
      PBKDF2_ITERS_DEFAULT = Ok h
    /\ verify_password (H := ascii_runtime) (JStr (py "pw1234")) h = Ok true
    /\ hash_format (H := ascii_runtime) h.
Proof.
  destruct (hash_password (H := ascii_runtime) (JStr (py "pw1234"))
              PBKDF2_ITERS_DEFAULT) as [h|e] eqn:E;
    [|by vm_compute in E].
  exists h. split; [done|].
  exact (hash_then_verify (H := ascii_runtime) (JStr (py "pw1234"))
           PBKDF2_ITERS_DEFAULT h E ascii_hashing_round_trips).
Defined.

(** The account " alice ", created in an empty database, logs in as
    "alice". *)
Lemma created_user_authenticates_witness :
  create_user (H := ascii_runtime) empty_store (py " alice ")
    (JStr (py "pw1234")) false true
  = ((create_user (H := ascii_runtime) empty_store (py " alice ")
        (JStr (py "pw1234")) false true).1, Ok 1)
  /\ strip (py "alice") = strip (py " alice ")
  /\ exists row,
       users (create_user (H := ascii_runtime) empty_store (py " alice ")
                (JStr (py "pw1234")) false true).1 !! 1 = Some row
       /\ u_username row = strip (py " alice ")
       /\ u_is_admin row = false
       /\ authenticate (H := ascii_runtime)
            (create_user (H := ascii_runtime) empty_store (py " alice ")
               (JStr (py "pw1234")) false true).1
            (py "alice") (JStr (py "pw1234"))
          = Ok (Some (1, row)).
Proof.
  split; [by vm_compute|]. split; [by vm_compute|].
  apply (created_user_authenticates (H := ascii_runtime) empty_store _
           (py " alice ") (py "alice") (JStr (py "pw1234")) false true 1).
  - by vm_compute.
  - exact ascii_hashing_round_trips.
  - by vm_compute.
Defined.

Lemma db_two_users_unique : usernames_unique db_two_users.
Proof. apply (bool_decide_unpack _). by vm_compute. Qed.

(** Who logs in as "alice" with "pw1234" in the database of alice and
    bob. *)
Lemma authenticate_exactly_witness :
  usernames_unique db_two_users
  /\ forall i r,
       (authenticate (H := ascii_runtime) db_two_users (py "alice")
          (JStr (py "pw1234")) = Ok (Some (i, r))
        <-> driver_binds (Runtime := ascii_runtime) (JStr (strip (py "alice")))
            = true
            /\ users db_two_users !! i = Some r
            /\ u_username r = strip (py "alice")
            /\ u_is_active r = true
            /\ verify_password (H := ascii_runtime)
                 (py_or (JStr (py "pw1234")) (JStr [])) (u_password_hash r)
               = Ok true)
       /\ ((exists e,
              authenticate (H := ascii_runtime) db_two_users (py "alice")
                (JStr (py "pw1234")) = Raise e)
           <-> driver_binds (Runtime := ascii_runtime)
                 (JStr (strip (py "alice"))) = false)
       /\ ((forall j r', users db_two_users !! j = Some r' ->
                         driver_binds (Runtime := ascii_runtime)
                           (JStr (u_username r')) = true) ->
           (authenticate (H := ascii_runtime) db_two_users (py "alice")
              (JStr (py "pw1234")) = Ok (Some (i, r))
            <-> users db_two_users !! i = Some r
                /\ u_username r = strip (py "alice")
                /\ u_is_active r = true
                /\ verify_password (H := ascii_runtime)
                     (py_or (JStr (py "pw1234")) (JStr []))
                     (u_password_hash r)
                   = Ok true)).
Proof.
  split; [exact db_two_users_unique|]. intros i r.
  exact (authenticate_exactly (H := ascii_runtime) db_two_users (py "alice")
           (JStr (py "pw1234")) i r db_two_users_unique).
Defined.

(** Alice's "hi", inserted, is the last message of the history. *)
Lemma inserted_message_ends_history_witness :
  insert_message (H := ascii_runtime) db_two_users 1 (JStr (py "hi"))
    (py "text") JNull None
  = ((insert_message (H := ascii_runtime) db_two_users 1 (JStr (py "hi"))
        (py "text") JNull None).1, Ok hi_base)
  /\ exists u,
       users db_two_users !! 1 = Some u
       /\ last (fetch_history (H := ascii_runtime)
                  (insert_message (H := ascii_runtime) db_two_users 1
                     (JStr (py "hi")) (py "text") JNull None).1 80)
          = Some {| msg_id := b_id hi_base; msg_user_id := 1;
                    msg_username := u_username u;
                    msg_kind := b_kind hi_base;
                    msg_sticker :=
                      column_text (Runtime := ascii_runtime)
                        (b_sticker hi_base);
                    msg_reply_to := b_reply_to hi_base;
                    msg_content := b_content hi_base;
                    msg_created_at :=
                      column_isoformat (Runtime := ascii_runtime)
                        (utcnow (Runtime := ascii_runtime)) |}.
Proof.
  split; [by vm_compute|].
  destruct (users db_two_users !! 1) as [u|] eqn:E; [|by vm_compute in E].
  exists u. split; [done|].
  apply (inserted_message_ends_history (H := ascii_runtime) db_two_users _ 1
           (JStr (py "hi")) (py "text") JNull None hi_base u 80);
    [by vm_compute|done].
Defined.

(** Alice sends "hi" while every send to connection 2 raises: what
    becomes of connection 2. *)
Lemma frame_leaves_others_witness :
  2%nat <> 1%nat
  /\ ((2%nat ∈ CONNS (on_frame (H := second_is_dead) 1%nat (Some hi_frame)
                        alice_and_peer).1
       <-> 2%nat ∈ CONNS alice_and_peer
           /\ ~ 2%nat ∈ evicted
                  (new_sends alice_and_peer
                     (on_frame (H := second_is_dead) 1%nat (Some hi_frame)
                        alice_and_peer).1))
      /\ SESSIONS (on_frame (H := second_is_dead) 1%nat (Some hi_frame)
                     alice_and_peer).1 !! 2%nat
         = if decide (2%nat ∈ evicted
                        (new_sends alice_and_peer
                           (on_frame (H := second_is_dead) 1%nat
                              (Some hi_frame) alice_and_peer).1))
           then None else SESSIONS alice_and_peer !! 2%nat).
Proof.
  split; [lia|].
  apply (frame_leaves_others (H := second_is_dead) 1%nat 2%nat
           (Some hi_frame) alice_and_peer). lia.
Defined.

(** The database of alice and bob through alice's run. *)
Lemma server_keeps_database_valid_witness :
  usernames_unique (db (initial_world db_two_users))
  /\ messages_valid (db (initial_world db_two_users))
  /\ usernames_unique
       (db (run_events (H := ascii_runtime) alice_says_hi
              (initial_world db_two_users)))
  /\ messages_valid
       (db (run_events (H := ascii_runtime) alice_says_hi
              (initial_world db_two_users))).
Proof.
  assert (messages_valid (db (initial_world db_two_users))) as Hv.
  { intros i r Hr. by vm_compute in Hr. }
  split; [exact db_two_users_unique|]. split; [exact Hv|].
  exact (server_keeps_database_valid (H := ascii_runtime) alice_says_hi
           (initial_world db_two_users) db_two_users_unique Hv).
Defined.

(** Alice's session after her run. *)
Lemma sessions_are_accounts_witness :
  SESSIONS (run_events (H := ascii_runtime) alice_says_hi
              (initial_world db_two_users)) !! 1%nat
  = Some (LoggedIn alice)
  /\ exists row,
       users (db (run_events (H := ascii_runtime) alice_says_hi
                    (initial_world db_two_users))) !! user_id alice
       = Some row
       /\ u_username row = username alice
       /\ u_is_admin row = is_admin alice
       /\ u_is_active row = true.
Proof.
  split; [by vm_compute|].
  apply (sessions_are_accounts (H := ascii_runtime) db_two_users
           alice_says_hi 1%nat alice).
  by vm_compute.
Defined.

(** The broadcast of alice's "hi". *)
Lemma sent_messages_are_stored_witness :
  sent (run_events (H := ascii_runtime) alice_says_hi
          (initial_world db_two_users)) !! 3%nat
  = Some {| target := 1%nat; payload := EvMessage hi_message;
            delivered := true |}
  /\ message_backed (H := ascii_runtime) Broadcast
       (db (run_events (H := ascii_runtime) alice_says_hi
              (initial_world db_two_users))) hi_message.
Proof.
  assert (sent (run_events (H := ascii_runtime) alice_says_hi
                  (initial_world db_two_users)) !! 3%nat
          = Some {| target := 1%nat; payload := EvMessage hi_message;
                    delivered := true |}) as Hl by by vm_compute.
  split; [exact Hl|].
  by apply (sent_messages_are_stored (H := ascii_runtime) db_two_users
              alice_says_hi _ hi_message (list_elem_of_lookup_2 _ _ _ Hl)).
Defined.

(** The [login_ok] of alice's run. *)
Lemma announced_names_are_accounts_witness :
  sent (run_events (H := ascii_runtime) alice_says_hi
          (initial_world db_two_users)) !! 0%nat
  = Some {| target := 1%nat; payload := EvLoginOk (py "alice") false;
            delivered := true |}
  /\ account_named
       (db (run_events (H := ascii_runtime) alice_says_hi
              (initial_world db_two_users))) (py "alice").
Proof.
  assert (sent (run_events (H := ascii_runtime) alice_says_hi
                  (initial_world db_two_users)) !! 0%nat
          = Some {| target := 1%nat; payload := EvLoginOk (py "alice") false;
                    delivered := true |}) as Hl by by vm_compute.
  split; [exact Hl|].
  apply (announced_names_are_accounts (H := ascii_runtime) db_two_users
           alice_says_hi _ (py "alice") (list_elem_of_lookup_2 _ _ _ Hl)).
  right; left. by exists false.
Defined.

(** The admin creates the account carol. *)
Lemma admin_creates_user_witness :
  SESSIONS admin_world !! 1%nat = Some (LoggedIn root)
  /\ is_admin root = true
  /\ on_frame (H := ascii_runtime) 1%nat (Some (JDict create_carol_fields))
       admin_world
     = (record_send
          {| target := 1%nat; payload := EvAdminCreateUserOk (py "carol");
             delivered := true |}
          (with_db
             (create_user (H := ascii_runtime) (db admin_world) (py "carol")
                (JStr (py "pw9999")) false true).1
             (CallCreateUser (py "carol")) admin_world), Ok tt)
  /\ db (on_frame (H := ascii_runtime) 1%nat
           (Some (JDict create_carol_fields)) admin_world).1
     = (create_user (H := ascii_runtime) (db admin_world) (py "carol")
          (JStr (py "pw9999")) false true).1.
Proof.
  split; [by vm_compute|]. split; [done|].
  pose proof (admin_creates_user (H := ascii_runtime) 1%nat root
                create_carol_fields admin_world (py "carol")) as Hw.
  destruct Hw as [Hw1 Hw2]; [by vm_compute..|].
  split; [|exact Hw2]. rewrite Hw1. by vm_compute.
Defined.

(** Alice asks who is online. *)
Lemma who_online_reply_witness :
  SESSIONS alice_world !! 1%nat = Some (LoggedIn alice)
  /\ on_frame (H := ascii_runtime) 1%nat (Some (JDict who_online_fields))
       alice_world
     = replied (H := ascii_runtime) 1%nat
         (EvPresence (online_usernames (H := ascii_runtime) alice_world))
         alice_world
  /\ (username alice <> [] ->
      username alice ∈ online_usernames (H := ascii_runtime) alice_world).
Proof.
  split; [by vm_compute|].
  apply (who_online_reply (H := ascii_runtime) 1%nat alice who_online_fields
           alice_world); by vm_compute.
Defined.

(** Alice sends a frame of type "ping". *)
Lemma unknown_type_reply_witness :
  SESSIONS alice_world !! 1%nat = Some (LoggedIn alice)
  /\ on_frame (H := ascii_runtime) 1%nat (Some (JDict ping_fields))
       alice_world
     = replied (H := ascii_runtime) 1%nat
         (EvError (UnknownType (dict_get ping_fields (py "type"))))
         alice_world.
Proof.
  split; [by vm_compute|].
  apply (unknown_type_reply (H := ascii_runtime) 1%nat alice ping_fields
           alice_world); [by vm_compute|].
  intros t Ht.
  repeat (apply elem_of_cons in Ht as [->|Ht]; [by vm_compute|]).
  by apply elem_of_nil in Ht.
Defined.

(** A connection whose first frame is the number 5. *)
Lemma non_object_frame_ends_connection_witness :
  (forall msg, JInt 5 <> JDict msg)
  /\ handler (H := ascii_runtime) 1%nat ([] ++ Some (JInt 5) :: [Some hi_frame])
       (initial_world db_two_users)
     = ((handler (H := ascii_runtime) 1%nat [] (initial_world db_two_users)).1,
        Raise AttributeError).
Proof.
  split; [done|].
  apply (non_object_frame_ends_connection (H := ascii_runtime) 1%nat []
           [Some hi_frame] (JInt 5) (initial_world db_two_users)); done.
Defined.

(** Alice's "hi" reaches the connection that has not logged in. *)
Lemma accepted_send_reaches_all_witness :
  SESSIONS alice_and_peer !! 1%nat = Some (LoggedIn alice)
  /\ SESSIONS alice_and_peer !! 2%nat = Some Anonymous
  /\ messages (db (on_frame (H := ascii_runtime) 1%nat (Some hi_frame)
                     alice_and_peer).1) <> messages (db alice_and_peer)
  /\ exists m,
       msg_user_id m = user_id alice /\ msg_username m = username alice
       /\ forall c, c ∈ CONNS alice_and_peer ->
            exists a,
              a ∈ new_sends alice_and_peer
                    (on_frame (H := ascii_runtime) 1%nat (Some hi_frame)
                       alice_and_peer).1
              /\ target a = c /\ payload a = EvMessage m.
Proof.
  assert (messages (db (on_frame (H := ascii_runtime) 1%nat (Some hi_frame)
                          alice_and_peer).1) <> messages (db alice_and_peer))
    as Hne.
  { intros Heq. apply (f_equal (fun t => t !! 1)) in Heq.
    by vm_compute in Heq. }
  split; [by vm_compute|]. split; [by vm_compute|]. split; [exact Hne|].
  destruct (accepted_send_reaches_all (H := ascii_runtime) 1%nat alice
              [(py "type", JStr (py "send")); (py "kind", JStr (py "text"));
               (py "content", JStr (py "hi"))]
              alice_and_peer)
    as (m & row & _ & Hu & _ & Hn & _ & _ & _ & _ & _ & Hall & _);
    [by vm_compute|by vm_compute|exact Hne|].
  exists m. by split; [|split].
Defined.
